(** * smtLayer/vmUtils.py: a shallow embedding

    The module drives external command line tools (the IUCV client, smcli,
    dasdfmt, fdisk, mkfs, ...) through [subprocess.check_output], decodes
    their textual output into result dictionaries and retries or cleans up
    on failure.  The embedding keeps the shape of the Python code:

    - result dictionaries are finite maps from field names to Python values;
    - a function body runs in a small monad with exceptions that counts
      the subprocesses spawned so far and collects the trace of observable
      effects (log lines, spawned commands, sleeps);
    - the outcome of the n-th spawned subprocess is given by an environment
      [env : nat -> proc_result];
    - the message catalogue [smtLayer.msgs] and the configuration
      [zvmsdk.config] are parameters of the functions that read them;
    - text is held as the bytes of its UTF-8 encoding, and what Python does
      character by character ([split], [lstrip], [int], [\w] of a regular
      expression) is done on the characters that the bytes encode. *)

From Stdlib Require Import ZArith QArith String Ascii List Lia.
From stdpp Require Import gmap strings list pretty.

Local Open Scope string_scope.
Local Open Scope Z_scope.
Local Open Scope list_scope.

(** ** Python text operations used by the module

    A [str] is held as the bytes of its UTF-8 encoding, one [ascii] for each
    byte.  A character of the ASCII range is one byte, and no byte of that
    range occurs inside the encoding of another character, so cutting at,
    searching for and joining with ASCII text give the same on the bytes as
    on the characters.  Where Python looks at single characters (white
    space, decimal digits, the characters of a string one by one), the
    encoding is read back. *)

Module PyStr.

Definition LF : ascii := "010"%char.
Definition LFs : string := String LF "".

Definition snoc (s : string) (c : ascii) : string := s +:+ String c "".

Fixpoint drop (n : nat) (s : string) : string :=
  match n, s with
  | O, _ => s
  | S k, String _ s' => drop k s'
  | S _, EmptyString => EmptyString
  end.

(** [s.startswith(p)] *)
Fixpoint starts_with (p s : string) : bool :=
  match p with
  | EmptyString => true
  | String a p' =>
      match s with
      | EmptyString => false
      | String b s' => Ascii.eqb a b && starts_with p' s'
      end
  end.

(** [sep.join(l)] *)
Fixpoint join (sep : string) (l : list string) : string :=
  match l with
  | [] => ""
  | [x] => x
  | x :: rest => x +:+ sep +:+ join sep rest
  end.

(** *** Characters *)

Definition byte (c : ascii) : N := N_of_ascii c.

(** A byte that continues a character: 10xxxxxx. *)
Definition is_cont (c : ascii) : bool :=
  ((128 <=? byte c) && (byte c <? 192))%N.

Definition cont (c : ascii) : N := (byte c - 128)%N.

(** The character at the front of [s]: its code point and the number of
    bytes that encode it.  [None] at the end of the text and where the
    bytes are no UTF-8 (a stray continuation byte, a cut or overlong
    encoding, a surrogate, a code point above U+10FFFF); decoded text has
    no such place. *)
Definition next_char (s : string) : option (N * nat) :=
  match s with
  | EmptyString => None
  | String a s1 =>
      let x := byte a in
      if (x <? 128)%N then Some (x, 1%nat)
      else if (x <? 224)%N then
        match s1 with
        | String b _ =>
            if (194 <=? x)%N && is_cont b
            then Some (((x - 192) * 64 + cont b)%N, 2%nat)
            else None
        | EmptyString => None
        end
      else if (x <? 240)%N then
        match s1 with
        | String b (String c _) =>
            let cp := ((x - 224) * 4096 + cont b * 64 + cont c)%N in
            if is_cont b && is_cont c && (2048 <=? cp)%N
               && negb ((55296 <=? cp)%N && (cp <? 57344)%N)
            then Some (cp, 3%nat)
            else None
        | _ => None
        end
      else
        match s1 with
        | String b (String c (String d _)) =>
            let cp := ((x - 240) * 262144 + cont b * 4096 + cont c * 64
                       + cont d)%N in
            if is_cont b && is_cont c && is_cont d && (65536 <=? cp)%N
               && (cp <? 1114112)%N
            then Some (cp, 4%nat)
            else None
        | _ => None
        end
  end.

(** The number of bytes of the character at the front of [s] when [p]
    holds of it, and 0 when it does not or no character is there. *)
Definition char_len (p : N -> bool) (s : string) : nat :=
  match next_char s with
  | Some (c, k) => if p c then k else 0%nat
  | None => 0%nat
  end.

(** The characters of [s] in their order, as iterating over a string
    gives them: a byte that continues a character stays with it. *)
Fixpoint chars_go (cur : string) (s : string) : list string :=
  match s with
  | EmptyString => match cur with EmptyString => [] | _ => [cur] end
  | String c s' =>
      if is_cont c
      then chars_go (snoc cur c) s'
      else match cur with
           | EmptyString => chars_go (String c "") s'
           | _ => cur :: chars_go (String c "") s'
           end
  end.

Definition chars (s : string) : list string := chars_go "" s.

(** [s.split(sep)] for a non-empty separator: every non-overlapping
    occurrence, left to right, empty pieces kept. *)
Fixpoint split_go (sep : string) (skip : nat) (cur : string) (s : string)
  : list string :=
  match s with
  | EmptyString => [cur]
  | String c s' =>
      match skip with
      | S k => split_go sep k cur s'
      | O =>
          if starts_with sep s
          then cur :: split_go sep (String.length sep - 1) "" s'
          else split_go sep 0 (snoc cur c) s'
      end
  end.

Definition split (sep s : string) : list string := split_go sep 0 "" s.

(** [s.split(sep, 1)]: cut at the first occurrence only. *)
Fixpoint cut (sep : string) (before : string) (s : string)
  : option (string * string) :=
  if starts_with sep s then Some (before, drop (String.length sep) s)
  else match s with
       | EmptyString => None
       | String c s' => cut sep (snoc before c) s'
       end.

Definition split1 (sep s : string) : list string :=
  match cut sep "" s with
  | Some (a, b) => [a; b]
  | None => [s]
  end.

(** [str.isspace] of a character: the white space of Unicode. *)
Definition is_space (c : N) : bool :=
  (((9 <=? c) && (c <=? 13)) || ((28 <=? c) && (c <=? 32)) || (c =? 133)
   || (c =? 160) || (c =? 5760) || ((8192 <=? c) && (c <=? 8202))
   || (c =? 8232) || (c =? 8233) || (c =? 8239) || (c =? 8287)
   || (c =? 12288))%N.

(** [s.split()]: runs of white space separate, no empty piece.  [skip]
    counts the bytes still to pass of a white-space character. *)
Fixpoint split_ws_go (skip : nat) (cur : string) (s : string)
  : list string :=
  match s with
  | EmptyString => match cur with EmptyString => [] | _ => [cur] end
  | String c s' =>
      match skip with
      | S k => split_ws_go k cur s'
      | O =>
          match char_len is_space s with
          | O => split_ws_go 0 (snoc cur c) s'
          | S k =>
              match cur with
              | EmptyString => split_ws_go k "" s'
              | _ => cur :: split_ws_go k "" s'
              end
          end
      end
  end.

Definition split_ws (s : string) : list string := split_ws_go 0 "" s.

(** [s.lstrip()] *)
Fixpoint lstrip_go (skip : nat) (s : string) : string :=
  match s with
  | EmptyString => EmptyString
  | String _ s' =>
      match skip with
      | S k => lstrip_go k s'
      | O =>
          match char_len is_space s with
          | O => s
          | S k => lstrip_go k s'
          end
      end
  end.

Definition lstrip (s : string) : string := lstrip_go 0 s.

(** [x in s] for strings: substring test. *)
Fixpoint contains (x s : string) : bool :=
  starts_with x s
  || match s with
     | EmptyString => false
     | String _ s' => contains x s'
     end.

(** *** [int(s)] in base 10

    [int] first turns every decimal digit into the ASCII digit of its
    value and every white-space character outside ASCII into a blank; a
    character of ASCII stays, any other character is an error.  It then
    reads the ASCII text: white space as C has it around an optional sign
    and digits with single underscores between them, at most
    [int_max_str_digits] digits.  [None] stands for ValueError. *)

(** The zeros of the decimal digits outside ASCII (Unicode 14.0, the
    database of Python 3.11); the digits 1 to 9 follow each of them. *)
Definition decimal_zeros : list N :=
  [1632; 1776; 1984; 2406; 2534; 2662; 2790; 2918; 3046; 3174; 3302;
   3430; 3558; 3664; 3792; 3872; 4160; 4240; 6112; 6160; 6470; 6608;
   6784; 6800; 6992; 7088; 7232; 7248; 42528; 43216; 43264; 43472; 43504;
   43600; 44016; 65296; 66720; 68912; 69734; 69872; 69942; 70096; 70384;
   70736; 70864; 71248; 71360; 71472; 71904; 72016; 72784; 73040; 73120;
   92768; 92864; 93008; 120782; 120792; 120802; 120812; 120822; 123200;
   123632; 125264; 130032]%N.

(** [unicodedata.decimal] outside ASCII. *)
Definition decimal (c : N) : option N :=
  match List.find (fun z => (z <=? c) && (c <? z + 10))%N decimal_zeros with
  | Some z => Some (c - z)%N
  | None => None
  end.

Fixpoint to_ascii (skip : nat) (s : string) : option string :=
  match s with
  | EmptyString => Some EmptyString
  | String a s' =>
      match skip with
      | S k => to_ascii k s'
      | O =>
          match next_char s with
          | Some (c, S k) =>
              if (c <? 128)%N then String a <$> to_ascii 0 s'
              else if is_space c then String " " <$> to_ascii k s'
              else match decimal c with
                   | Some d =>
                       String (ascii_of_N (48 + d)) <$> to_ascii k s'
                   | None => None
                   end
          | _ => None
          end
      end
  end.

(** White space of the C locale: blank, \t, \n, \v, \f, \r. *)
Definition is_c_space (c : ascii) : bool :=
  (((9 <=? byte c) && (byte c <=? 13)) || (byte c =? 32))%N.

Fixpoint lstrip_c (s : string) : string :=
  match s with
  | String c s' => if is_c_space c then lstrip_c s' else s
  | EmptyString => EmptyString
  end.

Definition strip_c (s : string) : string :=
  String.rev (lstrip_c (String.rev (lstrip_c s))).

Definition digit_of (c : ascii) : option Z :=
  if ((48 <=? byte c) && (byte c <=? 57))%N
  then Some (Z.of_N (byte c) - 48) else None.

(** The default of [sys.get_int_max_str_digits()]. *)
Definition int_max_str_digits : N := 4300.

Fixpoint digits (acc : Z) (count : N) (after_digit : bool) (s : string)
  : option Z :=
  match s with
  | EmptyString =>
      if after_digit && (count <=? int_max_str_digits)%N then Some acc
      else None
  | String c s' =>
      match digit_of c with
      | Some d => digits (10 * acc + d) (count + 1)%N true s'
      | None =>
          if Ascii.eqb c "_" && after_digit then digits acc count false s'
          else None
      end
  end.

Definition int (s : string) : option Z :=
  match to_ascii 0 s with
  | Some t =>
      match strip_c t with
      | String "-" s' => Z.opp <$> digits 0 0 false s'
      | String "+" s' => digits 0 0 false s'
      | s' => digits 0 0 false s'
      end
  | None => None
  end.

(** [re.search(pre + '(.+?)' + stop, s)]: the group of the leftmost match.
    The dot does not match a line feed; the group is lazy, so it ends at
    the first [stop] that follows its first character. *)
Fixpoint lazy_tail (stop : ascii) (acc : string) (s : string)
  : option string :=
  match s with
  | EmptyString => None
  | String c s' =>
      if Ascii.eqb c stop then Some acc
      else if Ascii.eqb c LF then None
      else lazy_tail stop (snoc acc c) s'
  end.

Definition lazy_group (stop : ascii) (s : string) : option string :=
  match s with
  | EmptyString => None
  | String c s' =>
      if Ascii.eqb c LF then None else lazy_tail stop (String c "") s'
  end.

Fixpoint search_group (pre : string) (stop : ascii) (s : string)
  : option string :=
  match (if starts_with pre s
         then lazy_group stop (drop (String.length pre) s) else None) with
  | Some g => Some g
  | None =>
      match s with
      | EmptyString => None
      | String _ s' => search_group pre stop s'
      end
  end.

End PyStr.

(** ** Values, exceptions, dictionaries *)

(** What a subprocess wrote: bytes that decode as UTF-8 to [text], or bytes
    that do not; [lossy] is then the text [bytes.decode(errors='replace')]
    yields. *)
Inductive stdout :=
| Utf8 (text : string)
| NotUtf8 (lossy : string).

(** The exceptions that occur in the module.  All of them are subclasses of
    [Exception]; [text] is what [str(e)] gives for the ones the runtime
    raises at a spawn. *)
Inductive exn :=
| CalledProcessError (returncode : Z) (output : stdout)
| TimeoutExpired (text : string)
| PermissionError (text : string)
| OtherError (name text : string)
| KeyError (key : string)
| IndexError
| TypeError
| UnboundLocalError (var : string)
| UnicodeDecodeError.

Definition exn_name (e : exn) : string :=
  match e with
  | CalledProcessError _ _ => "CalledProcessError"
  | TimeoutExpired _ => "TimeoutExpired"
  | PermissionError _ => "PermissionError"
  | OtherError n _ => n
  | KeyError _ => "KeyError"
  | IndexError => "IndexError"
  | TypeError => "TypeError"
  | UnboundLocalError _ => "UnboundLocalError"
  | UnicodeDecodeError => "UnicodeDecodeError"
  end.

(** Python values that are stored in result dictionaries or handed to the
    log and to message templates.  [PExcText e] is [str(e)]. *)
Inductive pyval :=
| PInt (z : Z)
| PNum (q : Q)
| PStr (s : string)
| PBytes (b : stdout)
| PList (l : list string)
| PExcText (e : exn)
| PNone.

Abbreviation dict := (gmap string pyval).

(** [v == n] for an integer literal [n]. *)
Definition eq_int (v : pyval) (n : Z) : bool :=
  match v with
  | PInt z => z =? n
  | PNum q => Qeq_bool q (inject_Z n)
  | _ => false
  end.

(** Truth value of an object. *)
Definition truthy (v : pyval) : bool :=
  match v with
  | PInt z => negb (z =? 0)
  | PNum q => negb (Qeq_bool q 0)
  | PStr s => negb (String.eqb s "")
  | PBytes (Utf8 s) => negb (String.eqb s "")
  | PBytes (NotUtf8 _) => true
  | PList l => match l with [] => false | _ => true end
  | PExcText _ => true
  | PNone => false
  end.

(** A command handed to [subprocess.check_output]: an argument vector, or
    one string run by the shell ([shell=True]). *)
Inductive pycmd :=
| Argv (args : list string)
| Shell (line : string).

(** [' '.join(cmd)]; on a string it joins its characters. *)
Definition join_cmd (c : pycmd) : string :=
  match c with
  | Argv l => PyStr.join " " l
  | Shell s => PyStr.join " " (PyStr.chars s)
  end.

(** [l[i] = v] on a Python list: negative indices count from the end,
    an index out of range raises IndexError ([None]). *)
Definition list_set {A} (l : list A) (i : Z) (v : A) : option (list A) :=
  let n := Z.of_nat (length l) in
  let j := if i <? 0 then i + n else i in
  if (0 <=? j) && (j <? n) then Some (<[Z.to_nat j := v]> l) else None.

(** ** The message catalogue [smtLayer.msgs]

    [msgs.msg[id]] is a list whose element 0 is a dictionary of default
    result fields and whose element 1 is a [%]-template.  The catalogue is
    not part of this module; it is a parameter.  [defaults id] is the
    dictionary as it stands when the function is entered, and
    [template id args] is [msgs.msg[id][1] % args]. *)
Record Catalog := {
  defaults : string -> dict;
  template : string -> list pyval -> string
}.

(** The two socket timeouts of [config.CONF.zvm]; [None] when unset. *)
Record Config := {
  smapi_socket_long_call_timeout_seconds : option Z;
  smapi_socket_timeout_seconds : option Z
}.

Definition conf_set (o : option Z) : option Z :=
  match o with
  | Some z => if z =? 0 then None else Some z
  | None => None
  end.

(** ** Effects *)

Inductive event :=
| SysLog (line : list pyval)               (* rh.printSysLog *)
| PrintLn (kind : string) (line : list pyval)   (* rh.printLn *)
| UpdateResults (r : dict)                 (* rh.updateResults *)
| Exec (cmd : pycmd) (timeout : option Z)  (* subprocess.check_output *)
| Sleep (secs : Q)                         (* time.sleep *)
| GetSMAPIStatus
| RecordSuccess
| RecordFail.

Inductive proc_result :=
| Completed (out : stdout)
| Raised (e : exn).

Inductive result (A : Type) :=
| Ret (a : A)
| Raise (e : exn).
Arguments Ret {A} a.
Arguments Raise {A} e.

(** A run of a piece of code that starts when [n] subprocesses have been
    spawned: how it ends, how many subprocesses have been spawned then, and
    the effects it had, in order. *)
Record run (A : Type) := Run {
  value : result A;
  calls : nat;
  trace : list event
}.
Arguments Run {A} value calls trace.
Arguments value {A} r.
Arguments calls {A} r.
Arguments trace {A} r.

Definition M (A : Type) : Type := nat -> run A.

Definition ret {A} (a : A) : M A := fun n => Run (Ret a) n [].
Definition raise {A} (e : exn) : M A := fun n => Run (Raise e) n [].
Definition bind {A B} (m : M A) (k : A -> M B) : M B :=
  fun n =>
    let r := m n in
    match value r with
    | Ret a =>
        let r' := k a (calls r) in
        Run (value r') (calls r') (trace r ++ trace r')
    | Raise e => Run (Raise e) (calls r) (trace r)
    end.
(** [try: body except ... as e: handler e] *)
Definition try_except {A} (body : M A) (handler : exn -> M A) : M A :=
  fun n =>
    let r := body n in
    match value r with
    | Ret a => r
    | Raise e =>
        let r' := handler e (calls r) in
        Run (value r') (calls r') (trace r ++ trace r')
    end.
(** Run [m] and hand back how it ended instead of raising. *)
Definition catch {A} (m : M A) : M (result A) :=
  fun n => let r := m n in Run (Ret (value r)) (calls r) (trace r).

Notation "'let*' x ':=' m 'in' k" := (bind m (fun x => k))
  (at level 10, x name, m at level 100, k at level 200).
Notation "'let*' ' p ':=' m 'in' k" :=
  (bind m (fun x => match x with p => k end))
  (at level 10, p pattern, m at level 100, k at level 200).
Notation "m ;; k" := (bind m (fun _ => k))
  (at level 100, k at level 200, right associativity).

Definition emit (e : event) : M unit := fun n => Run (Ret tt) n [e].

Definition lift {A} (o : option A) (e : exn) : M A :=
  match o with
  | Some a => ret a
  | None => raise e
  end.

(** [d[k]] *)
Definition getitem (d : dict) (k : string) : M pyval :=
  lift (d !! k) (KeyError k).

Definition modId : string := "VMU".

Definition DEFAULT_SMAPI_SOCKET_LONG_CALL_TIMEOUT_SECONDS : Z := 900.
Definition DEFAULT_SMAPI_SOCKET_TIMEOUT_SECONDS : Z := 240.

Definition mkdict (l : list (string * pyval)) : dict := list_to_map l.

Section Environment.

(** The outcome of the n-th subprocess that is spawned. *)
Variable env : nat -> proc_result.
Variable msgs : Catalog.
Variable conf : Config.

Definition check_output (cmd : pycmd) (timeout : option Z) : M stdout :=
  fun n =>
    Run (match env n with
         | Completed out => Ret out
         | Raised e => Raise e
         end) (S n) [Exec cmd timeout].

(** [bytes.decode(b)] *)
Definition decode (b : stdout) : M string :=
  match b with
  | Utf8 s => ret s
  | NotUtf8 _ => raise UnicodeDecodeError
  end.

Definition decode_replace (b : stdout) : string :=
  match b with
  | Utf8 s => s
  | NotUtf8 s => s
  end.

(** ** execCmdThruIUCV *)

(** [for i in hideInLog: l[i] = '<hidden>']; [None] when an index is out
    of range. *)
Fixpoint mask (l : list string) (hideInLog : list Z) : option (list string) :=
  match hideInLog with
  | [] => Some l
  | i :: rest =>
      match list_set l i "<hidden>" with
      | Some l' => mask l' rest
      | None => None
      end
  end.

Definition hide (l : list string) (hideInLog : list Z) : M (list string) :=
  lift (mask l hideInLog) IndexError.

Definition opt_int (t : option Z) : pyval :=
  match t with
  | Some z => PInt z
  | None => PNone
  end.

(** [msg += s]: a list is extended by the characters of [s]. *)
Definition iadd (msg : pyval) (s : string) : pyval :=
  match msg with
  | PList l => PList (l ++ PyStr.chars s)
  | PStr t => PStr (t +:+ s)
  | other => other
  end.

Definition iucvpath : string := "/opt/zthin/bin/IUCV/".

(** The handler of [CalledProcessError]: recover rc and rs from the client's
    output and render the message of the error category. *)
Definition iucv_failure (userid strCmd : string) (returncode : Z)
    (raw : stdout) : M dict :=
  let* output := decode raw in
  let '(rc, msg) :=
    match PyStr.search_group "Return code " "," output with
    | Some g =>
        match PyStr.int g with
        | Some n => (n, PList [])
        | None =>
            (returncode,
             PStr (template msgs "0311"
                     [PStr modId; PStr userid; PStr strCmd; PInt returncode;
                      PStr g; PStr output]))
        end
    | None => (returncode, PList [])
    end in
  let '(rs, msg) :=
    if negb (truthy msg)
    then match PyStr.search_group "Reason code " "." output with
         | Some g =>
             match PyStr.int g with
             | Some n => (n, msg)
             | None =>
                 (0, PStr (template msgs "0312"
                             [PStr modId; PStr userid; PStr strCmd; PInt rc;
                              PStr g; PStr output]))
             end
         | None => (0, msg)
         end
    else (0, msg) in
  let args := [PStr modId; PStr userid; PStr strCmd; PInt rc; PInt rs;
               PStr output] in
  let msg :=
    if truthy msg then msg
    else if rc =? 1 then PStr (template msgs "0313" args)
    else if rc =? 2 then PStr (template msgs "0314" args)
    else if rc =? 4 then PStr (template msgs "0315" args)
    else if rc =? 8 then PStr (template msgs "0316" args)
    else if rc =? 16 then PStr (template msgs "0317" args)
    else if rc =? 32 then iadd msg (template msgs "0318" args)
    else PStr (template msgs "0319" args) in
  ret (mkdict [("overallRC", PInt 2); ("rc", PInt rc); ("rs", PInt rs);
               ("errno", PInt 0); ("response", msg)]).

Definition iucv_cmd (userid strCmd : string) : pycmd :=
  Argv ["sudo"; iucvpath +:+ "iucvclnt"; userid; strCmd].

Definition execCmdThruIUCV (userid strCmd : string) (hideInLog : list Z)
    (timeout : option Z) : M dict :=
  match hideInLog with
  | [] =>
      emit (SysLog [PStr "Enter vmUtils.execCmdThruIUCV, userid: ";
                    PStr userid; PStr " cmd: "; PStr strCmd;
                    PStr " timeout: "; opt_int timeout])
  | _ =>
      let* logCmd := hide (PyStr.split " " strCmd) hideInLog in
      emit (SysLog [PStr "Enter vmUtils.execCmdThruIUCV, userid: ";
                    PStr userid; PStr " cmd: "; PStr (PyStr.join " " logCmd);
                    PStr " timeout: "; opt_int timeout])
  end ;;
  let results : dict :=
    mkdict [("overallRC", PInt 0); ("rc", PInt 0); ("rs", PInt 0);
            ("errno", PInt 0); ("response", PList [])] in
  let cmd := iucv_cmd userid strCmd in
  let* results :=
    try_except
      (let* out := check_output cmd timeout in
       let* text := decode out in
       ret (<["response" := PStr text]> results))
      (fun e =>
         match e with
         | TimeoutExpired _ =>
             (* the first handler: timeouts never reach the handler below *)
             emit (SysLog [PStr "Timeout exception in vmUtils.execCmdThruIUCV"]) ;;
             ret (<["response" :=
                      PStr (template msgs "0501"
                              [PStr modId; PStr strCmd; PStr (exn_name e);
                               PExcText e])]> (defaults msgs "0501"))
         | CalledProcessError returncode raw =>
             iucv_failure userid strCmd returncode raw
         | PermissionError _ =>
             (* except (subprocess.TimeoutExpired, PermissionError) *)
             ret (<["response" :=
                      PStr (template msgs "0320"
                              [PStr modId; PStr userid; PStr strCmd; PInt 64;
                               PInt 408; PExcText e])]>
                    (<["rs" := PInt 408]>
                       (<["rc" := PInt 64]>
                          (<["overallRC" := PInt 3]> results))))
         | _ =>
             ret (<["response" :=
                      PStr (template msgs "0421"
                              [PStr modId; PStr strCmd; PStr (exn_name e);
                               PExcText e])]> (defaults msgs "0421"))
         end) in
  let* rc := getitem results "rc" in
  emit (SysLog [PStr "Exit vmUtils.execCmdThruIUCV, rc: "; rc]) ;;
  ret results.

(** ** disableEnableDisk *)

Definition chccwdev_delays : list Q :=
  [0.1; 0.4; 1; 1.5; 3; 7; 15; 32; 30; 30; 60; 60; 60; 60; 60]%Q.

Definition success3 : dict :=
  mkdict [("overallRC", PInt 0); ("rc", PInt 0); ("rs", PInt 0)].

Definition success4 : dict :=
  mkdict [("overallRC", PInt 0); ("rc", PInt 0); ("rs", PInt 0);
          ("response", PStr "")].

(** [results['overallRC'] == 2 and results['rc'] == 8 and
     results['rs'] == 1 and option == '-d'], evaluated left to right. *)
Definition unknown_disk (results : dict) (option : string) : M bool :=
  let* orc := getitem results "overallRC" in
  if eq_int orc 2 then
    let* rc := getitem results "rc" in
    if eq_int rc 8 then
      let* rs := getitem results "rs" in
      ret (eq_int rs 1 && String.eqb option "-d")
    else ret false
  else ret false.

Definition chccwdev (option vaddr : string) : string :=
  "sudo /sbin/chccwdev " +:+ option +:+ " " +:+ vaddr +:+ " 2>&1".

Fixpoint disableEnableDisk_loop (userid vaddr option : string)
    (results : dict) (delays : list Q) : M dict :=
  match delays with
  | [] => ret results
  | secs :: rest =>
      let strCmd := chccwdev option vaddr in
      let* results := execCmdThruIUCV userid strCmd [] None in
      let* orc := getitem results "overallRC" in
      if eq_int orc 0 then ret results
      else
        let* nothing_to_do := unknown_disk results option in
        if nothing_to_do then ret success4
        else emit (Sleep secs) ;;
             disableEnableDisk_loop userid vaddr option results rest
  end.

Definition disableEnableDisk (userid vaddr option : string) : M dict :=
  emit (SysLog [PStr "Enter vmUtils.disableEnableDisk, userid: "; PStr userid;
                PStr " addr: "; PStr vaddr; PStr " option: "; PStr option]) ;;
  let* results :=
    disableEnableDisk_loop userid vaddr option success4 chccwdev_delays in
  let* orc := getitem results "overallRC" in
  emit (SysLog [PStr "Exit vmUtils.disableEnableDisk, rc: "; orc]) ;;
  ret results.

(** ** waitForOSState *)

(** The test of the loop body: the probe succeeded and 'up' is awaited, or
    it failed and 'down' is awaited. *)
Definition state_found (desiredState : string) (orc : pyval) : bool :=
  if eq_int orc 0 then String.eqb desiredState "up"
  else String.eqb desiredState "down".

Definition ping : string := "echo 'ping'".

(** The body of [for i in range(1, maxQueries + 1)], [ixs] being the values
    of [i] still to come; the result is [stateFnd]. *)
Fixpoint waitForOSState_loop (rh_userid desiredState : string)
    (maxQueries : Z) (sleepSecs : Q) (ixs : list Z) : M bool :=
  match ixs with
  | [] => ret false
  | i :: rest =>
      let* results := execCmdThruIUCV rh_userid ping [] None in
      let* orc := getitem results "overallRC" in
      if state_found desiredState orc then ret true
      else
        (if i <? maxQueries then emit (Sleep sleepSecs) else ret tt) ;;
        waitForOSState_loop rh_userid desiredState maxQueries sleepSecs rest
  end.

(** [range(1, n + 1)] *)
Definition range1 (n : Z) : list Z :=
  map Z.of_nat (seq 1 (Z.to_nat n)).

Definition waitForOSState (rh_userid userid desiredState : string)
    (maxQueries : Z) (sleepSecs : Q) : M dict :=
  emit (SysLog [PStr "Enter vmUtils.waitForOSState, userid: "; PStr userid;
                PStr " state: "; PStr desiredState;
                PStr " maxWait: "; PInt maxQueries;
                PStr " sleepSecs: "; PNum sleepSecs]) ;;
  let* stateFnd :=
    waitForOSState_loop rh_userid desiredState maxQueries sleepSecs
      (range1 maxQueries) in
  let* results :=
    if stateFnd then ret success3
    else
      let maxWait := (inject_Z maxQueries * sleepSecs)%Q in
      emit (PrintLn "ES"
              [PStr (template msgs "0413"
                       [PStr modId; PStr userid; PStr desiredState;
                        PNum maxWait])]) ;;
      ret (defaults msgs "0413") in
  let* orc := getitem results "overallRC" in
  emit (SysLog [PStr "Exit vmUtils.waitForOSState, rc: "; orc]) ;;
  ret results.

(** ** invokeSMCLI *)

(** [l[i]] for a non-negative literal index. *)
Definition item (l : list string) (i : nat) : M string :=
  lift (l !! i) IndexError.

(** [SOCKET_LONG_CALL_APIS = ('VMRELOCATE')] is a string, so
    [api in SOCKET_LONG_CALL_APIS] is a substring test. *)
Definition long_call (api : string) : bool :=
  PyStr.contains api "VMRELOCATE".

(** The value of [--timeout]. *)
Definition lgr_socket_timeput (api : string) : Z :=
  if long_call api then
    match conf_set (smapi_socket_long_call_timeout_seconds conf) with
    | Some z => z
    | None =>
        match conf_set (smapi_socket_timeout_seconds conf) with
        | Some z => z
        | None => DEFAULT_SMAPI_SOCKET_LONG_CALL_TIMEOUT_SECONDS
        end
    end
  else
    match conf_set (smapi_socket_timeout_seconds conf) with
    | Some z => z
    | None => DEFAULT_SMAPI_SOCKET_TIMEOUT_SECONDS
    end.

(** The log lines about the timeout. *)
Definition smapi_timeout (api : string) : M unit :=
  let t := lgr_socket_timeput api in
  if long_call api then
    emit (SysLog [PStr "Setting timeout for long-duration APIs..."]) ;;
    emit (SysLog [PStr "long-duration timeout = "; PInt t])
  else
    emit (SysLog [PStr "Setting timeout for general APIs..."]) ;;
    emit (SysLog [PStr "general timeout = "; PInt t]).

Definition smcli_results0 : dict :=
  mkdict [("overallRC", PInt 0); ("rc", PInt 0); ("rs", PInt 0);
          ("errno", PInt 0); ("response", PList []); ("strError", PStr "")].

Definition orc_values : list Z := [8; 24; 25].

(** Validation of the three header words; the result is the dictionary
    bound to [results] and the flag [goodHeader]. *)
Definition smcli_codes (api strCmd h0 h1 : string) (codes : list string)
  : M (dict * bool) :=
  if (length codes <? 3)%nat then
    ret (<["response" :=
             PStr (template msgs "0301"
                     [PStr modId; PStr api; PStr strCmd; PStr h0; PStr h1])]>
           (defaults msgs "0301"), false)
  else
    let* c0 := item codes 0 in
    let* c1 := item codes 1 in
    let* c2 := item codes 2 in
    (* word 1: the overall rc *)
    let '(results, goodHeader, orcError) :=
      match PyStr.int c0 with
      | Some n =>
          (<["overallRC" := PInt n]> smcli_results0, true,
           negb (existsb (Z.eqb n) orc_values))
      | None => (smcli_results0, false, true)
      end in
    let results :=
      if orcError
      then (* results['overallRC'] = 25 is lost: results is rebound *)
           <["response" :=
               PStr (template msgs "0302"
                       [PStr modId; PStr api; PStr c0; PStr strCmd; PStr h0;
                        PStr h1])]> (defaults msgs "0302")
      else results in
    (* word 2: rc *)
    let '(results, goodHeader) :=
      match PyStr.int c1 with
      | Some n => (<["rc" := PInt n]> results, goodHeader)
      | None =>
          (<["response" :=
               PStr (template msgs "0303"
                       [PStr modId; PStr api; PStr c1; PStr strCmd; PStr h0;
                        PStr h1])]> (defaults msgs "0303"), false)
      end in
    (* word 3: rs or errno *)
    match PyStr.int c2 with
    | Some word3 =>
        let* orc := getitem results "overallRC" in
        if eq_int orc 8 then ret (<["rs" := PInt word3]> results, goodHeader)
        else if eq_int orc 25
             then ret (<["errno" := PInt word3]> results, goodHeader)
             else ret (results, goodHeader)
    | None =>
        ret (<["response" :=
                 PStr (template msgs "0304"
                         [PStr modId; PStr api; PStr c1; PStr strCmd; PStr h0;
                          PStr h1])]> (defaults msgs "0304"), false)
    end.

(** The handler of [CalledProcessError].  [e.output] is a bytes object, so
    the test [e.output == ''] is never true. *)
Definition smcli_failure (api strCmd : string) (raw : stdout) : M dict :=
  emit RecordFail ;;
  let* text := decode raw in
  let smcliResp := PyStr.split1 PyStr.LFs text in
  let* line0 := item smcliResp 0 in
  let rcHeader :=
    match PyStr.split1 "(details)" line0 with
    | [] => [""; ""]
    | [h] => [h; ""]
    | l => l
    end in
  let* h0 := item rcHeader 0 in
  let* h1 := item rcHeader 1 in
  let codes := PyStr.split " " h0 in
  let* '(results, goodHeader) := smcli_codes api strCmd h0 h1 codes in
  let results := <["strError" := PStr (PyStr.lstrip h1)]> results in
  if goodHeader : bool then
    let* orc := getitem results "overallRC" in
    let* rc := getitem results "rc" in
    let* rs := getitem results "rs" in
    let* errno := getitem results "errno" in
    let* payload := item smcliResp 1 in
    ret (<["response" :=
             PStr (template msgs "0300"
                     [PStr modId; PStr api; orc; rc; rs; errno; PStr strCmd;
                      PStr payload])]> results)
  else ret results.

Definition smcli : list string :=
  ["sudo"; "/opt/zthin/bin/smcli"].

(** The entry log.  [logParms = parms] binds a second name to the same
    list, so masking an entry of logParms masks it in parms: the result is
    the list [parms] as it stands after the log. *)
Definition smcli_enter (rh_userid api : string) (parms : list string)
    (hideInLog : list Z) : M (list string) :=
  match hideInLog with
  | [] =>
      emit (SysLog [PStr "Enter vmUtils.invokeSMCLI, userid: ";
                    PStr rh_userid; PStr ", function: "; PStr api;
                    PStr ", parms: "; PList parms]) ;;
      ret parms
  | _ =>
      let* logParms := hide parms hideInLog in
      emit (SysLog [PStr "Enter vmUtils.invokeSMCLI, userid: ";
                    PStr rh_userid; PStr ", function: "; PStr api;
                    PStr ", parms: "; PList logParms]) ;;
      ret logParms
  end.

(** The argument vector [cmd + parms] once the timeout is appended. *)
Definition smcli_argv (api : string) (parms : list string) : list string :=
  (smcli ++ [api; "--addRCheader"]) ++
  (parms ++ ["--timeout"; pretty (lgr_socket_timeput api)]).

(** The [try] statement around the call of smcli. *)
Definition smcli_call (api : string) (argv : list string) : M dict :=
  try_except
    (let* out := check_output (Argv argv) None in
     let smcliResp := PyStr.split1 PyStr.LFs (decode_replace out) in
     let* payload := item smcliResp 1 in
     emit RecordSuccess ;;
     ret (<["rc" := PInt 0]>
            (<["overallRC" := PInt 0]>
               (<["response" := PStr payload]> smcli_results0))))
    (fun e =>
       match e with
       | CalledProcessError _ raw =>
           smcli_failure api (PyStr.join " " argv) raw
       | _ =>
           ret (<["response" :=
                    PStr (template msgs "0305"
                            [PStr modId; PStr (PyStr.join " " argv);
                             PStr (exn_name e); PExcText e])]>
                  (defaults msgs "0305"))
       end).

Definition invokeSMCLI (rh_userid api : string) (parms : list string)
    (hideInLog : list Z) : M dict :=
  let* parms := smcli_enter rh_userid api parms hideInLog in
  smapi_timeout api ;;
  emit GetSMAPIStatus ;;
  let* results := smcli_call api (smcli_argv api parms) in
  let* orc := getitem results "overallRC" in
  emit (SysLog [PStr "Exit vmUtils.invokeSMCLI, rc: "; orc]) ;;
  ret results.

End Environment.

(** ** installFS *)

(** The variable [out] holds text, or the bytes of a subprocess before they
    are decoded. *)
Inductive pyout :=
| OStr (s : string)
| OBytes (b : stdout).

(** The local variables of [installFS] that outlive a step.  [device] is
    [None] as long as no assignment to it was executed. *)
Record frame := {
  results : dict;
  out : pyout;
  device : option string;
  cmd : pycmd;
  strCmd : string
}.

Definition with_results (f : frame) (r : dict) : frame :=
  {| results := r; out := out f; device := device f; cmd := cmd f;
     strCmd := strCmd f |}.
Definition with_out (f : frame) (o : pyout) : frame :=
  {| results := results f; out := o; device := device f; cmd := cmd f;
     strCmd := strCmd f |}.
Definition with_device (f : frame) (d : string) : frame :=
  {| results := results f; out := out f; device := Some d; cmd := cmd f;
     strCmd := strCmd f |}.
Definition with_cmd (f : frame) (c : pycmd) : frame :=
  {| results := results f; out := out f; device := device f; cmd := c;
     strCmd := strCmd f |}.
Definition with_strCmd (f : frame) (s : string) : frame :=
  {| results := results f; out := out f; device := device f; cmd := cmd f;
     strCmd := s |}.

Definition retry_delays : list Q := [0.1; 0.2; 0.3; 0.5; 1; 2; -1]%Q.

Definition installFS_results0 : dict :=
  mkdict [("overallRC", PInt 0); ("rc", PInt 0); ("rs", PInt 0);
          ("errno", PInt 0)].

Definition settle_cmd : string :=
  "which udevadm &> /dev/null && udevadm settle || udevsettle".

Section InstallFS.

Variable env : nat -> proc_result.
Variable msgs : Catalog.

(** [for sleep_secs in schedule: try_num += 1; try: out = check_output(cmd);
    log; break; except CalledProcessError: sleep and go on if
    sleep_secs > 0, else raise].  [Some out] when an attempt succeeded,
    [None] when the schedule ran out. *)
Fixpoint retry_loop (c : pycmd) (label : string)
    (success_log : stdout -> list pyval) (try_num : Z) (schedule : list Q)
  : M (option stdout) :=
  match schedule with
  | [] => ret None
  | sleep_secs :: rest =>
      let try_num := try_num + 1 in
      try_except
        (let* b := check_output env c None in
         emit (SysLog (success_log b)) ;;
         ret (Some b))
        (fun e =>
           match e with
           | CalledProcessError returncode output =>
               if Qlt_le_dec 0 sleep_secs then
                 emit (SysLog [PStr "Num "; PInt try_num; PStr " try `";
                               PStr label; PStr "` failed (retry after ";
                               PNum sleep_secs; PStr " seconds): rc=";
                               PInt returncode; PStr " msg=";
                               PBytes output]) ;;
                 emit (Sleep sleep_secs) ;;
                 retry_loop c label success_log try_num rest
               else raise e
           | _ => raise e
           end)
  end.

(** [try: <spawn, binding out when it returns bytes>; <rest>
     except ... as e: <handler>].  The handler sees [out] bound to the
     bytes when the spawn had returned before the exception. *)
Definition attempt (f : frame) (spawn : M (option stdout))
    (rest : frame -> M frame) (handler : exn -> frame -> M frame)
  : M frame :=
  let* r := catch spawn in
  match r with
  | Ret o =>
      let f' := match o with
                | Some b => with_out f (OBytes b)
                | None => f
                end in
      try_except (rest f') (fun e => handler e f')
  | Raise e => handler e f
  end.

(** [if isinstance(out, bytes): out = bytes.decode(out)] *)
Definition decode_out (f : frame) : M frame :=
  match out f with
  | OBytes b => let* s := decode b in ret (with_out f (OStr s))
  | OStr _ => ret f
  end.

Definition fail0415 (label : string) (returncode : Z) (output : stdout)
    (f : frame) : M frame :=
  emit (PrintLn "ES"
          [PStr (template msgs "0415"
                   [PStr modId; PStr label; PInt returncode;
                    PBytes output])]) ;;
  let r := <["rs" := PInt returncode]> (defaults msgs "0415") in
  emit (UpdateResults r) ;;
  ret (with_results f r).

Definition fail0421 (label : string) (e : exn) (f : frame) : M frame :=
  emit (PrintLn "ES"
          [PStr (template msgs "0421"
                   [PStr modId; PStr label; PStr (exn_name e);
                    PExcText e])]) ;;
  emit (UpdateResults (defaults msgs "0421")) ;;
  ret (with_results f (defaults msgs "0421")).

(** The two handlers most steps share; [label] is what the message names
    as the command. *)
Definition handlers (label : string) (e : exn) (f : frame) : M frame :=
  match e with
  | CalledProcessError returncode output => fail0415 label returncode output f
  | _ => fail0421 label e f
  end.

(** Handlers of the steps whose second handler first rebinds
    [strCmd = " ".join(cmd)]. *)
Definition handlers_rejoin (label : string) (e : exn) (f : frame) : M frame :=
  match e with
  | CalledProcessError returncode output => fail0415 label returncode output f
  | _ =>
      let s := join_cmd (cmd f) in
      fail0421 s e (with_strCmd f s)
  end.

(** [if results['overallRC'] == 0 and <cond>: <step>] *)
Definition gate (cond : bool) (step : frame -> M frame) (f : frame)
  : M frame :=
  let* orc := getitem (results f) "overallRC" in
  if eq_int orc 0 && cond then step f else ret f.

(** Reading the local variable [device]. *)
Definition get_device (f : frame) : M string :=
  lift (device f) (UnboundLocalError "device").

Definition invoking (f : frame) : M unit :=
  emit (SysLog [PStr "Invoking: "; PStr (strCmd f)]).

Definition link_cmd (rh_userid vaddr mode : string) : pycmd :=
  Argv ["sudo"; "/opt/zthin/bin/linkdiskandbringonline"; rh_userid; vaddr;
        mode].

(** Get access to the disk. *)
Definition acquire (rh_userid vaddr mode : string) (f : frame) : M frame :=
  let c := link_cmd rh_userid vaddr mode in
  let f := with_strCmd (with_cmd f c) (join_cmd c) in
  invoking f ;;
  attempt f
    (retry_loop c (strCmd f)
       (fun _ => [PStr "Run `"; PStr (strCmd f); PStr "` successfully."])
       0 retry_delays)
    decode_out
    (fun e f =>
       match e with
       | CalledProcessError returncode output =>
           fail0415 (strCmd f) returncode output f
       | _ =>
           emit (PrintLn "ES"
                   [PStr (template msgs "0421"
                            [PStr modId; PStr (strCmd f); PStr (exn_name e);
                             PExcText e])]) ;;
           ret (with_results f (defaults msgs "0421"))
       end).

(** Find the device name in the output of linkdiskandbringonline. *)
Definition locate (f : frame) : M frame :=
  match out f with
  | OBytes _ => raise TypeError
  | OStr text =>
      match PyStr.search_group "Success:" PyStr.LF text with
      | Some g =>
          let parts := PyStr.split_ws g in
          if (9 <? length parts)%nat then
            let* name := item parts 9 in
            ret (with_device f ("/dev/" +:+ name))
          else
            let f := with_strCmd f (join_cmd (cmd f)) in
            emit (PrintLn "ES"
                    [PStr (template msgs "0416"
                             [PStr modId; PStr "Success:"; PInt 10;
                              PStr (strCmd f); PStr text])]) ;;
            emit (UpdateResults (defaults msgs "0416")) ;;
            ret (with_results f (defaults msgs "0416"))
      | None =>
          let f := with_strCmd f (join_cmd (cmd f)) in
          emit (PrintLn "ES"
                  [PStr (template msgs "0417"
                           [PStr modId; PStr "Success:"; PStr (strCmd f);
                            PStr text])]) ;;
          emit (UpdateResults (defaults msgs "0417")) ;;
          ret (with_results f (defaults msgs "0417"))
      end
  end.

(** dasdfmt the disk. *)
Definition dasdfmt (f : frame) : M frame :=
  let* dev := get_device f in
  let c := Argv ["sudo"; "/sbin/dasdfmt"; "-y"; "-b"; "4096"; "-d"; "cdl";
                 "-v"; dev] in
  let f := with_strCmd (with_cmd f c) (join_cmd c) in
  invoking f ;;
  attempt f (let* b := check_output env c None in ret (Some b))
    decode_out (handlers_rejoin (strCmd f)).

(** Settle the devices. *)
Definition settle (f : frame) : M frame :=
  let f := with_strCmd f settle_cmd in
  invoking f ;;
  attempt f (check_output env (Shell settle_cmd) None ;; ret None)
    decode_out (handlers_rejoin settle_cmd).

(** Prepare the partition with fdasd. *)
Definition fdasd (f : frame) : M frame :=
  let* dev := get_device f in
  let c := Argv ["sudo"; "/sbin/fdasd"; "-a"; dev] in
  let f := with_strCmd (with_cmd f c) (join_cmd c) in
  invoking f ;;
  attempt f (let* b := check_output env c None in ret (Some b))
    decode_out (handlers (strCmd f)).

Definition ran_with_output (line : string) (b : stdout) : list pyval :=
  [PStr "Run `"; PStr line; PStr "` success with output: "; PBytes b].

(** Delete the existing partition table (FBA disks). *)
Definition fdisk_delete (f : frame) : M frame :=
  let* dev := get_device f in
  let line := "sudo /sbin/fdisk " +:+ dev +:+ " << EOF" +:+ PyStr.LFs +:+ "g"
              +:+ PyStr.LFs +:+ "w" +:+ PyStr.LFs +:+ "EOF" in
  let f := with_cmd f (Shell line) in
  emit (SysLog [PStr "Invoking: sudo /sbin/fdisk "; PStr dev;
                PStr " << EOF\nd\nw\nEOF "]) ;;
  attempt f
    (let* b := check_output env (Shell line) None in
     emit (SysLog (ran_with_output line b)) ;;
     ret (Some b))
    decode_out (handlers line).

(** Create the partition with fdisk, retrying while the table is not
    ready. *)
Definition fdisk_create (f : frame) : M frame :=
  let* dev := get_device f in
  let line := "sudo /sbin/fdisk " +:+ dev +:+ " << EOF" +:+ PyStr.LFs +:+ "n"
              +:+ PyStr.LFs +:+ "p" +:+ PyStr.LFs +:+ "1" +:+ PyStr.LFs
              +:+ PyStr.LFs +:+ PyStr.LFs +:+ "w" +:+ PyStr.LFs +:+ "EOF" in
  let f := with_cmd f (Shell line) in
  emit (SysLog [PStr "Invoking: sudo /sbin/fdisk "; PStr dev;
                PStr " << EOF\nn\np\n1\n\n\nw\nEOF"]) ;;
  attempt f
    (retry_loop (Shell line) line (ran_with_output line) 0 retry_delays)
    decode_out (handlers line).

Definition mkfs_cmd (fileSystem dev : string) : pycmd :=
  if String.eqb fileSystem "swap" then Argv ["sudo"; "mkswap"; dev]
  else if String.eqb fileSystem "xfs"
       then Argv ["sudo"; "mkfs.xfs"; "-f"; dev]
       else Argv ["sudo"; "mkfs"; "-F"; "-t"; fileSystem; dev].

(** Install the file system on the first partition. *)
Definition mkfs (fileSystem : string) (f : frame) : M frame :=
  let* dev := get_device f in
  let dev := dev +:+ "1" in
  let f := with_device f dev in
  let c := mkfs_cmd fileSystem dev in
  let f := with_strCmd (with_cmd f c) (join_cmd c) in
  invoking f ;;
  attempt f
    (retry_loop c (strCmd f)
       (fun _ => [PStr "Run `"; PStr (strCmd f); PStr "` successfully."])
       0 retry_delays)
    (fun f =>
       let* f := decode_out f in
       emit (PrintLn "N" [PStr "File system: "; PStr fileSystem;
                          PStr " is installed."]) ;;
       ret f)
    (handlers (strCmd f)).

Definition flush_cmd (dev : string) : pycmd :=
  Argv ["sudo"; "/usr/sbin/blockdev"; "--flushbufs"; dev].

Definition detach_cmd (rh_userid vaddr : string) : pycmd :=
  Argv ["sudo"; "/opt/zthin/bin/offlinediskanddetach"; rh_userid; vaddr].

(** Flush the disk buffers, then give up the disk.  [diskAccessed] is set
    to True just before, so the step always runs. *)
Definition release (rh_userid vaddr : string) (f : frame) : M frame :=
  let* dev := get_device f in
  let c := flush_cmd dev in
  let f := with_strCmd (with_cmd f c) (join_cmd c) in
  invoking f ;;
  let* f :=
    attempt f (let* b := check_output env c None in ret (Some b))
      decode_out
      (fun e f =>
         emit (PrintLn "WS" [PStr "Executing "; PStr (strCmd f);
                             PStr " failed: "; PExcText e]) ;;
         ret f) in
  let c := detach_cmd rh_userid vaddr in
  let f := with_strCmd (with_cmd f c) (join_cmd c) in
  invoking f ;;
  attempt f (let* b := check_output env c None in ret (Some b))
    decode_out (handlers (strCmd f)).

Definition installFS_frame0 : frame :=
  {| results := installFS_results0; out := OStr ""; device := None;
     cmd := Argv []; strCmd := "" |}.

(** Everything up to, and excluding, the creation of the file system. *)
Definition installFS_prepare (rh_userid vaddr mode diskType : string)
  : M frame :=
  let* f := acquire rh_userid vaddr mode installFS_frame0 in
  let* f := gate true locate f in
  let* f := gate (String.eqb diskType "3390") dasdfmt f in
  let* f := gate (String.eqb diskType "3390") settle f in
  let* f := gate (String.eqb diskType "3390") fdasd f in
  let* f := gate (String.eqb diskType "9336") fdisk_delete f in
  let* f := gate (String.eqb diskType "9336") fdisk_create f in
  gate true settle f.

(** The creation of the file system, the release of the disk and the
    return. *)
Definition installFS_finish (rh_userid vaddr fileSystem : string)
    (f : frame) : M dict :=
  let* f := gate true (mkfs fileSystem) f in
  let* f := release rh_userid vaddr f in
  let* rc := getitem (results f) "rc" in
  emit (SysLog [PStr "Exit vmUtils.installFS, rc: "; rc]) ;;
  ret (results f).

Definition installFS (rh_userid vaddr mode fileSystem diskType : string)
  : M dict :=
  emit (SysLog [PStr "Enter vmUtils.installFS, userid: "; PStr rh_userid;
                PStr ", vaddr: "; PStr vaddr; PStr ", mode: "; PStr mode;
                PStr ", file system: "; PStr fileSystem;
                PStr ", disk type: "; PStr diskType]) ;;
  let* f := installFS_prepare rh_userid vaddr mode diskType in
  installFS_finish rh_userid vaddr fileSystem f.

End InstallFS.

(** ** Regular expressions of the module on the state of a virtual machine *)

Module PyRe.

(** [\w] in the ASCII range: letters, digits and the underscore.  A
    character outside the ASCII range is held as characters with codes
    above 127, which are no word characters of a bytes pattern. *)
Definition is_word (c : ascii) : bool :=
  let n := nat_of_ascii c in
  ((48 <=? n)%nat && (n <=? 57)%nat) || ((65 <=? n)%nat && (n <=? 90)%nat)
  || ((97 <=? n)%nat && (n <=? 122)%nat) || (n =? 95)%nat.

(** [re.search('(^HCP\w\w\w045E|^HCP\w\w\w361E)', s)] finds a match.  The
    pattern is compiled without [re.MULTILINE], so [^] is the start of [s]
    and nowhere else. *)
Definition logged_off (s : string) : bool :=
  match s with
  | String "H" (String "C" (String "P"
      (String a (String b (String c rest))))) =>
      is_word a && is_word b && is_word c
      && (PyStr.starts_with "045E" rest || PyStr.starts_with "361E" rest)
  | _ => false
  end.

(** The same pattern as a str pattern, as waitForVMState searches it in
    decoded text: [\w] is then a character of any script that is
    alphanumeric, or the underscore.  Which characters outside ASCII are
    alphanumeric is a matter of the Unicode database of the runtime;
    [alnum] is its answer for a code point. *)
Section StrPattern.

Variable alnum : N -> bool.

Definition is_word_char (c : N) : bool :=
  if (c <? 128)%N then is_word (ascii_of_N c) else alnum c.

(** [\w] at the front of [s], and what follows it. *)
Definition word (s : string) : option string :=
  match PyStr.char_len is_word_char s with
  | O => None
  | k => Some (PyStr.drop k s)
  end.

Definition logged_off_str (s : string) : bool :=
  match s with
  | String "H" (String "C" (String "P" s0)) =>
      match word s0 with
      | Some s1 =>
          match word s1 with
          | Some s2 =>
              match word s2 with
              | Some rest =>
                  PyStr.starts_with "045E" rest
                  || PyStr.starts_with "361E" rest
              | None => false
              end
          | None => false
          end
      | None => false
      end
  | _ => false
  end.

End StrPattern.

End PyRe.

(** ** isLoggedOn, waitForVMState, purgeReader *)

Definition vmcp_query_user (userid : string) : pycmd :=
  Argv ["sudo"; "/sbin/vmcp"; "query"; "user"; userid].

Section Queries.

Variable env : nat -> proc_result.
Variable msgs : Catalog.
Variable conf : Config.

(** What the Unicode database of the runtime says on whether a character
    outside ASCII is alphanumeric (see [PyRe.logged_off_str]). *)
Variable alnum : N -> bool.

(** The try statement of isLoggedOn; the result is the dictionary bound
    to [results] after it.  The bytes pattern is matched against
    [e.output] as it is.  Its ten characters are ASCII, and decoding keeps
    ASCII bytes in place, so the match is decided on the text of the
    output, also where later bytes are no UTF-8. *)
Definition logon_query (userid : string) : M dict :=
  let cmd := vmcp_query_user userid in
  let strCmd := join_cmd cmd in
  try_except
    (check_output env cmd None ;; ret success3)
    (fun e =>
       match e with
       | CalledProcessError returncode output =>
           if PyRe.logged_off (decode_replace output)
           then ret (<["rs" := PInt 1]> success3)
           else
             emit (PrintLn "ES"
                     [PStr (template msgs "0415"
                              [PStr modId; PStr strCmd; PInt returncode;
                               PBytes output])]) ;;
             ret (<["rs" := PInt returncode]> (defaults msgs "0415"))
       | _ =>
           emit (PrintLn "ES"
                   [PStr (template msgs "0421"
                            [PStr modId; PStr strCmd; PStr (exn_name e);
                             PExcText e])]) ;;
           ret (defaults msgs "0421")
       end).

Definition isLoggedOn (userid : string) : M dict :=
  emit (SysLog [PStr "Enter vmUtils.isLoggedOn, userid: "; PStr userid]) ;;
  emit (SysLog [PStr "Invoking: ";
                PStr (join_cmd (vmcp_query_user userid))]) ;;
  let* results := logon_query userid in
  let* orc := getitem results "overallRC" in
  let* rc := getitem results "rc" in
  let* rs := getitem results "rs" in
  emit (SysLog [PStr "Exit vmUtils.isLoggedOn, overallRC: "; orc;
                PStr " rc: "; rc; PStr " rs: "; rs]) ;;
  ret results.

(** One query of the loop of waitForVMState.  [Some b] stands for a
    [break] with [stateFnd = b], [None] for reaching the end of the loop
    body.  The record bound to [results] on an abnormal failure is dropped:
    [results] is bound anew after the loop. *)
Definition query_user (userid desiredState : string) : M (option bool) :=
  let cmd := vmcp_query_user userid in
  let strCmd := join_cmd cmd in
  emit (SysLog [PStr "Invoking: "; PStr strCmd]) ;;
  try_except
    (let* b := check_output env cmd None in
     let* out := decode b in
     emit (SysLog [PStr "Query user output: "; PStr out]) ;;
     ret (if String.eqb desiredState "on" then Some true else None))
    (fun e =>
       match e with
       | CalledProcessError returncode output =>
           let* out := decode output in
           emit (SysLog [PStr "Query user output: "; PStr out]) ;;
           if PyRe.logged_off_str alnum out
           then ret (if String.eqb desiredState "off" then Some true
                     else None)
           else
             emit (PrintLn "ES"
                     [PStr (template msgs "0415"
                              [PStr modId; PStr strCmd; PInt returncode;
                               PStr out])]) ;;
             ret (Some false)
       | _ =>
           emit (PrintLn "ES"
                   [PStr (template msgs "0421"
                            [PStr modId; PStr strCmd; PStr (exn_name e);
                             PExcText e])]) ;;
           ret None
       end).

(** The body of [for i in range(1, maxQueries + 1)], [ixs] being the values
    of [i] still to come; the result is [stateFnd]. *)
Fixpoint waitForVMState_loop (userid desiredState : string)
    (maxQueries : Z) (sleepSecs : Q) (ixs : list Z) : M bool :=
  match ixs with
  | [] => ret false
  | i :: rest =>
      let* brk := query_user userid desiredState in
      match brk with
      | Some stateFnd => ret stateFnd
      | None =>
          (if i <? maxQueries then emit (Sleep sleepSecs) else ret tt) ;;
          waitForVMState_loop userid desiredState maxQueries sleepSecs rest
      end
  end.

(** [maxQueries] is an integer, on which [int(maxQueries)] is the
    identity. *)
Definition waitForVMState (userid desiredState : string)
    (maxQueries : Z) (sleepSecs : Q) : M dict :=
  emit (SysLog [PStr "Enter vmUtils.waitForVMState, userid: "; PStr userid;
                PStr " state: "; PStr desiredState;
                PStr " maxWait: "; PInt maxQueries;
                PStr " sleepSecs: "; PNum sleepSecs]) ;;
  let* stateFnd :=
    waitForVMState_loop userid desiredState maxQueries sleepSecs
      (range1 maxQueries) in
  let* results :=
    if stateFnd then ret success3
    else
      let maxWait := (inject_Z maxQueries * sleepSecs)%Q in
      emit (PrintLn "ES"
              [PStr (template msgs "0414"
                       [PStr modId; PStr userid; PStr desiredState;
                        PNum maxWait])]) ;;
      ret (defaults msgs "0414") in
  let* orc := getitem results "overallRC" in
  emit (SysLog [PStr "Exit vmUtils.waitForVMState, rc: "; orc]) ;;
  ret results.



End Queries.

(** ** A catalogue and an environment to run the functions on

    The catalogue below follows the layout of [smtLayer.msgs]: defaults
    with [overallRC], [rc] and [rs], and a template per message.  It is
    used to run the definitions on concrete inputs. *)

Definition sample_codes (orc rc rs : Z) : dict :=
  mkdict [("overallRC", PInt orc); ("rc", PInt rc); ("rs", PInt rs)].

Definition sample_defaults (id : string) : dict :=
  if String.eqb id "0301" then sample_codes 25 301 0
  else if String.eqb id "0302" then sample_codes 25 302 0
  else if String.eqb id "0303" then sample_codes 25 303 0
  else if String.eqb id "0304" then sample_codes 25 304 0
  else if String.eqb id "0305" then sample_codes 99 305 0
  else if String.eqb id "0413" then sample_codes 4 99 413
  else if String.eqb id "0415" then sample_codes 3 415 0
  else if String.eqb id "0416" then sample_codes 4 4 416
  else if String.eqb id "0417" then sample_codes 4 4 417
  else if String.eqb id "0421" then sample_codes 4 4 421
  else if String.eqb id "0501" then sample_codes 5 1 501
  else sample_codes 4 4 0.

Definition sample_msgs : Catalog :=
  {| defaults := sample_defaults;
     template := fun id _ => "ULT" +:+ modId +:+ id +:+ "E" |}.

Definition sample_conf : Config :=
  {| smapi_socket_long_call_timeout_seconds := None;
     smapi_socket_timeout_seconds := None |}.

(** The UTF-8 encoding of a code point, to write text outside ASCII in
    the examples. *)
Definition utf8 (c : N) : string :=
  (if c <? 128 then String (ascii_of_N c) ""
   else if c <? 2048
   then String (ascii_of_N (192 + c / 64))
          (String (ascii_of_N (128 + c mod 64)) "")
   else if c <? 65536
   then String (ascii_of_N (224 + c / 4096))
          (String (ascii_of_N (128 + (c / 64) mod 64))
             (String (ascii_of_N (128 + c mod 64)) ""))
   else String (ascii_of_N (240 + c / 262144))
          (String (ascii_of_N (128 + (c / 4096) mod 64))
             (String (ascii_of_N (128 + (c / 64) mod 64))
                (String (ascii_of_N (128 + c mod 64)) ""))))%N.

(** A sample of what the Unicode database says: the letters of Latin-1
    are alphanumeric. *)
Definition sample_alnum (c : N) : bool :=
  ((192 <=? c) && (c <=? 255) && negb (c =? 215) && negb (c =? 247))%N.

(** The environment that answers the successive spawns with [l], and with
    [last] once [l] is used up. *)
Definition script (l : list proc_result) (last : proc_result)
  : nat -> proc_result :=
  fun n => default last (l !! n).

(** Projections of a trace. *)
Definition execs (t : list event) : list pycmd :=
  omap (fun e => match e with Exec c _ => Some c | _ => None end) t.

Definition sleeps (t : list event) : list Q :=
  omap (fun e => match e with Sleep s => Some s | _ => None end) t.

(** A trace without what goes to the log and to the operator. *)
Definition is_output (e : event) : bool :=
  match e with
  | SysLog _ | PrintLn _ _ => true
  | _ => false
  end.

Definition effects (t : list event) : list event :=
  List.filter (fun e => negb (is_output e)) t.

(** ** Vocabulary of the statements *)

(** The subprocesses [n .. n+k-1] exit with a non-zero status. *)
Definition fails_from (env : nat -> proc_result) (n k : nat) : Prop :=
  forall i, (i < k)%nat ->
    exists rc o, env (n + i)%nat = Raised (CalledProcessError rc o).

(** The first [k] delays of a schedule are ones a retry loop sleeps on. *)
Definition sleeps_on (sch : list Q) (k : nat) : Prop :=
  forall i d, (i < k)%nat -> sch !! i = Some d -> (0 < d)%Q.

(** The commands of the release step of installFS. *)
Definition is_release (c : pycmd) : bool :=
  match c with
  | Argv (_ :: prog :: _) =>
      String.eqb prog "/usr/sbin/blockdev"
      || String.eqb prog "/opt/zthin/bin/offlinediskanddetach"
  | _ => false
  end.

Definition releases (t : list event) : list pycmd :=
  List.filter is_release (execs t).

(** [m] never spawns a command of the release step. *)
Inductive no_release {A} (m : M A) : Prop :=
| NoRelease : (forall n, releases (trace (m n)) = []) -> no_release m.

(** [m] spawns nothing and has no effect. *)
Inductive silent {A} (m : M A) : Prop :=
| Silent : (forall n, calls (m n) = n /\ trace (m n) = []) -> silent m.

(** A record of execCmdThruIUCV on which the loop of disableEnableDisk
    sleeps and tries again: not a success, and the test for a disk unknown
    to Linux is false. *)
Definition retried (option : string) (r : dict) : Prop :=
  exists v, r !! "overallRC" = Some v /\ eq_int v 0 = false /\
            value (unknown_disk r option 0%nat) = Ret false.

(** The trace of the polling loop of waitForOSState over the indices [ixs]
    when no probe finds the awaited state: the probes, with a sleep after
    each one whose index is below [maxQueries]. *)
Fixpoint polling_trace (env : nat -> proc_result) (msgs : Catalog)
    (rh_userid : string) (maxQueries : Z) (sleepSecs : Q) (ixs : list Z)
    (n : nat) : list event :=
  match ixs with
  | [] => []
  | i :: rest =>
      trace (execCmdThruIUCV env msgs rh_userid ping [] None n) ++
      (if i <? maxQueries then [Sleep sleepSecs] else []) ++
      polling_trace env msgs rh_userid maxQueries sleepSecs rest (S n)
  end.

(** The probe started when [n] subprocesses have been spawned does not find
    the awaited state. *)
Definition probe_misses (env : nat -> proc_result) (msgs : Catalog)
    (rh_userid desiredState : string) (n : nat) : Prop :=
  exists r v,
    value (execCmdThruIUCV env msgs rh_userid ping [] None n) = Ret r /\
    r !! "overallRC" = Some v /\ state_found desiredState v = false.

(** The record invokeSMCLI builds from a header that decodes cleanly. *)
Definition header_record (msgs : Catalog) (api strCmd payload : string)
    (orc rc rs errno : Z) (strError : string) : dict :=
  mkdict [("overallRC", PInt orc); ("rc", PInt rc); ("rs", PInt rs);
          ("errno", PInt errno);
          ("response",
           PStr (template msgs "0300"
                   [PStr modId; PStr api; PInt orc; PInt rc; PInt rs;
                    PInt errno; PStr strCmd; PStr payload]));
          ("strError", PStr strError)].

Definition header_8_4_12 : string := "8 4 12 (details) disk busy".
Definition header_25_1_1007 : string := "25 1 1007 (details) bad opt".

(** Outcomes of subprocesses used in the examples. *)
Definition exit1 : proc_result := Raised (CalledProcessError 1 (Utf8 "busy")).

Definition linked : proc_result :=
  Completed
    (Utf8 ("Success: Userid maint vdev 193 linked at ad35 device name dasdh"
           +:+ PyStr.LFs)).

Definition done : proc_result := Completed (Utf8 "").

Definition smcli_exit (line : string) : proc_result :=
  Raised (CalledProcessError 1 (Utf8 (line +:+ PyStr.LFs +:+ "Details"))).

Definition iucv_exit (rc rs : string) : proc_result :=
  Raised (CalledProcessError 1
            (Utf8 ("ERROR: Return code " +:+ rc +:+ ", Reason code " +:+ rs
                   +:+ "."))).

(** The record execCmdThruIUCV returns at the sample catalogue for a
    failure of the IUCV client. *)
Definition iucv_record (rc rs : Z) (id : string) : dict :=
  mkdict [("overallRC", PInt 2); ("rc", PInt rc); ("rs", PInt rs);
          ("errno", PInt 0);
          ("response", PStr (template sample_msgs id []))].

(** The record of execCmdThruIUCV when the IUCV client ran to its end. *)
Definition iucv_ok (text : string) : dict :=
  mkdict [("overallRC", PInt 0); ("rc", PInt 0); ("rs", PInt 0);
          ("errno", PInt 0); ("response", PStr text)].

(** The record of execCmdThruIUCV for a failure of the IUCV client. *)
Definition iucv_failed (rc rs : Z) (response : pyval) : dict :=
  mkdict [("overallRC", PInt 2); ("rc", PInt rc); ("rs", PInt rs);
          ("errno", PInt 0); ("response", response)].

(** What [re.search(pre + '(.+?)' + stop, output)] and [int] recover: [z]
    is the integer of the group, or [fallback] when the pattern does not
    occur. *)
Definition recovers (pre : string) (stop : ascii) (output : string)
    (fallback z : Z) : Prop :=
  match PyStr.search_group pre stop output with
  | Some g => PyStr.int g = Some z
  | None => z = fallback
  end.

(** The message execCmdThruIUCV picks for the return code of the IUCV
    client when the code is not 32. *)
Definition iucv_message (rc : Z) : string :=
  if rc =? 1 then "0313"
  else if rc =? 2 then "0314"
  else if rc =? 4 then "0315"
  else if rc =? 8 then "0316"
  else if rc =? 16 then "0317"
  else "0319".

(** The value of [--timeout] for a long call and for a general call, as
    the configuration gives them. *)
Definition long_call_timeout (conf : Config) : Z :=
  match conf_set (smapi_socket_long_call_timeout_seconds conf) with
  | Some z => z
  | None =>
      match conf_set (smapi_socket_timeout_seconds conf) with
      | Some z => z
      | None => DEFAULT_SMAPI_SOCKET_LONG_CALL_TIMEOUT_SECONDS
      end
  end.

Definition general_timeout (conf : Config) : Z :=
  match conf_set (smapi_socket_timeout_seconds conf) with
  | Some z => z
  | None => DEFAULT_SMAPI_SOCKET_TIMEOUT_SECONDS
  end.

(** The record of invokeSMCLI when smcli ran to its end. *)
Definition smcli_ok (payload : string) : dict :=
  mkdict [("overallRC", PInt 0); ("rc", PInt 0); ("rs", PInt 0);
          ("errno", PInt 0); ("response", PStr payload);
          ("strError", PStr "")].

(** The record of invokeSMCLI for an exception that is no failure of
    smcli: the defaults of message 0305 and the rendered message. *)
Definition smcli_internal (msgs : Catalog) (argv : list string) (e : exn)
  : dict :=
  <["response" :=
      PStr (template msgs "0305"
              [PStr modId; PStr (PyStr.join " " argv); PStr (exn_name e);
               PExcText e])]> (defaults msgs "0305").

(** The commands installFS spawns between the link of the disk and the
    settling of the devices that precedes mkfs, for a disk type. *)
Definition format_cmds (diskType dev : string) : list pycmd :=
  if String.eqb diskType "3390" then
    [Argv ["sudo"; "/sbin/dasdfmt"; "-y"; "-b"; "4096"; "-d"; "cdl"; "-v";
           dev];
     Shell settle_cmd;
     Argv ["sudo"; "/sbin/fdasd"; "-a"; dev]]
  else if String.eqb diskType "9336" then
    [Shell ("sudo /sbin/fdisk " +:+ dev +:+ " << EOF" +:+ PyStr.LFs +:+ "g"
            +:+ PyStr.LFs +:+ "w" +:+ PyStr.LFs +:+ "EOF");
     Shell ("sudo /sbin/fdisk " +:+ dev +:+ " << EOF" +:+ PyStr.LFs +:+ "n"
            +:+ PyStr.LFs +:+ "p" +:+ PyStr.LFs +:+ "1" +:+ PyStr.LFs
            +:+ PyStr.LFs +:+ PyStr.LFs +:+ "w" +:+ PyStr.LFs +:+ "EOF")]
  else [].

(** A frame of installFS on which every step so far went well: no failure
    recorded, the device located, the output decoded. *)
Definition ready (f : frame) (dev : string) : Prop :=
  results f = installFS_results0 /\ device f = Some dev /\
  exists s, out f = OStr s.

(** [m], started when [n] subprocesses have been spawned, ends on a ready
    frame and has spawned the commands [cmds], each one once. *)
Definition completes (m : M frame) (n : nat) (cmds : list pycmd)
    (dev : string) : Prop :=
  exists f',
    value (m n) = Ret f' /\ calls (m n) = (n + length cmds)%nat /\
    execs (trace (m n)) = cmds /\ ready f' dev.

(** The record of isLoggedOn when the state of the machine was found out:
    rs=0 for logged on, rs=1 for logged off. *)
Definition logon_status (rs : Z) : dict :=
  mkdict [("overallRC", PInt 0); ("rc", PInt 0); ("rs", PInt rs)].

(** An outcome of the query on which the loop of waitForVMState goes on:
    the answer is not the awaited one, or the spawn raised an exception
    that is no failure of the command, or the output of a command that
    ran to its end is no UTF-8. *)
Definition keeps_waiting (alnum : N -> bool) (desiredState : string)
    (p : proc_result) : Prop :=
  match p with
  | Completed (Utf8 _) => desiredState <> "on"
  | Completed (NotUtf8 _) => True
  | Raised (CalledProcessError _ (Utf8 text)) =>
      PyRe.logged_off_str alnum text = true /\ desiredState <> "off"
  | Raised (CalledProcessError _ (NotUtf8 _)) => False
  | Raised _ => True
  end.

(** An outcome of the query that is the awaited state. *)
Definition awaited (alnum : N -> bool) (desiredState : string)
    (p : proc_result) : Prop :=
  match p with
  | Completed (Utf8 _) => desiredState = "on"
  | Raised (CalledProcessError _ (Utf8 text)) =>
      PyRe.logged_off_str alnum text = true /\ desiredState = "off"
  | _ => False
  end.

(** * Properties *)

(** ** Text outside ASCII

    The text operations on some characters outside ASCII: U+00A0 is the
    no-break space, U+3000 the ideographic space, U+FF18 the fullwidth
    digit eight, U+0663 the Arabic-Indic digit three, U+00E9 the letter e
    with an acute accent. *)

Example int_of_digits_outside_ascii :
  PyStr.int (utf8 160 +:+ "-" +:+ utf8 65304 +:+ "_" +:+ utf8 1635) = Some (-83)
  /\ PyStr.int (utf8 233) = None
  /\ PyStr.int (String (ascii_of_N 28) "5") = None.
Proof. repeat split. Qed.

Example split_at_spaces_outside_ascii :
  PyStr.split_ws ("a" +:+ utf8 160 +:+ "b" +:+ utf8 12288 +:+ utf8 233) =
  ["a"; "b"; utf8 233].
Proof. reflexivity. Qed.

Example lstrip_spaces_outside_ascii :
  PyStr.lstrip (utf8 160 +:+ " " +:+ utf8 233 +:+ " ") = utf8 233 +:+ " ".
Proof. reflexivity. Qed.

Example chars_outside_ascii :
  PyStr.chars ("a" +:+ utf8 233 +:+ utf8 65304) = ["a"; utf8 233; utf8 65304].
Proof. reflexivity. Qed.

(** The message number after a letter outside ASCII: no match for the
    bytes pattern of isLoggedOn, a match for the str pattern of
    waitForVMState. *)
Example logged_off_letter_outside_ascii :
  let text := "HCP" +:+ utf8 233 +:+ "ab045E USER1 not logged on" in
  PyRe.logged_off text = false /\
  PyRe.logged_off_str sample_alnum text = true.
Proof. split; reflexivity. Qed.

(** ** Running the monad *)

Lemma run_emit {B} (e : event) (k : unit -> M B) (n : nat) :
  bind (emit e) k n =
  Run (value (k tt n)) (calls (k tt n)) (e :: trace (k tt n)).
Proof. reflexivity. Qed.

Lemma run_ret {A B} (a : A) (k : A -> M B) (n : nat) :
  bind (ret a) k n = Run (value (k a n)) (calls (k a n)) (trace (k a n)).
Proof. reflexivity. Qed.

Lemma run_bind {A B} (m : M A) (k : A -> M B) (n : nat) :
  bind m k n =
  let r := m n in
  match value r with
  | Ret a =>
      let r' := k a (calls r) in
      Run (value r') (calls r') (trace r ++ trace r')
  | Raise e => Run (Raise e) (calls r) (trace r)
  end.
Proof. reflexivity. Qed.

Lemma run_bind_Ret {A B} (m : M A) (k : A -> M B) (n : nat) (a : A) :
  value (m n) = Ret a ->
  bind m k n =
  Run (value (k a (calls (m n)))) (calls (k a (calls (m n))))
      (trace (m n) ++ trace (k a (calls (m n)))).
Proof. intros H. unfold bind. rewrite H. reflexivity. Qed.

Lemma run_bind_Raise {A B} (m : M A) (k : A -> M B) (n : nat) (e : exn) :
  value (m n) = Raise e ->
  bind m k n = Run (Raise e) (calls (m n)) (trace (m n)).
Proof. intros H. unfold bind. rewrite H. reflexivity. Qed.

Lemma run_try_Ret {A} (m : M A) (h : exn -> M A) (n : nat) (a : A) :
  value (m n) = Ret a -> try_except m h n = m n.
Proof. intros H. unfold try_except. rewrite H. reflexivity. Qed.

Lemma run_try_Raise {A} (m : M A) (h : exn -> M A) (n : nat) (e : exn) :
  value (m n) = Raise e ->
  try_except m h n =
  Run (value (h e (calls (m n)))) (calls (h e (calls (m n))))
      (trace (m n) ++ trace (h e (calls (m n)))).
Proof. intros H. unfold try_except. rewrite H. reflexivity. Qed.

Lemma run_eta {A} (r : run A) : Run (value r) (calls r) (trace r) = r.
Proof. destruct r; reflexivity. Qed.

(** ** Traces *)

Lemma execs_app (t1 t2 : list event) : execs (t1 ++ t2) = execs t1 ++ execs t2.
Proof. apply omap_app. Qed.

Lemma sleeps_app (t1 t2 : list event) :
  sleeps (t1 ++ t2) = sleeps t1 ++ sleeps t2.
Proof. apply omap_app. Qed.

Lemma effects_app (t1 t2 : list event) :
  effects (t1 ++ t2) = effects t1 ++ effects t2.
Proof. apply List.filter_app. Qed.

Lemma execs_cons (e : event) (t : list event) :
  execs (e :: t) =
  match e with Exec c _ => c :: execs t | _ => execs t end.
Proof. destruct e; reflexivity. Qed.

Lemma sleeps_cons (e : event) (t : list event) :
  sleeps (e :: t) =
  match e with Sleep s => s :: sleeps t | _ => sleeps t end.
Proof. destruct e; reflexivity. Qed.

Lemma execs_nil : execs [] = [].
Proof. reflexivity. Qed.

Lemma sleeps_nil : sleeps [] = [].
Proof. reflexivity. Qed.

(** Normalise the projections of a trace built from conses and appends. *)
Ltac traces :=
  repeat (rewrite ?execs_app, ?sleeps_app, ?execs_cons, ?sleeps_cons,
            ?execs_nil, ?sleeps_nil, ?app_nil_r;
          cbn -[execs sleeps replicate take]).

(** The same, unfolding nothing but the projections of a run. *)
Ltac traces_only :=
  cbn [value calls trace app];
  repeat (rewrite ?execs_app, ?sleeps_app, ?execs_cons, ?sleeps_cons,
            ?execs_nil, ?sleeps_nil, ?app_nil_r;
          cbn [value calls trace app]).

(** ** The retry loop *)

Section RetryLoop.

Variable env : nat -> proc_result.

Lemma fails_from_S n k :
  fails_from env n (S k) ->
  (exists rc o, env n = Raised (CalledProcessError rc o)) /\
  fails_from env (S n) k.
Proof.
  intros H. split.
  - destruct (H 0%nat) as (rc & o & E); [lia|].
    rewrite Nat.add_0_r in E. eauto.
  - intros i Hi. destruct (H (S i)) as (rc & o & E); [lia|].
    exists rc, o. rewrite <- E. f_equal. lia.
Qed.

Lemma retry_loop_succeeds (c : pycmd) (label : string)
    (slog : stdout -> list pyval) (sch : list Q) :
  forall (k n : nat) (try_num : Z) (b : stdout),
    (k < length sch)%nat ->
    sleeps_on sch k ->
    fails_from env n k ->
    env (n + k)%nat = Completed b ->
    let r := retry_loop env c label slog try_num sch n in
    value r = Ret (Some b) /\
    calls r = (n + k + 1)%nat /\
    execs (trace r) = replicate (k + 1) c /\
    sleeps (trace r) = take k sch.
Proof.
  induction sch as [|d sch IH]; intros k n try_num b Hk Hpos Hfail Hok.
  - simpl in Hk. lia.
  - destruct k as [|k].
    + rewrite Nat.add_0_r in Hok.
      cbn. unfold try_except, bind, check_output. cbn. rewrite Hok. cbn.
      repeat split. lia.
    + apply fails_from_S in Hfail as [(rc & o & E) Hfail].
      assert (Hd : (0 < d)%Q) by (apply (Hpos 0%nat d); [lia | reflexivity]).
      simpl in Hk.
      destruct (IH k (S n) (try_num + 1) b) as (Hv & Hc & He & Hs).
      * lia.
      * intros i d' Hi Hl. apply (Hpos (S i) d'); [lia | exact Hl].
      * exact Hfail.
      * rewrite <- Hok. f_equal. lia.
      * unfold execs, sleeps in *. cbn [retry_loop].
        destruct (Qlt_le_dec 0 d) as [_|Hle].
        2:{ exfalso. exact (Qlt_not_le _ _ Hd Hle). }
        unfold try_except, bind, check_output, emit. cbn.
        rewrite !E. cbn.
        repeat split.
        -- exact Hv.
        -- rewrite Hc. lia.
        -- rewrite He. reflexivity.
        -- rewrite Hs. reflexivity.
Qed.

End RetryLoop.

Section RetrySteps.

Variable env : nat -> proc_result.
Variable msgs : Catalog.

Lemma retry_delays_sleeps_on (k : nat) :
  (k < length retry_delays)%nat -> sleeps_on retry_delays k.
Proof.
  intros Hk i d Hi Hl. simpl in Hk.
  do 6 (destruct i as [|i]; [simpl in Hl; injection Hl as <-; reflexivity|]).
  lia.
Qed.

Lemma retry_loop_gives_up (c : pycmd) (label : string)
    (slog : stdout -> list pyval) (sch : list Q) :
  forall (k n : nat) (try_num : Z) (d : Q) (rc : Z) (o : stdout),
    length sch = S k ->
    sleeps_on sch k ->
    sch !! k = Some d -> (d <= 0)%Q ->
    fails_from env n k ->
    env (n + k)%nat = Raised (CalledProcessError rc o) ->
    let r := retry_loop env c label slog try_num sch n in
    value r = Raise (CalledProcessError rc o) /\
    calls r = (n + k + 1)%nat /\
    execs (trace r) = replicate (k + 1) c /\
    sleeps (trace r) = take k sch.
Proof.
  induction sch as [|d0 sch IH];
    intros k n try_num d rc o Hlen Hpos Hlast Hd Hfail Hend.
  - discriminate.
  - destruct k as [|k].
    + simpl in Hlast. injection Hlast as ->.
      rewrite Nat.add_0_r in Hend.
      cbn [retry_loop].
      destruct (Qlt_le_dec 0 d) as [Hlt|_].
      { exfalso. exact (Qlt_not_le _ _ Hlt Hd). }
      unfold try_except, bind, check_output, raise. cbn.
      rewrite !Hend. cbn. repeat split. lia.
    + apply fails_from_S in Hfail as [(rc0 & o0 & E) Hfail].
      assert (Hd0 : (0 < d0)%Q) by (apply (Hpos 0%nat d0); [lia | reflexivity]).
      simpl in Hlen. injection Hlen as Hlen.
      destruct (IH k (S n) (try_num + 1) d rc o) as (Hv & Hc & He & Hs).
      * exact Hlen.
      * intros i d' Hi Hl. apply (Hpos (S i) d'); [lia | exact Hl].
      * exact Hlast.
      * exact Hd.
      * exact Hfail.
      * rewrite <- Hend. f_equal. lia.
      * unfold execs, sleeps in *. cbn [retry_loop].
        destruct (Qlt_le_dec 0 d0) as [_|Hle].
        2:{ exfalso. exact (Qlt_not_le _ _ Hd0 Hle). }
        unfold try_except, bind, check_output, emit. cbn.
        rewrite !E. cbn.
        repeat split.
        -- exact Hv.
        -- rewrite Hc. lia.
        -- rewrite He. reflexivity.
        -- rewrite Hs. reflexivity.
Qed.

Lemma retry_loop_exhausted (c : pycmd) (label : string)
    (slog : stdout -> list pyval) (try_num : Z) (n : nat) (rc : Z)
    (o : stdout) :
  fails_from env n 6 ->
  env (n + 6)%nat = Raised (CalledProcessError rc o) ->
  let r := retry_loop env c label slog try_num retry_delays n in
  value r = Raise (CalledProcessError rc o) /\
  calls r = (n + 7)%nat /\
  execs (trace r) = replicate 7 c /\
  sleeps (trace r) = take 6 retry_delays.
Proof.
  intros Hf E6.
  destruct (retry_loop_gives_up c label slog retry_delays 6 n try_num (-1)%Q
              rc o) as (Hv & Hc & He & Hs); try assumption.
  - reflexivity.
  - apply retry_delays_sleeps_on. simpl. lia.
  - reflexivity.
  - discriminate.
  - cbv zeta. repeat split; try assumption. rewrite Hc. lia.
Qed.

End RetrySteps.

Section InstallFSSteps.

Variable env : nat -> proc_result.
Variable msgs : Catalog.

Lemma run_attempt (f : frame) (spawn : M (option stdout))
    (rest : frame -> M frame) (handler : exn -> frame -> M frame) (n : nat) :
  attempt f spawn rest handler n =
  let s := spawn n in
  let r :=
    match value s with
    | Ret o =>
        let f' := match o with
                  | Some b => with_out f (OBytes b)
                  | None => f
                  end in
        try_except (rest f') (fun e => handler e f') (calls s)
    | Raise e => handler e f (calls s)
    end in
  Run (value r) (calls r) (trace s ++ trace r).
Proof.
  unfold attempt, catch, bind. cbn [value calls trace].
  destruct (value (spawn n)); reflexivity.
Qed.

Lemma acquire_after_failures (rh_userid vaddr mode text : string) (f : frame)
    (k n : nat) :
  (k < length retry_delays)%nat ->
  fails_from env n k ->
  env (n + k)%nat = Completed (Utf8 text) ->
  let r := acquire env msgs rh_userid vaddr mode f n in
  execs (trace r) = replicate (k + 1) (link_cmd rh_userid vaddr mode) /\
  sleeps (trace r) = take k retry_delays /\
  calls r = (n + k + 1)%nat /\
  exists f', value r = Ret f' /\ results f' = results f /\
             out f' = OStr text /\ device f' = device f.
Proof.
  intros Hk Hf Hok.
  unfold acquire, invoking. cbv zeta. rewrite run_emit, run_attempt.
  match goal with
  | |- context [retry_loop env ?c ?l ?s ?t ?d n] =>
      pose proof (retry_loop_succeeds env c l s d k n t (Utf8 text) Hk
                    (retry_delays_sleeps_on k Hk) Hf Hok) as H;
      cbv zeta in H;
      set (R := retry_loop env c l s t d n) in *; clearbody R
  end.
  destruct R as [v cl t]. cbn [value calls trace] in *.
  destruct H as (-> & -> & He & Hs).
  cbn -[execs sleeps]. traces. rewrite He, Hs.
  repeat split. eexists. repeat split.
Qed.

Lemma mkfs_after_failures (fileSystem dev text : string) (f : frame)
    (k n : nat) :
  device f = Some dev ->
  (k < length retry_delays)%nat ->
  fails_from env n k ->
  env (n + k)%nat = Completed (Utf8 text) ->
  let r := mkfs env msgs fileSystem f n in
  execs (trace r) = replicate (k + 1) (mkfs_cmd fileSystem (dev +:+ "1")) /\
  sleeps (trace r) = take k retry_delays /\
  calls r = (n + k + 1)%nat /\
  exists f', value r = Ret f' /\ results f' = results f /\
             out f' = OStr text.
Proof.
  intros Hd Hk Hf Hok.
  unfold mkfs, get_device, invoking. cbv zeta. rewrite Hd.
  unfold lift. rewrite run_ret, run_emit, run_attempt.
  match goal with
  | |- context [retry_loop env ?c ?l ?s ?t ?d n] =>
      pose proof (retry_loop_succeeds env c l s d k n t (Utf8 text) Hk
                    (retry_delays_sleeps_on k Hk) Hf Hok) as H;
      cbv zeta in H;
      set (R := retry_loop env c l s t d n) in *; clearbody R
  end.
  destruct R as [v cl t]. cbn [value calls trace] in *.
  destruct H as (-> & -> & He & Hs).
  cbn -[execs sleeps]. traces. rewrite He, Hs.
  repeat split. eexists. repeat split.
Qed.

(** The same steps when the output of the attempt that succeeds is no
    UTF-8: the attempts and the sleeps are the same, the decoding raises
    inside the try statement and the step ends on the record of message
    0421. *)
Lemma acquire_undecodable (rh_userid vaddr mode lossy : string) (f : frame)
    (k n : nat) :
  (k < length retry_delays)%nat ->
  fails_from env n k ->
  env (n + k)%nat = Completed (NotUtf8 lossy) ->
  let r := acquire env msgs rh_userid vaddr mode f n in
  execs (trace r) = replicate (k + 1) (link_cmd rh_userid vaddr mode) /\
  sleeps (trace r) = take k retry_delays /\
  calls r = (n + k + 1)%nat /\
  exists f', value r = Ret f' /\ results f' = defaults msgs "0421".
Proof.
  intros Hk Hf Hok.
  unfold acquire, invoking. cbv zeta. rewrite run_emit, run_attempt.
  match goal with
  | |- context [retry_loop env ?c ?l ?s ?t ?d n] =>
      pose proof (retry_loop_succeeds env c l s d k n t (NotUtf8 lossy) Hk
                    (retry_delays_sleeps_on k Hk) Hf Hok) as H;
      cbv zeta in H;
      set (R := retry_loop env c l s t d n) in *; clearbody R
  end.
  destruct R as [v cl t]. cbn [value calls trace] in *.
  destruct H as (-> & -> & He & Hs).
  cbn -[execs sleeps]. traces. rewrite He, Hs.
  repeat split. eexists. repeat split.
Qed.

Lemma mkfs_undecodable (fileSystem dev lossy : string) (f : frame)
    (k n : nat) :
  device f = Some dev ->
  (k < length retry_delays)%nat ->
  fails_from env n k ->
  env (n + k)%nat = Completed (NotUtf8 lossy) ->
  let r := mkfs env msgs fileSystem f n in
  execs (trace r) = replicate (k + 1) (mkfs_cmd fileSystem (dev +:+ "1")) /\
  sleeps (trace r) = take k retry_delays /\
  calls r = (n + k + 1)%nat /\
  exists f', value r = Ret f' /\ results f' = defaults msgs "0421".
Proof.
  intros Hd Hk Hf Hok.
  unfold mkfs, get_device, invoking. cbv zeta. rewrite Hd.
  unfold lift. rewrite run_ret, run_emit, run_attempt.
  match goal with
  | |- context [retry_loop env ?c ?l ?s ?t ?d n] =>
      pose proof (retry_loop_succeeds env c l s d k n t (NotUtf8 lossy) Hk
                    (retry_delays_sleeps_on k Hk) Hf Hok) as H;
      cbv zeta in H;
      set (R := retry_loop env c l s t d n) in *; clearbody R
  end.
  destruct R as [v cl t]. cbn [value calls trace] in *.
  destruct H as (-> & -> & He & Hs).
  cbn -[execs sleeps]. traces. rewrite He, Hs.
  repeat split. eexists. repeat split.
Qed.

End InstallFSSteps.

Section InstallFSFinish.

Variable env : nat -> proc_result.
Variable msgs : Catalog.

Lemma mkfs_exhausted (fileSystem dev : string) (f : frame) (n : nat)
    (rc : Z) (o : stdout) :
  device f = Some dev ->
  fails_from env n 6 ->
  env (n + 6)%nat = Raised (CalledProcessError rc o) ->
  let r := mkfs env msgs fileSystem f n in
  calls r = (n + 7)%nat /\
  execs (trace r) = replicate 7 (mkfs_cmd fileSystem (dev +:+ "1")) /\
  exists f', value r = Ret f' /\
             results f' = <["rs" := PInt rc]> (defaults msgs "0415") /\
             device f' = Some (dev +:+ "1").
Proof.
  intros Hd Hf E6.
  unfold mkfs, get_device, invoking. cbv zeta. rewrite Hd.
  unfold lift. rewrite run_ret, run_emit, run_attempt.
  match goal with
  | |- context [retry_loop env ?c ?l ?s ?t retry_delays n] =>
      pose proof (retry_loop_exhausted env c l s t n rc o Hf E6) as H;
      cbv zeta in H;
      set (R := retry_loop env c l s t retry_delays n) in *; clearbody R
  end.
  destruct R as [v cl t]. cbn [value calls trace] in *.
  destruct H as (-> & -> & He & Hs).
  cbn -[execs sleeps]. traces. rewrite He.
  repeat split. eexists. repeat split.
Qed.

(** The release step leaves [results] alone when the detach command
    succeeds, whatever the flush did. *)
Lemma release_keeps_results (rh_userid vaddr dev text : string) (f : frame)
    (n : nat) :
  device f = Some dev ->
  env (n + 1)%nat = Completed (Utf8 text) ->
  let r := release env msgs rh_userid vaddr f n in
  calls r = (n + 2)%nat /\
  execs (trace r) = [flush_cmd dev; detach_cmd rh_userid vaddr] /\
  exists f', value r = Ret f' /\ results f' = results f.
Proof.
  intros Hd E1. rewrite Nat.add_comm in E1. simpl in E1.
  unfold release, get_device, invoking. cbv zeta. rewrite Hd.
  unfold lift. rewrite run_ret, run_emit.
  cbv zeta. cbn [value calls trace].
  set (fl := attempt _ _ _ _).
  assert (Hfl : calls (fl n) = S n /\ execs (trace (fl n)) = [flush_cmd dev] /\
                exists f1, value (fl n) = Ret f1 /\ results f1 = results f).
  { subst fl. rewrite run_attempt. unfold bind, check_output, ret.
    cbn [value calls trace].
    destruct (env n) as [[s|s]|e]; cbn -[execs]; traces;
      (repeat split; eexists; repeat split). }
  destruct Hfl as (Hc & He & f1 & Hv & Hr). clearbody fl.
  rewrite (run_bind_Ret _ _ _ f1 Hv). rewrite Hc.
  rewrite run_emit, run_attempt.
  unfold bind, check_output, ret. cbn [value calls trace]. rewrite E1.
  cbn -[execs]. traces. rewrite He.
  repeat split; [lia|]. eexists. split; [reflexivity|]. exact Hr.
Qed.

(** The release step spawns its two commands whatever they do, and ends
    on a frame: the flush can only print a warning, and every outcome of
    the detach command that is no clean exit with decodable output is
    recorded in [results]. *)
Lemma release_runs (rh_userid vaddr dev : string) (f : frame) (n : nat) :
  device f = Some dev ->
  let r := release env msgs rh_userid vaddr f n in
  calls r = (n + 2)%nat /\
  execs (trace r) = [flush_cmd dev; detach_cmd rh_userid vaddr] /\
  exists f',
    value r = Ret f' /\
    results f' =
      match env (S n) with
      | Completed (Utf8 _) => results f
      | Raised (CalledProcessError rc _) =>
          <["rs" := PInt rc]> (defaults msgs "0415")
      | _ => defaults msgs "0421"
      end.
Proof.
  intros Hd.
  unfold release, get_device, invoking. cbv zeta. rewrite Hd.
  unfold lift. rewrite run_ret, run_emit.
  cbv zeta. cbn [value calls trace].
  set (fl := attempt _ _ _ _).
  assert (Hfl : calls (fl n) = S n /\ execs (trace (fl n)) = [flush_cmd dev] /\
                exists f1, value (fl n) = Ret f1 /\ results f1 = results f).
  { subst fl. rewrite run_attempt. unfold bind, check_output, ret.
    cbn [value calls trace].
    destruct (env n) as [[s|s]|e]; cbn -[execs]; traces;
      (repeat split; eexists; repeat split). }
  destruct Hfl as (Hc & He & f1 & Hv & Hr). clearbody fl.
  rewrite (run_bind_Ret _ _ _ f1 Hv). rewrite Hc.
  rewrite run_emit, run_attempt.
  unfold bind, check_output, ret. cbn [value calls trace].
  destruct (env (S n)) as [[s|s]|[]]; cbn -[execs]; traces; rewrite He;
    (repeat split; [lia|]); eexists; (split; [reflexivity|]);
    first [exact Hr | reflexivity].
Qed.

(** installFS from the creation of the file system on, when mkfs fails at
    each attempt: the commands that are spawned, and the record that is
    returned when it has an [rc] for the exit log. *)
Lemma installFS_finish_mkfs_fails_any
    (rh_userid vaddr fileSystem dev : string) (f : frame) (n : nat)
    (orc : pyval) (rc : Z) (o : stdout) :
  results f !! "overallRC" = Some orc ->
  eq_int orc 0 = true ->
  device f = Some dev ->
  fails_from env n 6 ->
  env (n + 6)%nat = Raised (CalledProcessError rc o) ->
  let r := installFS_finish env msgs rh_userid vaddr fileSystem f n in
  let d :=
    match env (n + 8)%nat with
    | Completed (Utf8 _) => <["rs" := PInt rc]> (defaults msgs "0415")
    | Raised (CalledProcessError rc' _) =>
        <["rs" := PInt rc']> (defaults msgs "0415")
    | _ => defaults msgs "0421"
    end in
  execs (trace r) =
    replicate 7 (mkfs_cmd fileSystem (dev +:+ "1")) ++
    [flush_cmd (dev +:+ "1"); detach_cmd rh_userid vaddr] /\
  (is_Some (d !! "rc") -> value r = Ret d).
Proof.
  intros Horc Hz Hd Hf E6.
  pose proof (mkfs_exhausted fileSystem dev f n rc o Hd Hf E6) as H1.
  cbv zeta in H1. destruct H1 as (Hc1 & He1 & f1 & Hv1 & Hr1 & Hd1).
  pose proof (release_runs rh_userid vaddr (dev +:+ "1") f1 (n + 7) Hd1)
    as H2.
  cbv zeta in H2. destruct H2 as (Hc2 & He2 & f2 & Hv2 & Hr2).
  replace (S (n + 7)) with (n + 8)%nat in Hr2 by lia.
  rewrite Hr1 in Hr2.
  unfold installFS_finish. cbv zeta.
  assert (Hg : gate true (mkfs env msgs fileSystem) f n =
               mkfs env msgs fileSystem f n).
  { unfold gate, getitem, lift. rewrite Horc, run_ret, Hz. cbn [andb].
    apply run_eta. }
  rewrite (run_bind_Ret _ _ _ f1) by (rewrite Hg; exact Hv1).
  rewrite Hg, Hc1.
  rewrite (run_bind_Ret _ _ _ f2 Hv2).
  assert (Hd2 : results f2 =
    match env (n + 8)%nat with
    | Completed (Utf8 _) => <["rs" := PInt rc]> (defaults msgs "0415")
    | Raised (CalledProcessError rc' _) =>
        <["rs" := PInt rc']> (defaults msgs "0415")
    | _ => defaults msgs "0421"
    end).
  { rewrite Hr2. destruct (env (n + 8)%nat) as [[s|s]|[]]; reflexivity. }
  rewrite <- Hd2. clear Hr2 Hd2.
  split.
  - unfold getitem, lift.
    destruct (results f2 !! "rc") as [v|].
    + rewrite run_ret, run_emit. cbn -[execs]. traces.
      rewrite He1, He2. reflexivity.
    + cbn -[execs]. traces. rewrite He1, He2. reflexivity.
  - intros [v Hrc]. unfold getitem, lift. rewrite Hrc.
    rewrite run_ret, run_emit. reflexivity.
Qed.

End InstallFSFinish.

(** ** The commands of the release step occur nowhere else *)

Lemma no_release_run {A} (m : M A) (n : nat) :
  no_release m -> releases (trace (m n)) = [].
Proof. intros [H]. apply H. Qed.

Lemma releases_app (t1 t2 : list event) :
  releases (t1 ++ t2) = releases t1 ++ releases t2.
Proof. unfold releases. rewrite execs_app. apply List.filter_app. Qed.

Section NoRelease.

Variable env : nat -> proc_result.
Variable msgs : Catalog.

Lemma no_release_ret {A} (a : A) : no_release (ret a).
Proof. constructor. intros n. reflexivity. Qed.

Lemma no_release_raise {A} (e : exn) : no_release (@raise A e).
Proof. constructor. intros n. reflexivity. Qed.

Lemma no_release_lift {A} (o : option A) (e : exn) : no_release (lift o e).
Proof. constructor. destruct o; intros n; reflexivity. Qed.

Lemma no_release_emit (e : event) :
  match e with Exec c _ => is_release c = false | _ => True end ->
  no_release (emit e).
Proof.
  intros H. constructor. intros n. unfold releases, execs. cbn.
  destruct e; try reflexivity. cbn. rewrite H. reflexivity.
Qed.

Lemma no_release_check_output (c : pycmd) (t : option Z) :
  is_release c = false -> no_release (check_output env c t).
Proof.
  intros H. constructor. intros n. unfold releases, execs. cbn. rewrite H.
  reflexivity.
Qed.

Lemma no_release_bind {A B} (m : M A) (k : A -> M B) :
  no_release m -> (forall a, no_release (k a)) -> no_release (bind m k).
Proof.
  intros [Hm] Hk. constructor. intros n. unfold bind. specialize (Hm n).
  destruct (m n) as [[a|e] c t]; cbn [value calls trace] in *.
  - rewrite releases_app, Hm, (no_release_run _ c (Hk a)). reflexivity.
  - exact Hm.
Qed.

Lemma no_release_try {A} (m : M A) (h : exn -> M A) :
  no_release m -> (forall e, no_release (h e)) -> no_release (try_except m h).
Proof.
  intros [Hm] Hh. constructor. intros n. unfold try_except.
  specialize (Hm n).
  destruct (m n) as [[a|e] c t]; cbn [value calls trace] in *.
  - exact Hm.
  - rewrite releases_app, Hm, (no_release_run _ c (Hh e)). reflexivity.
Qed.

Lemma no_release_catch {A} (m : M A) : no_release m -> no_release (catch m).
Proof. intros [Hm]. constructor. intros n. exact (Hm n). Qed.

Lemma no_release_retry_loop (c : pycmd) (label : string)
    (slog : stdout -> list pyval) (sch : list Q) :
  is_release c = false ->
  forall try_num, no_release (retry_loop env c label slog try_num sch).
Proof.
  intros Hc. induction sch as [|d sch IH]; intros try_num; cbn [retry_loop].
  - apply no_release_ret.
  - apply no_release_try.
    + apply no_release_bind; [apply no_release_check_output, Hc|].
      intros b. apply no_release_bind; [apply no_release_emit; exact I|].
      intros _. apply no_release_ret.
    + intros [rc o| | | | | | | |]; try apply no_release_raise.
      destruct (Qlt_le_dec 0 d); [|apply no_release_raise].
      apply no_release_bind; [apply no_release_emit; exact I|]. intros _.
      apply no_release_bind; [apply no_release_emit; exact I|]. intros _.
      apply IH.
Qed.

Lemma no_release_decode_out (f : frame) : no_release (decode_out f).
Proof.
  constructor. unfold decode_out.
  destruct (out f) as [s|[s|s]]; intros n; reflexivity.
Qed.

Ltac quiet_step :=
  first
    [ apply no_release_ret
    | apply no_release_raise
    | apply no_release_lift
    | apply no_release_decode_out
    | apply no_release_emit; exact I
    | apply no_release_check_output; reflexivity
    | apply no_release_retry_loop; reflexivity ].

Lemma no_release_fail0415 (label : string) (rc : Z) (o : stdout) (f : frame) :
  no_release (fail0415 msgs label rc o f).
Proof.
  unfold fail0415.
  repeat (apply no_release_bind; [ | intros ? ]); quiet_step.
Qed.

Lemma no_release_fail0421 (label : string) (e : exn) (f : frame) :
  no_release (fail0421 msgs label e f).
Proof.
  unfold fail0421.
  repeat (apply no_release_bind; [ | intros ? ]); quiet_step.
Qed.

Lemma no_release_handlers (label : string) (e : exn) (f : frame) :
  no_release (handlers msgs label e f).
Proof.
  destruct e; first [apply no_release_fail0415 | apply no_release_fail0421].
Qed.

Lemma no_release_handlers_rejoin (label : string) (e : exn) (f : frame) :
  no_release (handlers_rejoin msgs label e f).
Proof.
  destruct e; first [apply no_release_fail0415 | apply no_release_fail0421].
Qed.

Lemma no_release_attempt (f : frame) (spawn : M (option stdout))
    (rest : frame -> M frame) (handler : exn -> frame -> M frame) :
  no_release spawn ->
  (forall f', no_release (rest f')) ->
  (forall e f', no_release (handler e f')) ->
  no_release (attempt f spawn rest handler).
Proof.
  intros Hs Hr Hh. unfold attempt. apply no_release_bind.
  - apply no_release_catch, Hs.
  - intros [o|e]; [|apply Hh].
    apply no_release_try; [apply Hr | intros e; apply Hh].
Qed.

Lemma no_release_gate (cond : bool) (step : frame -> M frame) (f : frame) :
  (forall f', no_release (step f')) -> no_release (gate cond step f).
Proof.
  intros H. unfold gate, getitem. apply no_release_bind.
  - apply no_release_lift.
  - intros orc. destruct (eq_int orc 0 && cond);
      [apply H | apply no_release_ret].
Qed.

Ltac quiet :=
  repeat first
    [ quiet_step
    | apply no_release_handlers
    | apply no_release_handlers_rejoin
    | apply no_release_fail0415
    | apply no_release_attempt; [ | intros ? | intros ? ? ]
    | apply no_release_gate; intros ?
    | apply no_release_bind; [ | intros ? ]
    | apply no_release_try; [ | intros ? ] ].

Lemma no_release_acquire (rh_userid vaddr mode : string) (f : frame) :
  no_release (acquire env msgs rh_userid vaddr mode f).
Proof.
  unfold acquire, invoking. quiet.
  match goal with |- no_release (match ?e with _ => _ end) => destruct e end;
    quiet.
Qed.

Lemma no_release_locate (f : frame) : no_release (locate msgs f).
Proof.
  unfold locate. destruct (out f); [|quiet].
  destruct (PyStr.search_group _ _ _); [|quiet].
  destruct (_ <? _)%nat; unfold item; quiet.
Qed.

Lemma no_release_settle (f : frame) : no_release (settle env msgs f).
Proof. unfold settle, invoking. quiet. Qed.

Lemma no_release_prepare (rh_userid vaddr mode diskType : string) :
  no_release (installFS_prepare env msgs rh_userid vaddr mode diskType).
Proof.
  unfold installFS_prepare.
  apply no_release_bind; [apply no_release_acquire|]. intros f1.
  apply no_release_bind;
    [apply no_release_gate; intros; apply no_release_locate|]. intros f2.
  apply no_release_bind.
  { apply no_release_gate. intros f.
    unfold dasdfmt, get_device, invoking. quiet. }
  intros f3.
  apply no_release_bind;
    [apply no_release_gate; intros; apply no_release_settle|]. intros f4.
  apply no_release_bind.
  { apply no_release_gate. intros f.
    unfold fdasd, get_device, invoking. quiet. }
  intros f5. apply no_release_bind.
  { apply no_release_gate. intros f. unfold fdisk_delete, get_device. quiet. }
  intros f6. apply no_release_bind.
  { apply no_release_gate. intros f. unfold fdisk_create, get_device. quiet. }
  intros f7.
  apply no_release_gate; intros; apply no_release_settle.
Qed.

End NoRelease.

(** ** The retrying steps of installFS *)

(** C6.  The disk-link acquisition and the creation of the file system run
    their command under the schedule [retry_delays].  When the command
    exits with a non-zero status exactly [k] times, [k] less than the
    length of the schedule, and then runs to its end, the step spawns the
    command exactly [k + 1] times and sleeps exactly the first [k] delays
    of the schedule in their order.  The outcome of the step is a success
    ([results] is left as it was found, the output is kept as text) when
    the output of the attempt that succeeds is UTF-8; when it is not, the
    decoding inside the same try statement raises and the step ends on the
    record of message 0421. *)
Theorem retry_steps_after_k_failures
    (env : nat -> proc_result) (msgs : Catalog)
    (rh_userid vaddr mode fileSystem dev : string) (b : stdout)
    (fa fm : frame) (k n : nat) :
  (k < length retry_delays)%nat ->
  fails_from env n k ->
  env (n + k)%nat = Completed b ->
  device fm = Some dev ->
  (let r := acquire env msgs rh_userid vaddr mode fa n in
   execs (trace r) = replicate (k + 1) (link_cmd rh_userid vaddr mode) /\
   sleeps (trace r) = take k retry_delays /\
   exists f', value r = Ret f' /\
              match b with
              | Utf8 text => results f' = results fa /\ out f' = OStr text
              | NotUtf8 _ => results f' = defaults msgs "0421"
              end) /\
  (let r := mkfs env msgs fileSystem fm n in
   execs (trace r) = replicate (k + 1) (mkfs_cmd fileSystem (dev +:+ "1")) /\
   sleeps (trace r) = take k retry_delays /\
   exists f', value r = Ret f' /\
              match b with
              | Utf8 text => results f' = results fm /\ out f' = OStr text
              | NotUtf8 _ => results f' = defaults msgs "0421"
              end).
Proof.
  intros Hk Hf Hok Hd. destruct b as [text|lossy]; split.
  - destruct (acquire_after_failures env msgs rh_userid vaddr mode text fa k n
                Hk Hf Hok) as (He & Hs & _ & f' & Hv & Hr & Ho & _).
    cbv zeta. repeat split; try assumption. exists f'. auto.
  - destruct (mkfs_after_failures env msgs fileSystem dev text fm k n
                Hd Hk Hf Hok) as (He & Hs & _ & f' & Hv & Hr & Ho).
    cbv zeta. repeat split; try assumption. exists f'. auto.
  - destruct (acquire_undecodable env msgs rh_userid vaddr mode lossy fa k n
                Hk Hf Hok) as (He & Hs & _ & f' & Hv & Hr).
    cbv zeta. repeat split; try assumption. exists f'. auto.
  - destruct (mkfs_undecodable env msgs fileSystem dev lossy fm k n
                Hd Hk Hf Hok) as (He & Hs & _ & f' & Hv & Hr).
    cbv zeta. repeat split; try assumption. exists f'. auto.
Qed.

Lemma retry_steps_after_k_failures_witness :
  let env := script [exit1; exit1] (Completed (Utf8 "done")) in
  let fm := with_device installFS_frame0 "/dev/dasdh" in
  (let r := acquire env sample_msgs "MAINT" "193" "W" installFS_frame0 0%nat in
   execs (trace r) = replicate (2 + 1)%nat (link_cmd "MAINT" "193" "W") /\
   sleeps (trace r) = take 2 retry_delays /\
   exists f', value r = Ret f' /\ results f' = results installFS_frame0 /\
              out f' = OStr "done") /\
  (let r := mkfs env sample_msgs "ext4" fm 0%nat in
   execs (trace r) =
     replicate (2 + 1)%nat (mkfs_cmd "ext4" ("/dev/dasdh" +:+ "1")) /\
   sleeps (trace r) = take 2 retry_delays /\
   exists f', value r = Ret f' /\ results f' = results fm /\
              out f' = OStr "done").
Proof.
  intros env fm.
  apply (retry_steps_after_k_failures env sample_msgs "MAINT" "193"
           "W" "ext4" "/dev/dasdh" (Utf8 "done") installFS_frame0 fm 2%nat
           0%nat).
  - simpl. lia.
  - intros i Hi. destruct i as [|[|i]]; [do 2 eexists; reflexivity ..| lia].
  - reflexivity.
  - reflexivity.
Defined.

(** Without the proviso on the output the statement fails: the link
    command exits with status 1 once and then with status 0, writing bytes
    that are no UTF-8.  The step has made its two attempts and slept the first
    delay, and its outcome is the internal error of message 0421, not a
    success. *)
Lemma retry_step_undecodable_output_is_no_success :
  let env := script [exit1] (Completed (NotUtf8 "link")) in
  let r := acquire env sample_msgs "MAINT" "193" "W" installFS_frame0 0%nat in
  fails_from env 0 1 /\
  env 1%nat = Completed (NotUtf8 "link") /\
  execs (trace r) = replicate 2 (link_cmd "MAINT" "193" "W") /\
  sleeps (trace r) = take 1 retry_delays /\
  exists f',
    value r = Ret f' /\
    results f' = defaults sample_msgs "0421" /\
    results f' !! "overallRC" = Some (PInt 4) /\
    results f' <> results installFS_frame0.
Proof.
  intros env r. split; [|split; [reflexivity|]].
  - intros i Hi. destruct i as [|i]; [do 2 eexists; reflexivity | lia].
  - split; [vm_compute; reflexivity|]. split; [vm_compute; reflexivity|].
    eexists. split; [vm_compute; reflexivity|].
    split; [reflexivity|]. split; [reflexivity|].
    intros H. apply (f_equal (lookup "overallRC")) in H.
    vm_compute in H. discriminate.
Qed.

(** ** installFS when the file system cannot be created *)

Lemma mkfs_cmd_not_release (fileSystem dev : string) :
  is_release (mkfs_cmd fileSystem dev) = false.
Proof.
  unfold mkfs_cmd.
  destruct (String.eqb fileSystem "swap"); [reflexivity|].
  destruct (String.eqb fileSystem "xfs"); reflexivity.
Qed.

(** C8.  Let the steps before the creation of the file system end with
    [results] still a success and a device located, and let the mkfs
    command exit with a non-zero status at each of the seven attempts of
    the schedule.  Then over the whole run the commands of the release step
    are spawned exactly once each, whatever they do: the flush of the
    buffers, then the detach, after the last mkfs attempt.  When the detach
    command runs to its end and its output is UTF-8, installFS returns the
    record of the mkfs failure (the defaults of message 0415 with [rs] the
    exit status of the last attempt).  When the detach command runs to its
    end and its output is no UTF-8, the decoding raises inside the try
    statement of the detach, and installFS returns the defaults of message
    0421 instead. *)
Theorem installFS_mkfs_failure_and_release
    (env : nat -> proc_result) (msgs : Catalog)
    (rh_userid vaddr mode fileSystem diskType dev : string)
    (f : frame) (n : nat) (t : list event) (orc : pyval) (rc : Z)
    (o : stdout) :
  installFS_prepare env msgs rh_userid vaddr mode diskType 0%nat =
    Run (Ret f) n t ->
  results f !! "overallRC" = Some orc ->
  eq_int orc 0 = true ->
  device f = Some dev ->
  fails_from env n 6 ->
  env (n + 6)%nat = Raised (CalledProcessError rc o) ->
  let r :=
    installFS env msgs rh_userid vaddr mode fileSystem diskType 0%nat in
  releases (trace r) =
    [flush_cmd (dev +:+ "1"); detach_cmd rh_userid vaddr] /\
  execs (trace r) =
    execs t ++ replicate 7 (mkfs_cmd fileSystem (dev +:+ "1")) ++
    [flush_cmd (dev +:+ "1"); detach_cmd rh_userid vaddr] /\
  (forall text v,
     env (n + 8)%nat = Completed (Utf8 text) ->
     defaults msgs "0415" !! "rc" = Some v ->
     value r = Ret (<["rs" := PInt rc]> (defaults msgs "0415"))) /\
  (forall lossy v,
     env (n + 8)%nat = Completed (NotUtf8 lossy) ->
     defaults msgs "0421" !! "rc" = Some v ->
     value r = Ret (defaults msgs "0421")).
Proof.
  intros Hp Horc Hz Hd Hf E6.
  destruct (installFS_finish_mkfs_fails_any env msgs rh_userid vaddr
              fileSystem dev f n orc rc o Horc Hz Hd Hf E6) as (He & Hv).
  pose proof (no_release_run _ 0%nat
                (no_release_prepare env msgs rh_userid vaddr mode diskType))
    as Hq.
  rewrite Hp in Hq. cbn [trace] in Hq.
  unfold installFS. cbv zeta. rewrite run_emit.
  rewrite (run_bind_Ret _ _ _ f) by (rewrite Hp; reflexivity).
  rewrite Hp. cbn [value calls trace].
  assert (Hx : execs
                 (SysLog
                    [PStr "Enter vmUtils.installFS, userid: "; PStr rh_userid;
                     PStr ", vaddr: "; PStr vaddr; PStr ", mode: "; PStr mode;
                     PStr ", file system: "; PStr fileSystem;
                     PStr ", disk type: "; PStr diskType]
                  :: t ++ trace (installFS_finish env msgs rh_userid vaddr
                                   fileSystem f n)) =
               execs t ++ replicate 7 (mkfs_cmd fileSystem (dev +:+ "1")) ++
               [flush_cmd (dev +:+ "1"); detach_cmd rh_userid vaddr]).
  { rewrite execs_cons, execs_app, He. reflexivity. }
  split; [|split; [exact Hx|split]].
  - unfold releases in *. rewrite Hx, !List.filter_app, Hq.
    cbn. rewrite mkfs_cmd_not_release. reflexivity.
  - intros text v E8 Hrc. rewrite E8 in Hv. apply Hv.
    exists v. rewrite lookup_insert_ne by discriminate. exact Hrc.
  - intros lossy v E8 Hrc. rewrite E8 in Hv. apply Hv.
    exists v. exact Hrc.
Qed.

Lemma installFS_mkfs_failure_and_release_witness :
  let env :=
    script [linked; done; done; done; done;
            exit1; exit1; exit1; exit1; exit1; exit1; exit1] done in
  let p := installFS_prepare env sample_msgs "MAINT" "193" "W" "3390" 0%nat in
  let r := installFS env sample_msgs "MAINT" "193" "W" "ext4" "3390" 0%nat in
  releases (trace r) =
    [flush_cmd ("/dev/dasdh" +:+ "1"); detach_cmd "MAINT" "193"] /\
  execs (trace r) =
    execs (trace p) ++
    replicate 7 (mkfs_cmd "ext4" ("/dev/dasdh" +:+ "1")) ++
    [flush_cmd ("/dev/dasdh" +:+ "1"); detach_cmd "MAINT" "193"] /\
  (forall text v,
     env (5 + 8)%nat = Completed (Utf8 text) ->
     defaults sample_msgs "0415" !! "rc" = Some v ->
     value r = Ret (<["rs" := PInt 1]> (defaults sample_msgs "0415"))) /\
  (forall lossy v,
     env (5 + 8)%nat = Completed (NotUtf8 lossy) ->
     defaults sample_msgs "0421" !! "rc" = Some v ->
     value r = Ret (defaults sample_msgs "0421")).
Proof.
  intros env p.
  apply (installFS_mkfs_failure_and_release env sample_msgs "MAINT" "193" "W"
           "ext4" "3390" "/dev/dasdh"
           (match value p with Ret f => f | Raise _ => installFS_frame0 end)
           5%nat (trace p) (PInt 0) 1 (Utf8 "busy")).
  - vm_compute. reflexivity.
  - vm_compute. reflexivity.
  - reflexivity.
  - vm_compute. reflexivity.
  - intros i Hi.
    do 6 (destruct i as [|i]; [do 2 eexists; reflexivity|]). lia.
  - reflexivity.
Defined.

(** Without the proviso on the output of the detach command the
    statement fails: the disk is linked and formatted, mkfs exits with
    status 1 at each of its seven attempts, the flush succeeds, and the
    detach command exits with status 0 after writing bytes that are no
    UTF-8.  installFS returns the internal error of message 0421, not the
    mkfs failure. *)
Lemma installFS_undecodable_detach_hides_mkfs_failure :
  let env :=
    script [linked; done; done; done; done;
            exit1; exit1; exit1; exit1; exit1; exit1; exit1; done]
           (Completed (NotUtf8 "detached")) in
  let r := installFS env sample_msgs "MAINT" "193" "W" "ext4" "3390" 0%nat in
  env 13%nat = Completed (NotUtf8 "detached") /\
  execs (trace r) =
    [link_cmd "MAINT" "193" "W"] ++ format_cmds "3390" "/dev/dasdh" ++
    [Shell settle_cmd] ++
    replicate 7 (mkfs_cmd "ext4" "/dev/dasdh1") ++
    [flush_cmd "/dev/dasdh1"; detach_cmd "MAINT" "193"] /\
  value r = Ret (defaults sample_msgs "0421") /\
  defaults sample_msgs "0421" <>
    <["rs" := PInt 1]> (defaults sample_msgs "0415").
Proof.
  intros env r. split; [reflexivity|].
  split; [vm_compute; reflexivity|].
  split; [vm_compute; reflexivity|].
  intros H. apply (f_equal (lookup "overallRC")) in H.
  vm_compute in H. discriminate.
Qed.

(** ** Code without effects *)

Lemma silent_run {A} (m : M A) (n : nat) :
  silent m -> m n = Run (value (m n)) n [].
Proof.
  intros [H]. destruct (H n) as [Hc Ht]. destruct (m n) as [v c t].
  cbn in *. subst. reflexivity.
Qed.

Lemma silent_ret {A} (a : A) : silent (ret a).
Proof. constructor. intros n. split; reflexivity. Qed.

Lemma silent_raise {A} (e : exn) : silent (@raise A e).
Proof. constructor. intros n. split; reflexivity. Qed.

Lemma silent_lift {A} (o : option A) (e : exn) : silent (lift o e).
Proof. constructor. destruct o; intros n; split; reflexivity. Qed.

Lemma silent_decode (b : stdout) : silent (decode b).
Proof. constructor. destruct b; intros n; split; reflexivity. Qed.

Lemma silent_bind {A B} (m : M A) (k : A -> M B) :
  silent m -> (forall a, silent (k a)) -> silent (bind m k).
Proof.
  intros Hm Hk. constructor. intros n. unfold bind.
  rewrite (silent_run m n Hm). cbn [value calls trace].
  destruct (value (m n)) as [a|e]; cbn [value calls trace].
  - rewrite (silent_run (k a) n (Hk a)). split; reflexivity.
  - split; reflexivity.
Qed.

Ltac hush :=
  repeat first
    [ apply silent_ret
    | apply silent_raise
    | apply silent_lift
    | apply silent_decode
    | apply silent_bind; [ | intros ? ] ].

Section Probe.

Variable env : nat -> proc_result.
Variable msgs : Catalog.

Lemma silent_iucv_failure (userid strCmd : string) (rc : Z) (raw : stdout) :
  silent (iucv_failure msgs userid strCmd rc raw).
Proof.
  unfold iucv_failure. apply silent_bind; [apply silent_decode|].
  intros output.
  repeat match goal with
         | |- silent (let '(_, _) := ?x in _) => destruct x
         end.
  apply silent_ret.
Qed.

Lemma silent_unknown_disk (r : dict) (option : string) :
  silent (unknown_disk r option).
Proof.
  unfold unknown_disk, getitem. hush.
  destruct (eq_int _ 2); hush. destruct (eq_int _ 8); hush.
Qed.

(** One call of execCmdThruIUCV without hidden words spawns the IUCV client
    once, with the userid and the command it was given, and never sleeps. *)
Lemma execCmdThruIUCV_shape (userid strCmd : string) (timeout : option Z)
    (n : nat) :
  let r := execCmdThruIUCV env msgs userid strCmd [] timeout n in
  calls r = S n /\
  execs (trace r) = [iucv_cmd userid strCmd] /\
  sleeps (trace r) = [].
Proof.
  unfold execCmdThruIUCV. cbv zeta. rewrite run_emit.
  cbn [value calls trace].
  set (body := try_except _ _).
  assert (Hb : calls (body n) = S n /\
               execs (trace (body n)) = [iucv_cmd userid strCmd] /\
               sleeps (trace (body n)) = []).
  { subst body. unfold try_except, bind, check_output.
    cbn [value calls trace].
    destruct (env n) as [[s|s]|e]; cbn -[execs sleeps]; traces; auto.
    destruct e; cbn -[execs sleeps iucv_failure]; traces; auto.
    rewrite (silent_run _ (S n) (silent_iucv_failure userid strCmd _ _)).
    cbn -[execs sleeps]. traces. auto. }
  clearbody body. destruct Hb as (Hc & He & Hs).
  unfold bind. destruct (value (body n)) as [a|e]; cbn [value calls trace].
  - unfold getitem, lift. destruct (a !! "rc"); cbn -[execs sleeps];
      traces; rewrite ?He, ?Hs; auto.
  - traces. auto.
Qed.

End Probe.

(** ** disableEnableDisk *)

Section DisableEnableDisk.

Variable env : nat -> proc_result.
Variable msgs : Catalog.

Lemma unknown_disk_run (r : dict) (option : string) (n : nat) :
  unknown_disk r option n = Run (value (unknown_disk r option 0%nat)) n [].
Proof.
  unfold unknown_disk, getitem, lift, bind, ret, raise.
  destruct (r !! "overallRC") as [orc|]; cbn; [|reflexivity].
  destruct (eq_int orc 2); cbn; [|reflexivity].
  destruct (r !! "rc") as [rc|]; cbn; [|reflexivity].
  destruct (eq_int rc 8); cbn; [|reflexivity].
  destruct (r !! "rs") as [rs|]; cbn; reflexivity.
Qed.





End DisableEnableDisk.



(** ** waitForOSState *)

Lemma effects_cons (e : event) (t : list event) :
  effects (e :: t) = if is_output e then effects t else e :: effects t.
Proof. unfold effects. cbn. destruct (is_output e); reflexivity. Qed.

Lemma success3_overallRC : success3 !! "overallRC" = Some (PInt 0).
Proof. reflexivity. Qed.

Section WaitForOSState.

Variable env : nat -> proc_result.
Variable msgs : Catalog.

Lemma waitForOSState_loop_never_found (rh_userid desiredState : string)
    (maxQueries : Z) (sleepSecs : Q) (ixs : list Z) :
  forall n : nat,
    (forall j, (j < length ixs)%nat ->
       probe_misses env msgs rh_userid desiredState (n + j)) ->
    let r := waitForOSState_loop env msgs rh_userid desiredState maxQueries
               sleepSecs ixs n in
    value r = Ret false /\
    calls r = (n + length ixs)%nat /\
    trace r = polling_trace env msgs rh_userid maxQueries sleepSecs ixs n.
Proof.
  induction ixs as [|i ixs IH]; intros n Hmiss.
  - cbn. repeat split. lia.
  - destruct (Hmiss 0%nat) as (r & v & Hv & Ho & Hf); [simpl; lia|].
    rewrite Nat.add_0_r in Hv.
    destruct (IH (S n)) as (Iv & Ic & It).
    { intros j Hj. replace (S n + j)%nat with (n + S j)%nat by lia.
      apply Hmiss. simpl. lia. }
    pose proof (execCmdThruIUCV_shape env msgs rh_userid ping None n) as Hs.
    cbv zeta in Hs. destruct Hs as (Hc & _ & _).
    cbn [waitForOSState_loop polling_trace]. cbv zeta.
    rewrite (run_bind_Ret _ _ _ r Hv), Hc.
    unfold getitem, lift. rewrite Ho, run_ret, Hf.
    destruct (i <? maxQueries).
    + rewrite run_emit. cbn [value calls trace].
      rewrite Iv, Ic, It. repeat split. simpl. lia.
    + rewrite run_ret. cbn [value calls trace].
      rewrite Iv, Ic, It. repeat split. simpl. lia.
Qed.



End WaitForOSState.

(** C7.  With maxQueries = 3, when none of the three probes finds the
    awaited state, waitForOSState returns the defaults of message 0413 (the
    timeout outcome) after exactly three probes with exactly two sleeps of
    [sleepSecs], one after the first probe and one after the second, none
    after the third; the timeout message it prints carries
    maxWait = 3 * sleepSecs. *)
Theorem waitForOSState_gives_up_after_three_probes
    (env : nat -> proc_result) (msgs : Catalog)
    (rh_userid userid desiredState : string) (sleepSecs : Q) (n : nat)
    (orc : pyval) :
  (forall j, (j < 3)%nat ->
     probe_misses env msgs rh_userid desiredState (n + j)) ->
  defaults msgs "0413" !! "overallRC" = Some orc ->
  let probe := execCmdThruIUCV env msgs rh_userid ping [] None in
  let r := waitForOSState env msgs rh_userid userid desiredState 3 sleepSecs
             n in
  value r = Ret (defaults msgs "0413") /\
  trace r =
    [SysLog [PStr "Enter vmUtils.waitForOSState, userid: "; PStr userid;
             PStr " state: "; PStr desiredState; PStr " maxWait: "; PInt 3;
             PStr " sleepSecs: "; PNum sleepSecs]] ++
    trace (probe n) ++ [Sleep sleepSecs] ++
    trace (probe (S n)) ++ [Sleep sleepSecs] ++
    trace (probe (S (S n))) ++
    [PrintLn "ES"
       [PStr (template msgs "0413"
                [PStr modId; PStr userid; PStr desiredState;
                 PNum (inject_Z 3 * sleepSecs)])];
     SysLog [PStr "Exit vmUtils.waitForOSState, rc: "; orc]] /\
  length (execs (trace r)) = 3%nat /\
  sleeps (trace r) = [sleepSecs; sleepSecs].
Proof.
  intros Hmiss H413 probe r.
  destruct (waitForOSState_loop_never_found env msgs rh_userid desiredState 3
              sleepSecs (range1 3) n Hmiss) as (Lv & Lc & Lt).
  assert (Ht : trace r =
    [SysLog [PStr "Enter vmUtils.waitForOSState, userid: "; PStr userid;
             PStr " state: "; PStr desiredState; PStr " maxWait: "; PInt 3;
             PStr " sleepSecs: "; PNum sleepSecs]] ++
    trace (probe n) ++ [Sleep sleepSecs] ++
    trace (probe (S n)) ++ [Sleep sleepSecs] ++
    trace (probe (S (S n))) ++
    [PrintLn "ES"
       [PStr (template msgs "0413"
                [PStr modId; PStr userid; PStr desiredState;
                 PNum (inject_Z 3 * sleepSecs)])];
     SysLog [PStr "Exit vmUtils.waitForOSState, rc: "; orc]] /\
    value r = Ret (defaults msgs "0413")).
  { assert (R3 : range1 3 = [1; 2; 3]) by reflexivity.
    rewrite R3 in Lt, Lv. cbn [polling_trace] in Lt.
    change (1 <? 3) with true in Lt. change (2 <? 3) with true in Lt.
    change (3 <? 3) with false in Lt. cbv iota in Lt.
    subst r. unfold waitForOSState. cbv zeta. rewrite R3, run_emit.
    rewrite (run_bind_Ret _ _ _ false Lv), Lt.
    unfold getitem, lift, bind, emit, ret, raise. cbn [value calls trace].
    rewrite H413. cbn [value calls trace app].
    repeat first [rewrite <- app_assoc | rewrite app_nil_r
                 | progress cbn [app]].
    fold probe. split; reflexivity. }
  destruct Ht as (Ht & Hv). split; [exact Hv|]. split; [exact Ht|].
  pose proof (execCmdThruIUCV_shape env msgs rh_userid ping None n) as S0.
  pose proof (execCmdThruIUCV_shape env msgs rh_userid ping None (S n)) as S1.
  pose proof (execCmdThruIUCV_shape env msgs rh_userid ping None (S (S n)))
    as S2.
  cbv zeta in S0, S1, S2. fold probe in S0, S1, S2.
  destruct S0 as (_ & E0 & Z0), S1 as (_ & E1 & Z1), S2 as (_ & E2 & Z2).
  rewrite Ht. clearbody probe. traces_only.
  rewrite E0, E1, E2, Z0, Z1, Z2. split; reflexivity.
Qed.



(** ** execCmdThruIUCV: time-outs and permission failures *)

(** C1.  When the IUCV client times out, the handler that is first in the
    source catches TimeoutExpired: the record returned is the catalogue's
    defaults of message 0501 with the rendered message as response, so its
    overallRC, rc and rs are those of the catalogue entry and not the
    3, 64, 408 that the later handler assigns. *)
Theorem execCmdThruIUCV_timeout_returns_0501
    (env : nat -> proc_result) (msgs : Catalog) (userid strCmd text : string)
    (timeout : option Z) (n : nat) (v : pyval) :
  env n = Raised (TimeoutExpired text) ->
  defaults msgs "0501" !! "rc" = Some v ->
  let r := execCmdThruIUCV env msgs userid strCmd [] timeout n in
  value r =
    Ret (<["response" :=
             PStr (template msgs "0501"
                     [PStr modId; PStr strCmd; PStr "TimeoutExpired";
                      PExcText (TimeoutExpired text)])]>
           (defaults msgs "0501")) /\
  (forall k, k <> "response" ->
     forall d, value r = Ret d -> d !! k = defaults msgs "0501" !! k).
Proof.
  intros E Hrc. cbv zeta.
  assert (Hv : value (execCmdThruIUCV env msgs userid strCmd [] timeout n) =
    Ret (<["response" :=
             PStr (template msgs "0501"
                     [PStr modId; PStr strCmd; PStr "TimeoutExpired";
                      PExcText (TimeoutExpired text)])]>
           (defaults msgs "0501"))).
  { unfold execCmdThruIUCV. cbv zeta. rewrite run_emit. cbn [value].
    unfold try_except, check_output, getitem, lift, bind, emit, ret.
    cbn [value calls trace]. rewrite E. cbn [value calls trace exn_name].
    rewrite lookup_insert_ne by discriminate. rewrite Hrc. reflexivity. }
  split; [exact Hv|].
  intros k Hk d Hd. rewrite Hv in Hd. injection Hd as <-.
  apply lookup_insert_ne. congruence.
Qed.

Lemma execCmdThruIUCV_timeout_returns_0501_witness :
  let env := script [] (Raised (TimeoutExpired "timed out after 5 seconds")) in
  let r := execCmdThruIUCV env sample_msgs "USER1" "ls" [] (Some 5) 0%nat in
  value r =
    Ret (<["response" :=
             PStr (template sample_msgs "0501"
                     [PStr modId; PStr "ls"; PStr "TimeoutExpired";
                      PExcText (TimeoutExpired "timed out after 5 seconds")])]>
           (defaults sample_msgs "0501")) /\
  (forall k, k <> "response" ->
     forall d, value r = Ret d -> d !! k = defaults sample_msgs "0501" !! k).
Proof.
  intros env.
  apply (execCmdThruIUCV_timeout_returns_0501 env sample_msgs "USER1" "ls"
           "timed out after 5 seconds" (Some 5) 0%nat (PInt 1)).
  - reflexivity.
  - vm_compute. reflexivity.
Defined.

(** The handler that names both exceptions is reached by PermissionError
    alone, and gives overallRC=3, rc=64, rs=408. *)
Lemma execCmdThruIUCV_permission_error
    (env : nat -> proc_result) (msgs : Catalog) (userid strCmd text : string)
    (timeout : option Z) (n : nat) :
  env n = Raised (PermissionError text) ->
  exists d,
    value (execCmdThruIUCV env msgs userid strCmd [] timeout n) = Ret d /\
    d !! "overallRC" = Some (PInt 3) /\
    d !! "rc" = Some (PInt 64) /\
    d !! "rs" = Some (PInt 408).
Proof.
  intros E. unfold execCmdThruIUCV. cbv zeta. rewrite run_emit. cbn [value].
  unfold try_except, check_output, getitem, lift, bind, emit, ret.
  cbn [value calls trace]. rewrite E. cbn [value calls trace].
  assert (H : forall (d0 : dict) x,
             (<["response" := x]>
                (<["rs" := PInt 408]>
                   (<["rc" := PInt 64]> (<["overallRC" := PInt 3]> d0))))
               !! "rc" = Some (PInt 64)).
  { intros. rewrite !lookup_insert_ne by discriminate.
    apply lookup_insert_eq. }
  rewrite H. cbn [value calls trace]. eexists. split; [reflexivity|].
  repeat split.
Qed.

(** At the sample catalogue a time-out comes back with overallRC 5, not 3. *)
Example execCmdThruIUCV_timeout_sample :
  let env := script [] (Raised (TimeoutExpired "timed out after 5 seconds")) in
  exists d,
    value (execCmdThruIUCV env sample_msgs "USER1" "ls" [] (Some 5) 0%nat)
      = Ret d /\
    d !! "overallRC" = Some (PInt 5) /\
    d !! "rc" = Some (PInt 1) /\
    d !! "rs" = Some (PInt 501).
Proof. eexists. split; [reflexivity|]. repeat split. Qed.

(** ** invokeSMCLI: what is executed *)

Ltac hush_cases :=
  hush;
  repeat (match goal with
          | |- silent (match ?x with _ => _ end) => destruct x
          | |- silent (if ?b then _ else _) => destruct b
          | |- silent (let _ := _ in _) => cbv zeta
          end; hush).

Section InvokeSMCLI.

Variable env : nat -> proc_result.
Variable msgs : Catalog.
Variable conf : Config.

Lemma silent_smcli_codes (api strCmd h0 h1 : string) (codes : list string) :
  silent (smcli_codes msgs api strCmd h0 h1 codes).
Proof. unfold smcli_codes, item, getitem. hush_cases. Qed.

Lemma smcli_failure_shape (api strCmd : string) (raw : stdout) (n : nat) :
  let r := smcli_failure msgs api strCmd raw n in
  calls r = n /\ trace r = [RecordFail].
Proof.
  unfold smcli_failure. cbv zeta. rewrite run_emit.
  match goal with
  | |- context [bind (decode raw) ?k] =>
      assert (Hs : silent (bind (decode raw) k))
  end.
  { unfold item, getitem.
    repeat first [apply silent_smcli_codes | progress hush_cases]. }
  rewrite (silent_run _ n Hs). cbn [value calls trace]. auto.
Qed.

Lemma smcli_enter_run (rh_userid api : string) (parms parms' : list string)
    (hideInLog : list Z) (n : nat) :
  mask parms hideInLog = Some parms' ->
  smcli_enter rh_userid api parms hideInLog n =
  Run (Ret parms') n
    [SysLog [PStr "Enter vmUtils.invokeSMCLI, userid: "; PStr rh_userid;
             PStr ", function: "; PStr api; PStr ", parms: ";
             PList parms']].
Proof.
  intros H. unfold smcli_enter, hide.
  destruct hideInLog as [|i rest].
  - cbn in H. injection H as <-. reflexivity.
  - rewrite H. reflexivity.
Qed.

Lemma smapi_timeout_run (api : string) (n : nat) :
  exists t, smapi_timeout conf api n = Run (Ret tt) n t /\ execs t = [].
Proof.
  unfold smapi_timeout. cbv zeta.
  destruct (long_call api); eexists; split; reflexivity.
Qed.

Lemma smcli_call_shape (api : string) (argv : list string) (n : nat) :
  let r := smcli_call env msgs api argv n in
  calls r = S n /\ execs (trace r) = [Argv argv].
Proof.
  unfold smcli_call, try_except, bind, check_output, item, lift, ret, raise,
    emit.
  cbv zeta. cbn [value calls trace].
  destruct (env n) as [out|e]; cbn [value calls trace].
  - destruct (PyStr.split1 PyStr.LFs (decode_replace out) !! 1%nat);
      cbn [value calls trace]; traces_only; auto.
  - destruct e; cbn [value calls trace]; traces_only; auto.
    destruct (smcli_failure_shape api (PyStr.join " " argv) output (S n))
      as (Hc & Ht).
    rewrite Hc, Ht. traces_only. auto.
Qed.

(** Whatever the parameters and the indices to hide, the one command that
    invokeSMCLI spawns has the parameters as masked for the log. *)
Lemma invokeSMCLI_argv (rh_userid api : string) (parms parms' : list string)
    (hideInLog : list Z) (n : nat) :
  mask parms hideInLog = Some parms' ->
  execs (trace (invokeSMCLI env msgs conf rh_userid api parms hideInLog n)) =
  [Argv (smcli_argv conf api parms')].
Proof.
  intros H. unfold invokeSMCLI.
  rewrite (run_bind_Ret _ _ _ parms')
    by (rewrite (smcli_enter_run _ _ _ _ _ _ H); reflexivity).
  rewrite (smcli_enter_run _ _ _ _ _ _ H). cbn [value calls trace].
  destruct (smapi_timeout_run api n) as (t & Ht & Het).
  rewrite (run_bind_Ret _ _ _ tt) by (rewrite Ht; reflexivity).
  rewrite Ht. cbn [value calls trace]. rewrite run_emit.
  cbn [value calls trace].
  destruct (smcli_call_shape api (smcli_argv conf api parms') n) as (Hc & He).
  rewrite run_bind. cbv zeta.
  set (C := smcli_call env msgs api (smcli_argv conf api parms') n) in *.
  clearbody C. destruct C as [[d|e] c tr]; cbn [value calls trace] in *.
  - unfold getitem, lift, bind, ret, raise, emit.
    destruct (d !! "overallRC"); cbn [value calls trace]; traces_only;
      rewrite Het, He; reflexivity.
  - traces_only. rewrite Het, He. reflexivity.
Qed.

End InvokeSMCLI.

(** C2.  The parameters that invokeSMCLI hands to the subprocess are the
    parameters as they stand after the masking for the log; with a
    non-empty list of indices to hide the executed command therefore
    differs from the one executed with an empty list as soon as a masked
    parameter was not already the text '<hidden>'. *)
Theorem invokeSMCLI_executes_masked_parms
    (env : nat -> proc_result) (msgs : Catalog) (conf : Config)
    (rh_userid api : string) (parms parms' : list string)
    (hideInLog : list Z) (n : nat) :
  mask parms hideInLog = Some parms' ->
  parms' <> parms ->
  execs (trace (invokeSMCLI env msgs conf rh_userid api parms hideInLog n)) =
    [Argv (smcli_argv conf api parms')] /\
  execs (trace (invokeSMCLI env msgs conf rh_userid api parms [] n)) =
    [Argv (smcli_argv conf api parms)] /\
  execs (trace (invokeSMCLI env msgs conf rh_userid api parms hideInLog n)) <>
  execs (trace (invokeSMCLI env msgs conf rh_userid api parms [] n)).
Proof.
  intros H Hne.
  rewrite (invokeSMCLI_argv env msgs conf rh_userid api parms parms'
             hideInLog n H).
  rewrite (invokeSMCLI_argv env msgs conf rh_userid api parms parms [] n
             eq_refl).
  repeat split. intros E. injection E as E. unfold smcli_argv in E.
  apply app_inv_tail in E. contradiction.
Qed.

Lemma invokeSMCLI_executes_masked_parms_witness :
  let env := script [] (Completed (Utf8 ("0 0 0" +:+ PyStr.LFs +:+ "Done"))) in
  let parms := ["-T"; "USER1"; "-p"; "secret"] in
  let parms' := ["-T"; "USER1"; "-p"; "<hidden>"] in
  execs (trace (invokeSMCLI env sample_msgs sample_conf "MAINT"
                  "Image_Password_Set" parms [3] 0%nat)) =
    [Argv (smcli_argv sample_conf "Image_Password_Set" parms')] /\
  execs (trace (invokeSMCLI env sample_msgs sample_conf "MAINT"
                  "Image_Password_Set" parms [] 0%nat)) =
    [Argv (smcli_argv sample_conf "Image_Password_Set" parms)] /\
  execs (trace (invokeSMCLI env sample_msgs sample_conf "MAINT"
                  "Image_Password_Set" parms [3] 0%nat)) <>
  execs (trace (invokeSMCLI env sample_msgs sample_conf "MAINT"
                  "Image_Password_Set" parms [] 0%nat)).
Proof.
  intros env parms parms'.
  apply (invokeSMCLI_executes_masked_parms env sample_msgs sample_conf
           "MAINT" "Image_Password_Set" parms parms' [3] 0%nat).
  - reflexivity.
  - discriminate.
Defined.

(** The command executed at the sample input, written out. *)
Example invokeSMCLI_hidden_password :
  let env := script [] (Completed (Utf8 ("0 0 0" +:+ PyStr.LFs +:+ "Done"))) in
  execs (trace (invokeSMCLI env sample_msgs sample_conf "MAINT"
                  "Image_Password_Set" ["-T"; "USER1"; "-p"; "secret"] [3]
                  0%nat)) =
  [Argv ["sudo"; "/opt/zthin/bin/smcli"; "Image_Password_Set";
         "--addRCheader"; "-T"; "USER1"; "-p"; "<hidden>"; "--timeout";
         "240"]].
Proof. vm_compute. reflexivity. Qed.

(** ** installFS when the disk cannot be acquired *)

Section InstallFSAcquire.

Variable env : nat -> proc_result.
Variable msgs : Catalog.

Lemma acquire_exhausted (rh_userid vaddr mode : string) (f : frame) (n : nat)
    (rc : Z) (o : stdout) :
  fails_from env n 6 ->
  env (n + 6)%nat = Raised (CalledProcessError rc o) ->
  let r := acquire env msgs rh_userid vaddr mode f n in
  calls r = (n + 7)%nat /\
  execs (trace r) = replicate 7 (link_cmd rh_userid vaddr mode) /\
  exists f', value r = Ret f' /\
             results f' = <["rs" := PInt rc]> (defaults msgs "0415") /\
             device f' = device f.
Proof.
  intros Hf E6.
  unfold acquire, invoking. cbv zeta. rewrite run_emit, run_attempt.
  match goal with
  | |- context [retry_loop env ?c ?l ?s ?t retry_delays n] =>
      pose proof (retry_loop_exhausted env c l s t n rc o Hf E6) as H;
      cbv zeta in H;
      set (R := retry_loop env c l s t retry_delays n) in *; clearbody R
  end.
  destruct R as [v cl t]. cbn [value calls trace] in *.
  destruct H as (-> & -> & He & Hs).
  cbn -[execs sleeps]. traces. rewrite He.
  repeat split. eexists. repeat split.
Qed.

Lemma gate_skips (cond : bool) (step : frame -> M frame) (f : frame)
    (orc : pyval) (n : nat) :
  results f !! "overallRC" = Some orc ->
  eq_int orc 0 = false ->
  gate cond step f n = Run (Ret f) n [].
Proof.
  intros Ho Hz. unfold gate, getitem, lift. rewrite Ho, run_ret, Hz.
  reflexivity.
Qed.

End InstallFSAcquire.

(** C3.  When linkdiskandbringonline exits with a non-zero status at each
    of the seven attempts, and the defaults of message 0415 carry a
    non-zero overallRC, installFS does not return a record: the release
    step reads the variable [device], which no statement has assigned, and
    the UnboundLocalError leaves the function.  Neither the flush nor the
    detach command is spawned. *)
Theorem installFS_raises_when_acquisition_fails
    (env : nat -> proc_result) (msgs : Catalog)
    (rh_userid vaddr mode fileSystem diskType : string) (rc : Z) (o : stdout)
    (orc : pyval) :
  fails_from env 0 6 ->
  env 6%nat = Raised (CalledProcessError rc o) ->
  defaults msgs "0415" !! "overallRC" = Some orc ->
  eq_int orc 0 = false ->
  let r :=
    installFS env msgs rh_userid vaddr mode fileSystem diskType 0%nat in
  value r = Raise (UnboundLocalError "device") /\
  execs (trace r) = replicate 7 (link_cmd rh_userid vaddr mode).
Proof.
  intros Hf E6 Ho Hz.
  destruct (acquire_exhausted env msgs rh_userid vaddr mode installFS_frame0
              0%nat rc o Hf E6) as (Hc & He & f & Hv & Hr & Hd).
  assert (Ho' : results f !! "overallRC" = Some orc).
  { rewrite Hr. rewrite lookup_insert_ne by discriminate. exact Ho. }
  assert (Hp : installFS_prepare env msgs rh_userid vaddr mode diskType 0%nat
               = Run (Ret f) 7%nat
                   (trace (acquire env msgs rh_userid vaddr mode
                             installFS_frame0 0%nat))).
  { unfold installFS_prepare.
    rewrite (run_bind_Ret _ _ _ f Hv), Hc. cbn [Nat.add].
    repeat (rewrite (run_bind_Ret _ _ _ f)
              by (rewrite (gate_skips _ _ f orc _ Ho' Hz);
                  reflexivity);
            rewrite (gate_skips _ _ f orc _ Ho' Hz);
            cbn [value calls trace]).
    rewrite (gate_skips _ _ f orc _ Ho' Hz). cbn [value calls trace].
    rewrite !app_nil_r. reflexivity. }
  unfold installFS. cbv zeta. rewrite run_emit.
  rewrite (run_bind_Ret _ _ _ f) by (rewrite Hp; reflexivity).
  rewrite Hp. cbn [value calls trace].
  unfold installFS_finish.
  rewrite (run_bind_Ret _ _ _ f)
    by (rewrite (gate_skips _ _ f orc _ Ho' Hz); reflexivity).
  rewrite (gate_skips _ _ f orc _ Ho' Hz). cbn [value calls trace].
  assert (Hrel : release env msgs rh_userid vaddr f 7%nat =
                 Run (Raise (UnboundLocalError "device")) 7%nat []).
  { unfold release, get_device. rewrite Hd. reflexivity. }
  rewrite (run_bind_Raise _ _ _ _ ltac:(rewrite Hrel; reflexivity)).
  rewrite Hrel. cbn [value calls trace]. traces_only. rewrite He.
  split; reflexivity.
Qed.

Lemma installFS_raises_when_acquisition_fails_witness :
  let env := script [] exit1 in
  let r := installFS env sample_msgs "MAINT" "193" "W" "ext4" "3390" 0%nat in
  value r = Raise (UnboundLocalError "device") /\
  execs (trace r) = replicate 7 (link_cmd "MAINT" "193" "W").
Proof.
  intros env.
  apply (installFS_raises_when_acquisition_fails env sample_msgs "MAINT"
           "193" "W" "ext4" "3390" 1 (Utf8 "busy") (PInt 3)).
  - intros i Hi. do 2 eexists. destruct i; reflexivity.
  - reflexivity.
  - vm_compute. reflexivity.
  - reflexivity.
Defined.

(** ** invokeSMCLI: the header of a failed call *)

Section Header.

Variable env : nat -> proc_result.
Variable msgs : Catalog.
Variable conf : Config.

Lemma smcli_call_on_failure (api : string) (argv : list string) (n : nat)
    (rc : Z) (raw : stdout) :
  env n = Raised (CalledProcessError rc raw) ->
  value (smcli_call env msgs api argv n) =
  value (smcli_failure msgs api (PyStr.join " " argv) raw (S n)).
Proof.
  intros E. unfold smcli_call, try_except, bind, check_output.
  cbn [value calls trace]. rewrite E. reflexivity.
Qed.

(** A failed call returns what the decoding of the header gives, provided
    that record has an overallRC to log. *)
Lemma invokeSMCLI_on_failure (rh_userid api : string)
    (parms parms' : list string) (hideInLog : list Z)
    (n : nat) (rc : Z) (raw : stdout) (d : dict) (orc : pyval) :
  mask parms hideInLog = Some parms' ->
  env n = Raised (CalledProcessError rc raw) ->
  value (smcli_failure msgs api
           (PyStr.join " " (smcli_argv conf api parms')) raw (S n)) = Ret d ->
  d !! "overallRC" = Some orc ->
  value (invokeSMCLI env msgs conf rh_userid api parms hideInLog n) = Ret d.
Proof.
  intros Hm E Hd Ho. unfold invokeSMCLI.
  rewrite (run_bind_Ret _ _ _ parms')
    by (rewrite (smcli_enter_run _ _ _ _ _ _ Hm); reflexivity).
  rewrite (smcli_enter_run _ _ _ _ _ _ Hm). cbn [value calls trace].
  destruct (smapi_timeout_run conf api n) as (t & Ht & _).
  rewrite (run_bind_Ret _ _ _ tt) by (rewrite Ht; reflexivity).
  rewrite Ht. cbn [value calls trace]. rewrite run_emit. cbn [value].
  rewrite (run_bind_Ret _ _ _ d)
    by (rewrite (smcli_call_on_failure _ _ _ _ _ E); exact Hd).
  cbn [value]. unfold getitem, lift. rewrite Ho. reflexivity.
Qed.

(** A failed call whose handler raises: the exception leaves
    invokeSMCLI. *)
Lemma invokeSMCLI_failure_raises (rh_userid api : string)
    (parms parms' : list string) (hideInLog : list Z)
    (n : nat) (rc : Z) (raw : stdout) (e : exn) :
  mask parms hideInLog = Some parms' ->
  env n = Raised (CalledProcessError rc raw) ->
  value (smcli_failure msgs api
           (PyStr.join " " (smcli_argv conf api parms')) raw (S n)) =
    Raise e ->
  value (invokeSMCLI env msgs conf rh_userid api parms hideInLog n) = Raise e.
Proof.
  intros Hm E He. unfold invokeSMCLI.
  rewrite (run_bind_Ret _ _ _ parms')
    by (rewrite (smcli_enter_run _ _ _ _ _ _ Hm); reflexivity).
  rewrite (smcli_enter_run _ _ _ _ _ _ Hm). cbn [value calls trace].
  destruct (smapi_timeout_run conf api n) as (t & Ht & _).
  rewrite (run_bind_Ret _ _ _ tt) by (rewrite Ht; reflexivity).
  rewrite Ht. cbn [value calls trace]. rewrite run_emit. cbn [value].
  rewrite (run_bind_Raise _ _ _ e)
    by (rewrite (smcli_call_on_failure _ _ _ _ _ E); exact He).
  reflexivity.
Qed.

End Header.

Lemma header_record_lookup (msgs : Catalog) (api strCmd payload : string)
    (orc rc rs errno : Z) (strError : string) :
  let d := header_record msgs api strCmd payload orc rc rs errno strError in
  d !! "overallRC" = Some (PInt orc) /\
  d !! "rc" = Some (PInt rc) /\
  d !! "rs" = Some (PInt rs) /\
  d !! "errno" = Some (PInt errno).
Proof. vm_compute. repeat split. Qed.

Lemma smcli_failure_8_4_12 (msgs : Catalog) (api strCmd rest : string)
    (n : nat) :
  value (smcli_failure msgs api strCmd
           (Utf8 (header_8_4_12 +:+ PyStr.LFs +:+ rest)) n) =
  Ret (header_record msgs api strCmd rest 8 4 12 0 "disk busy").
Proof. vm_compute. reflexivity. Qed.

Lemma smcli_failure_25_1_1007 (msgs : Catalog) (api strCmd rest : string)
    (n : nat) :
  value (smcli_failure msgs api strCmd
           (Utf8 (header_25_1_1007 +:+ PyStr.LFs +:+ rest)) n) =
  Ret (header_record msgs api strCmd rest 25 1 0 1007 "bad opt").
Proof. vm_compute. reflexivity. Qed.

Lemma orc_values_cases (o : Z) :
  existsb (Z.eqb o) orc_values = true -> o = 8 \/ o = 24 \/ o = 25.
Proof.
  unfold orc_values. cbn. intros H.
  destruct (Z.eqb_spec o 8); [auto|].
  destruct (Z.eqb_spec o 24); [auto|].
  destruct (Z.eqb_spec o 25); [auto|]. discriminate.
Qed.

(** The validation of three integer words, the first of them 8, 24 or
    25. *)
Lemma smcli_codes_good (msgs : Catalog) (api strCmd h0 h1 c0 c1 c2 : string)
    (more : list string) (o r w : Z) (n : nat) :
  PyStr.int c0 = Some o ->
  existsb (Z.eqb o) orc_values = true ->
  PyStr.int c1 = Some r ->
  PyStr.int c2 = Some w ->
  exists d,
    value (smcli_codes msgs api strCmd h0 h1 (c0 :: c1 :: c2 :: more) n) =
      Ret (d, true) /\
    d !! "overallRC" = Some (PInt o) /\
    d !! "rc" = Some (PInt r) /\
    d !! "rs" = Some (PInt (if o =? 8 then w else 0)) /\
    d !! "errno" = Some (PInt (if o =? 25 then w else 0)).
Proof.
  intros H0 Ho H1 H2. unfold smcli_codes.
  cbn [length Nat.ltb Nat.leb]. unfold item, lift.
  cbn [lookup list_lookup]. rewrite !run_ret. cbn [value].
  rewrite H0, Ho, H1, H2. cbn [negb].
  unfold getitem, lift.
  rewrite lookup_insert_ne by discriminate. rewrite lookup_insert_eq.
  rewrite run_ret. cbn [value eq_int].
  apply orc_values_cases in Ho.
  destruct Ho as [-> | [-> | ->]]; cbn [Z.eqb Pos.eqb value ret];
    eexists; (split; [reflexivity|]); vm_compute; repeat split.
Qed.

(** X29.  A failed call whose output starts with the line
    "8 4 12 (details) disk busy", ended by a line feed, returns
    overallRC=8, rc=4, rs=12, and one whose output starts with the line
    "25 1 1007 (details) bad opt" returns overallRC=25, rc=1, errno=1007.
    In general, with a first word that is 8, 24 or 25 and integer second
    and third words, the third word is stored as rs when overallRC is 8,
    as errno when it is 25, and not at all otherwise: rs and errno are 0
    where it is not stored.  The indices to hide are any that lie within
    the parameter list. *)
Theorem invokeSMCLI_decodes_header
    (env8 env25 : nat -> proc_result) (msgs : Catalog) (conf : Config)
    (rh_userid api : string) (parms parms' : list string)
    (hideInLog : list Z) (n : nat)
    (rc8 rc25 : Z) (rest8 rest25 : string)
    (strCmd h0 h1 c0 c1 c2 : string) (more : list string) (o r w : Z)
    (m : nat) :
  mask parms hideInLog = Some parms' ->
  env8 n = Raised (CalledProcessError rc8
                     (Utf8 (header_8_4_12 +:+ PyStr.LFs +:+ rest8))) ->
  env25 n = Raised (CalledProcessError rc25
                      (Utf8 (header_25_1_1007 +:+ PyStr.LFs +:+ rest25))) ->
  PyStr.int c0 = Some o ->
  existsb (Z.eqb o) orc_values = true ->
  PyStr.int c1 = Some r ->
  PyStr.int c2 = Some w ->
  (exists d,
     value (invokeSMCLI env8 msgs conf rh_userid api parms hideInLog n) =
       Ret d /\
     d !! "overallRC" = Some (PInt 8) /\
     d !! "rc" = Some (PInt 4) /\
     d !! "rs" = Some (PInt 12) /\
     d !! "errno" = Some (PInt 0)) /\
  (exists d,
     value (invokeSMCLI env25 msgs conf rh_userid api parms hideInLog n) =
       Ret d /\
     d !! "overallRC" = Some (PInt 25) /\
     d !! "rc" = Some (PInt 1) /\
     d !! "rs" = Some (PInt 0) /\
     d !! "errno" = Some (PInt 1007)) /\
  (exists d,
     value (smcli_codes msgs api strCmd h0 h1 (c0 :: c1 :: c2 :: more) m) =
       Ret (d, true) /\
     d !! "overallRC" = Some (PInt o) /\
     d !! "rc" = Some (PInt r) /\
     d !! "rs" = Some (PInt (if o =? 8 then w else 0)) /\
     d !! "errno" = Some (PInt (if o =? 25 then w else 0))).
Proof.
  intros Hm E8 E25 H0 Ho H1 H2. split; [|split].
  - eexists. split.
    + eapply (invokeSMCLI_on_failure env8 msgs conf rh_userid api parms
                parms' hideInLog n rc8 _ _ (PInt 8) Hm E8).
      * apply smcli_failure_8_4_12.
      * apply header_record_lookup.
    + apply header_record_lookup.
  - eexists. split.
    + eapply (invokeSMCLI_on_failure env25 msgs conf rh_userid api parms
                parms' hideInLog n rc25 _ _ (PInt 25) Hm E25).
      * apply smcli_failure_25_1_1007.
      * apply header_record_lookup.
    + apply header_record_lookup.
  - apply smcli_codes_good; assumption.
Qed.

Lemma invokeSMCLI_decodes_header_witness :
  let env8 := script [] (smcli_exit header_8_4_12) in
  let env25 := script [] (smcli_exit header_25_1_1007) in
  (exists d,
     value (invokeSMCLI env8 sample_msgs sample_conf "MAINT" "Image_Query_DM"
              ["-T"; "USER1"] [1] 0%nat) = Ret d /\
     d !! "overallRC" = Some (PInt 8) /\
     d !! "rc" = Some (PInt 4) /\
     d !! "rs" = Some (PInt 12) /\
     d !! "errno" = Some (PInt 0)) /\
  (exists d,
     value (invokeSMCLI env25 sample_msgs sample_conf "MAINT" "Image_Query_DM"
              ["-T"; "USER1"] [1] 0%nat) = Ret d /\
     d !! "overallRC" = Some (PInt 25) /\
     d !! "rc" = Some (PInt 1) /\
     d !! "rs" = Some (PInt 0) /\
     d !! "errno" = Some (PInt 1007)) /\
  (exists d,
     value (smcli_codes sample_msgs "Image_Query_DM" "smcli" "24 7 9 " ""
              ["24"; "7"; "9"; ""] 0%nat) = Ret (d, true) /\
     d !! "overallRC" = Some (PInt 24) /\
     d !! "rc" = Some (PInt 7) /\
     d !! "rs" = Some (PInt (if 24 =? 8 then 9 else 0)) /\
     d !! "errno" = Some (PInt (if 24 =? 25 then 9 else 0))).
Proof.
  intros env8 env25.
  apply (invokeSMCLI_decodes_header env8 env25 sample_msgs sample_conf
           "MAINT" "Image_Query_DM" ["-T"; "USER1"] ["-T"; "<hidden>"] [1]
           0%nat 1 1 "Details" "Details" "smcli" "24 7 9 " "" "24" "7" "9"
           [""] 24 7 9 0%nat);
    reflexivity.
Defined.

(** ** invokeSMCLI: a header that no line feed ends *)

(** The header of a text that has no line feed is the whole of it up to
    the tag "(details)". *)
Lemma smcli_header_of_one_line (text h0 : string) :
  PyStr.split1 "(details)" text !! 0%nat = Some h0 ->
  exists h1,
    match PyStr.split1 "(details)" text with
    | [] => [""; ""]
    | [h] => [h; ""]
    | l => l
    end = h0 :: h1 :: match PyStr.split1 "(details)" text with
                      | _ :: _ :: l => l
                      | _ => []
                      end.
Proof.
  intros Hh0.
  destruct (PyStr.split1 "(details)" text) as [|a [|b l]];
    [discriminate | |]; cbn in Hh0; injection Hh0 as ->; eexists;
    reflexivity.
Qed.

(** With three integer words, the first of them 8, 24 or 25, [goodHeader]
    is True and the message 0300 is rendered from [smcliResp[1]], which a
    text without a line feed does not have. *)
Lemma smcli_failure_unterminated (msgs : Catalog)
    (api strCmd text h0 c0 c1 c2 : string) (more : list string) (o r w : Z)
    (n : nat) :
  PyStr.split1 PyStr.LFs text = [text] ->
  PyStr.split1 "(details)" text !! 0%nat = Some h0 ->
  PyStr.split " " h0 = c0 :: c1 :: c2 :: more ->
  PyStr.int c0 = Some o ->
  existsb (Z.eqb o) orc_values = true ->
  PyStr.int c1 = Some r ->
  PyStr.int c2 = Some w ->
  value (smcli_failure msgs api strCmd (Utf8 text) n) = Raise IndexError.
Proof.
  intros Hnl Hh0 Hc H0 Ho H1 H2. unfold smcli_failure. rewrite run_emit.
  cbn [value decode]. rewrite run_ret. cbn [value]. cbv zeta.
  rewrite Hnl. unfold item at 1, lift. cbn [lookup list_lookup].
  rewrite run_ret. cbn [value].
  destruct (smcli_header_of_one_line text h0 Hh0) as (h1 & ->).
  unfold item at 1 2, lift. cbn [lookup list_lookup].
  rewrite !run_ret. cbn [value]. rewrite Hc.
  destruct (smcli_codes_good msgs api strCmd h0 h1 c0 c1 c2 more o r w n
              H0 Ho H1 H2) as (d & Hrun & Lo & Lr & Ls & Le).
  rewrite (run_bind_Ret _ _ _ (d, true) Hrun). cbn [value].
  unfold getitem, item, lift. cbn [lookup list_lookup].
  rewrite !lookup_insert_ne by discriminate.
  rewrite Lo, Lr, Ls, Le. rewrite !run_ret. reflexivity.
Qed.

(** C4.  A failed call whose first output line is one of the two headers
    does not always return the record that the header decodes to: when no
    line feed follows the header (the output is the header and nothing
    else, or any text without a line feed whose first three words are
    integers, the first of them 8, 24 or 25), the handler of
    CalledProcessError reads [smcliResp[1]] to render message 0300, and
    IndexError leaves invokeSMCLI: smcli was spawned once, and no record
    is returned.  With a line feed after the header the records are
    overallRC=8, rc=4, rs=12 and overallRC=25, rc=1, errno=1007 (X29). *)
Theorem invokeSMCLI_unterminated_header_raises
    (env : nat -> proc_result) (msgs : Catalog) (conf : Config)
    (rh_userid api : string) (parms parms' : list string)
    (hideInLog : list Z) (n : nat) (rc : Z)
    (text h0 c0 c1 c2 : string) (more : list string) (o r w : Z) :
  mask parms hideInLog = Some parms' ->
  env n = Raised (CalledProcessError rc (Utf8 text)) ->
  PyStr.split1 PyStr.LFs text = [text] ->
  PyStr.split1 "(details)" text !! 0%nat = Some h0 ->
  PyStr.split " " h0 = c0 :: c1 :: c2 :: more ->
  PyStr.int c0 = Some o ->
  existsb (Z.eqb o) orc_values = true ->
  PyStr.int c1 = Some r ->
  PyStr.int c2 = Some w ->
  let run := invokeSMCLI env msgs conf rh_userid api parms hideInLog n in
  value run = Raise IndexError /\
  execs (trace run) = [Argv (smcli_argv conf api parms')].
Proof.
  intros Hm E Hnl Hh0 Hc H0 Ho H1 H2. split.
  - apply (invokeSMCLI_failure_raises env msgs conf rh_userid api parms
             parms' hideInLog n rc (Utf8 text) IndexError Hm E).
    exact (smcli_failure_unterminated msgs api _ text h0 c0 c1 c2 more o r w
             (S n) Hnl Hh0 Hc H0 Ho H1 H2).
  - apply invokeSMCLI_argv. exact Hm.
Qed.

(** The two headers "8 4 12 (details) disk busy" and
    "25 1 1007 (details) bad opt", each the whole output of smcli. *)
Lemma invokeSMCLI_unterminated_header_raises_witness :
  let env8 :=
    script [] (Raised (CalledProcessError 1 (Utf8 header_8_4_12))) in
  let env25 :=
    script [] (Raised (CalledProcessError 1 (Utf8 header_25_1_1007))) in
  let run8 :=
    invokeSMCLI env8 sample_msgs sample_conf "MAINT" "Image_Query_DM"
      ["-T"; "USER1"] [] 0%nat in
  let run25 :=
    invokeSMCLI env25 sample_msgs sample_conf "MAINT" "Image_Query_DM"
      ["-T"; "USER1"] [] 0%nat in
  (value run8 = Raise IndexError /\
   execs (trace run8) =
     [Argv (smcli_argv sample_conf "Image_Query_DM" ["-T"; "USER1"])]) /\
  (value run25 = Raise IndexError /\
   execs (trace run25) =
     [Argv (smcli_argv sample_conf "Image_Query_DM" ["-T"; "USER1"])]).
Proof.
  intros env8 env25. split.
  - apply (invokeSMCLI_unterminated_header_raises env8 sample_msgs
             sample_conf "MAINT" "Image_Query_DM" ["-T"; "USER1"]
             ["-T"; "USER1"] [] 0%nat 1 header_8_4_12 "8 4 12 " "8" "4" "12"
             [""] 8 4 12); reflexivity.
  - apply (invokeSMCLI_unterminated_header_raises env25 sample_msgs
             sample_conf "MAINT" "Image_Query_DM" ["-T"; "USER1"]
             ["-T"; "USER1"] [] 0%nat 1 header_25_1_1007 "25 1 1007 " "25"
             "1" "1007" [""] 25 1 1007); reflexivity.
Defined.

(** ** invokeSMCLI: a first word that is no overall return code *)

(** The validation of three integer words, the first of them other than
    8, 24 and 25: [results] is bound to the dictionary of message 0302,
    into which the later words are stored, and [goodHeader] stays True;
    the test of the third word reads [overallRC] of that dictionary. *)
Lemma smcli_codes_out_of_range (msgs : Catalog)
    (api strCmd h0 h1 c0 c1 c2 : string) (more : list string) (o r w : Z)
    (n : nat) :
  PyStr.int c0 = Some o ->
  existsb (Z.eqb o) orc_values = false ->
  PyStr.int c1 = Some r ->
  PyStr.int c2 = Some w ->
  let run := smcli_codes msgs api strCmd h0 h1 (c0 :: c1 :: c2 :: more) n in
  value run = Raise (KeyError "overallRC") \/
  exists d, value run = Ret (d, true).
Proof.
  intros H0 Ho H1 H2. unfold smcli_codes.
  cbn [length Nat.ltb Nat.leb]. unfold item, lift.
  cbn [lookup list_lookup]. rewrite !run_ret. cbn [value].
  rewrite H0, Ho, H1, H2. cbn [negb].
  unfold getitem, lift.
  rewrite !lookup_insert_ne by discriminate.
  destruct (defaults msgs "0302" !! "overallRC") as [orc|].
  - right. rewrite run_ret. cbn [value].
    destruct (eq_int orc 8); [eexists; reflexivity|].
    destruct (eq_int orc 25); eexists; reflexivity.
  - left. reflexivity.
Qed.

Lemma smcli_failure_out_of_range (msgs : Catalog)
    (api strCmd text h0 c0 c1 c2 : string) (more : list string) (o r w : Z)
    (n : nat) :
  PyStr.split1 PyStr.LFs text = [text] ->
  PyStr.split1 "(details)" text !! 0%nat = Some h0 ->
  PyStr.split " " h0 = c0 :: c1 :: c2 :: more ->
  PyStr.int c0 = Some o ->
  existsb (Z.eqb o) orc_values = false ->
  PyStr.int c1 = Some r ->
  PyStr.int c2 = Some w ->
  exists e,
    value (smcli_failure msgs api strCmd (Utf8 text) n) = Raise e /\
    (e = IndexError \/ exists key, e = KeyError key).
Proof.
  intros Hnl Hh0 Hc H0 Ho H1 H2. unfold smcli_failure. rewrite run_emit.
  cbn [value decode]. rewrite run_ret. cbn [value]. cbv zeta.
  rewrite Hnl. unfold item at 1, lift. cbn [lookup list_lookup].
  rewrite run_ret. cbn [value].
  destruct (smcli_header_of_one_line text h0 Hh0) as (h1 & ->).
  unfold item at 1 2, lift. cbn [lookup list_lookup].
  rewrite !run_ret. cbn [value]. rewrite Hc.
  destruct (smcli_codes_out_of_range msgs api strCmd h0 h1 c0 c1 c2 more
              o r w n H0 Ho H1 H2) as [Hk | (d & Hd)]; cbv zeta in *.
  - rewrite (run_bind_Raise _ _ _ _ Hk). cbn [value]. eauto.
  - rewrite (run_bind_Ret _ _ _ (d, true) Hd). cbn [value].
    unfold getitem, item, lift. cbn [lookup list_lookup].
    rewrite !lookup_insert_ne by discriminate.
    destruct (d !! "overallRC"); [|cbn; eauto].
    rewrite run_ret. cbn [value].
    destruct (d !! "rc"); [|cbn; eauto].
    rewrite run_ret. cbn [value].
    destruct (d !! "rs"); [|cbn; eauto].
    rewrite run_ret. cbn [value].
    destruct (d !! "errno"); [|cbn; eauto].
    rewrite !run_ret. cbn. eauto.
Qed.

(** C5.  A failed call whose first word is an integer other than 8, 24
    and 25 does not always return an internal-error record: when the
    second and third words are integers too, [goodHeader] stays True, and
    when no line feed follows the header, the rendering of message 0300
    from the dictionary of message 0302 and from [smcliResp[1]] raises.
    Whatever the catalogue holds, an exception (IndexError, or KeyError
    when the dictionary of 0302 lacks a field the message reads) leaves
    invokeSMCLI: smcli was spawned once, and no record is returned, so
    none whose overallRC is 25. *)
Theorem invokeSMCLI_bad_overall_rc_unterminated_raises
    (env : nat -> proc_result) (msgs : Catalog) (conf : Config)
    (rh_userid api : string) (parms parms' : list string)
    (hideInLog : list Z) (n : nat) (rc : Z)
    (text h0 c0 c1 c2 : string) (more : list string) (o r w : Z) :
  mask parms hideInLog = Some parms' ->
  env n = Raised (CalledProcessError rc (Utf8 text)) ->
  PyStr.split1 PyStr.LFs text = [text] ->
  PyStr.split1 "(details)" text !! 0%nat = Some h0 ->
  PyStr.split " " h0 = c0 :: c1 :: c2 :: more ->
  PyStr.int c0 = Some o ->
  existsb (Z.eqb o) orc_values = false ->
  PyStr.int c1 = Some r ->
  PyStr.int c2 = Some w ->
  let run := invokeSMCLI env msgs conf rh_userid api parms hideInLog n in
  (exists e,
     value run = Raise e /\
     (e = IndexError \/ exists key, e = KeyError key)) /\
  execs (trace run) = [Argv (smcli_argv conf api parms')].
Proof.
  intros Hm E Hnl Hh0 Hc H0 Ho H1 H2. split.
  - destruct (smcli_failure_out_of_range msgs api
                (PyStr.join " " (smcli_argv conf api parms')) text h0 c0 c1
                c2 more o r w (S n) Hnl Hh0 Hc H0 Ho H1 H2) as (e & He & Hk).
    exists e. split; [|exact Hk].
    exact (invokeSMCLI_failure_raises env msgs conf rh_userid api parms
             parms' hideInLog n rc (Utf8 text) e Hm E He).
  - apply invokeSMCLI_argv. exact Hm.
Qed.

Lemma invokeSMCLI_bad_overall_rc_unterminated_raises_witness :
  let env :=
    script [] (Raised (CalledProcessError 1
                         (Utf8 "9 4 12 (details) unknown"))) in
  let run :=
    invokeSMCLI env sample_msgs sample_conf "MAINT" "Image_Query_DM"
      ["-T"; "USER1"] [] 0%nat in
  (exists e,
     value run = Raise e /\
     (e = IndexError \/ exists key, e = KeyError key)) /\
  execs (trace run) =
    [Argv (smcli_argv sample_conf "Image_Query_DM" ["-T"; "USER1"])].
Proof.
  intros env.
  apply (invokeSMCLI_bad_overall_rc_unterminated_raises env sample_msgs
           sample_conf "MAINT" "Image_Query_DM" ["-T"; "USER1"]
           ["-T"; "USER1"] [] 0%nat 1 "9 4 12 (details) unknown" "9 4 12 "
           "9" "4" "12" [""] 9 4 12); reflexivity.
Defined.

Lemma waitForOSState_gives_up_after_three_probes_witness :
  let env := script [] exit1 in
  let probe := execCmdThruIUCV env sample_msgs "MAINT" ping [] None in
  let r := waitForOSState env sample_msgs "MAINT" "USER1" "up" 3 5 0%nat in
  value r = Ret (defaults sample_msgs "0413") /\
  trace r =
    [SysLog [PStr "Enter vmUtils.waitForOSState, userid: "; PStr "USER1";
             PStr " state: "; PStr "up"; PStr " maxWait: "; PInt 3;
             PStr " sleepSecs: "; PNum 5]] ++
    trace (probe 0%nat) ++ [Sleep 5] ++
    trace (probe 1%nat) ++ [Sleep 5] ++
    trace (probe 2%nat) ++
    [PrintLn "ES"
       [PStr (template sample_msgs "0413"
                [PStr modId; PStr "USER1"; PStr "up";
                 PNum (inject_Z 3 * 5)])];
     SysLog [PStr "Exit vmUtils.waitForOSState, rc: "; PInt 4]] /\
  length (execs (trace r)) = 3%nat /\
  sleeps (trace r) = [5%Q; 5%Q].
Proof.
  intros env.
  apply (waitForOSState_gives_up_after_three_probes env sample_msgs "MAINT"
           "USER1" "up" 5 0%nat (PInt 4)).
  - intros j Hj. unfold probe_misses.
    exists (iucv_record 1 0 "0313"), (PInt 2).
    destruct j as [|[|[|j]]]; [| | |lia];
      (split; [vm_compute; reflexivity|]; split; vm_compute; reflexivity).
  - vm_compute. reflexivity.
Defined.


(** ** A spawn inside a try statement *)

Lemma effects_nil : effects [] = [].
Proof. reflexivity. Qed.

Ltac effects_only :=
  cbn [value calls trace app];
  repeat (rewrite ?effects_app, ?effects_cons, ?effects_nil, ?app_nil_r;
          cbn [value calls trace app is_output negb]).

Section Spawn.

Variable env : nat -> proc_result.

Lemma run_try_completed {A} (c : pycmd) (t : option Z) (k : stdout -> M A)
    (h : exn -> M A) (n : nat) (b : stdout) :
  env n = Completed b ->
  try_except (bind (check_output env c t) k) h n =
  let r := k b (S n) in
  match value r with
  | Ret a => Run (Ret a) (calls r) (Exec c t :: trace r)
  | Raise e =>
      let r' := h e (calls r) in
      Run (value r') (calls r') (Exec c t :: trace r ++ trace r')
  end.
Proof.
  intros E. unfold try_except, bind, check_output. cbn [value calls trace].
  rewrite E. cbn [value calls trace].
  destruct (value (k b (S n))); reflexivity.
Qed.

Lemma run_try_raised {A} (c : pycmd) (t : option Z) (k : stdout -> M A)
    (h : exn -> M A) (n : nat) (e : exn) :
  env n = Raised e ->
  try_except (bind (check_output env c t) k) h n =
  let r := h e (S n) in
  Run (value r) (calls r) (Exec c t :: trace r).
Proof.
  intros E. unfold try_except, bind, check_output. cbn [value calls trace].
  rewrite E. reflexivity.
Qed.

End Spawn.

(** ** execCmdThruIUCV: what is logged and what is executed *)

Section ExecCmdThruIUCV.

Variable env : nat -> proc_result.
Variable msgs : Catalog.

Lemma execCmdThruIUCV_enter (userid strCmd : string) (hideInLog : list Z)
    (logCmd : list string) (timeout : option Z) (n : nat) :
  mask (PyStr.split " " strCmd) hideInLog = Some logCmd ->
  let r := execCmdThruIUCV env msgs userid strCmd hideInLog timeout n in
  let r0 := execCmdThruIUCV env msgs userid strCmd [] timeout n in
  value r = value r0 /\ calls r = calls r0 /\
  exists line line0 t,
    trace r = SysLog line :: t /\ trace r0 = SysLog line0 :: t /\
    line =
      match hideInLog with
      | [] => line0
      | _ => [PStr "Enter vmUtils.execCmdThruIUCV, userid: "; PStr userid;
              PStr " cmd: "; PStr (PyStr.join " " logCmd);
              PStr " timeout: "; opt_int timeout]
      end.
Proof.
  intros H. unfold execCmdThruIUCV.
  destruct hideInLog as [|i rest].
  - cbv zeta. rewrite run_emit. cbn [value calls trace].
    repeat split. do 3 eexists. repeat split.
  - cbv zeta. unfold hide. rewrite H. rewrite run_emit.
    rewrite run_bind. cbn [lift]. rewrite run_ret. cbv zeta.
    cbn [value calls trace emit app].
    repeat split. do 3 eexists. repeat split.
Qed.

(** Whatever the outcome, the one effect besides the log is the spawn of
    the IUCV client, with the timeout of the caller. *)
Lemma execCmdThruIUCV_effects (userid strCmd : string) (timeout : option Z)
    (n : nat) :
  effects (trace (execCmdThruIUCV env msgs userid strCmd [] timeout n)) =
  [Exec (iucv_cmd userid strCmd) timeout].
Proof.
  unfold execCmdThruIUCV. cbv zeta. rewrite run_emit.
  cbn [value calls trace].
  set (body := try_except _ _).
  assert (Hb : effects (trace (body n)) =
               [Exec (iucv_cmd userid strCmd) timeout]).
  { subst body. unfold try_except, bind, check_output.
    cbn [value calls trace].
    destruct (env n) as [[s|s]|e]; cbn -[effects]; effects_only; auto.
    destruct e; cbn -[effects iucv_failure]; effects_only; auto.
    rewrite (silent_run _ (S n) (silent_iucv_failure msgs userid strCmd _ _)).
    cbn -[effects]. effects_only. auto. }
  clearbody body.
  unfold bind. destruct (value (body n)) as [a|e]; cbn [value calls trace].
  - unfold getitem, lift. destruct (a !! "rc"); cbn -[effects];
      effects_only; rewrite ?Hb; auto.
  - effects_only. auto.
Qed.

End ExecCmdThruIUCV.

(** X1.  The indices of hideInLog mask words of the command in the entry
    log line only: the command executed, the result and every effect
    besides the log are those of a call without hideInLog. *)
Theorem execCmdThruIUCV_masks_the_log_only
    (env : nat -> proc_result) (msgs : Catalog) (userid strCmd : string)
    (hideInLog : list Z) (logCmd : list string) (timeout : option Z)
    (n : nat) :
  mask (PyStr.split " " strCmd) hideInLog = Some logCmd ->
  let r := execCmdThruIUCV env msgs userid strCmd hideInLog timeout n in
  let r0 := execCmdThruIUCV env msgs userid strCmd [] timeout n in
  value r = value r0 /\
  effects (trace r) = [Exec (iucv_cmd userid strCmd) timeout] /\
  effects (trace r0) = [Exec (iucv_cmd userid strCmd) timeout] /\
  (hideInLog <> [] ->
   head (trace r) =
     Some (SysLog [PStr "Enter vmUtils.execCmdThruIUCV, userid: ";
                   PStr userid; PStr " cmd: "; PStr (PyStr.join " " logCmd);
                   PStr " timeout: "; opt_int timeout])).
Proof.
  intros H.
  destruct (execCmdThruIUCV_enter env msgs userid strCmd hideInLog logCmd
              timeout n H) as (Hv & _ & line & line0 & t & Ht & Ht0 & Hl).
  pose proof (execCmdThruIUCV_effects env msgs userid strCmd timeout n) as He.
  cbv zeta. repeat split.
  - exact Hv.
  - rewrite Ht. rewrite Ht0 in He. rewrite effects_cons in *. exact He.
  - exact He.
  - intros Hne. rewrite Ht. cbn [head]. destruct hideInLog; [congruence|].
    rewrite Hl. reflexivity.
Qed.

Lemma execCmdThruIUCV_masks_the_log_only_witness :
  let env := script [] (Completed (Utf8 "ok")) in
  let r := execCmdThruIUCV env sample_msgs "USER1" "passwd -p secret" [2]
             None 0%nat in
  let r0 := execCmdThruIUCV env sample_msgs "USER1" "passwd -p secret" []
              None 0%nat in
  value r = value r0 /\
  effects (trace r) = [Exec (iucv_cmd "USER1" "passwd -p secret") None] /\
  effects (trace r0) = [Exec (iucv_cmd "USER1" "passwd -p secret") None] /\
  ([2] <> [] ->
   head (trace r) =
     Some (SysLog [PStr "Enter vmUtils.execCmdThruIUCV, userid: ";
                   PStr "USER1"; PStr " cmd: ";
                   PStr (PyStr.join " " ["passwd"; "-p"; "<hidden>"]);
                   PStr " timeout: "; opt_int None])).
Proof.
  intros env.
  apply (execCmdThruIUCV_masks_the_log_only env sample_msgs "USER1"
           "passwd -p secret" [2] ["passwd"; "-p"; "<hidden>"] None 0%nat).
  reflexivity.
Defined.

(** X2.  An index of hideInLog that lies outside the words of the command
    makes execCmdThruIUCV raise IndexError before anything is logged or
    spawned. *)
Theorem execCmdThruIUCV_hide_out_of_range
    (env : nat -> proc_result) (msgs : Catalog) (userid strCmd : string)
    (hideInLog : list Z) (timeout : option Z) (n : nat) :
  mask (PyStr.split " " strCmd) hideInLog = None ->
  execCmdThruIUCV env msgs userid strCmd hideInLog timeout n =
  Run (Raise IndexError) n [].
Proof.
  intros H. unfold execCmdThruIUCV.
  destruct hideInLog as [|i rest]; [discriminate|].
  cbv zeta. unfold hide. rewrite H. reflexivity.
Qed.

Lemma execCmdThruIUCV_hide_out_of_range_witness :
  execCmdThruIUCV (script [] (Completed (Utf8 "ok"))) sample_msgs "USER1"
    "ls -l" [2] None 0%nat =
  Run (Raise IndexError) 0%nat [].
Proof.
  apply (execCmdThruIUCV_hide_out_of_range (script [] (Completed (Utf8 "ok")))
           sample_msgs "USER1" "ls -l" [2] None 0%nat).
  reflexivity.
Defined.

(** X3.  When the IUCV client runs to its end and its output is UTF-8,
    the record is overallRC=0, rc=0, rs=0, errno=0 with the decoded output
    as response. *)
Theorem execCmdThruIUCV_success
    (env : nat -> proc_result) (msgs : Catalog) (userid strCmd text : string)
    (hideInLog : list Z) (logCmd : list string) (timeout : option Z)
    (n : nat) :
  mask (PyStr.split " " strCmd) hideInLog = Some logCmd ->
  env n = Completed (Utf8 text) ->
  value (execCmdThruIUCV env msgs userid strCmd hideInLog timeout n) =
  Ret (iucv_ok text).
Proof.
  intros H E.
  destruct (execCmdThruIUCV_enter env msgs userid strCmd hideInLog logCmd
              timeout n H) as (-> & _).
  unfold execCmdThruIUCV. cbv zeta. rewrite run_emit. cbn [value].
  rewrite run_bind, (run_try_completed env _ _ _ _ n _ E).
  unfold decode. rewrite run_ret. cbv zeta. cbn [value calls trace ret].
  unfold getitem, lift. rewrite lookup_insert_ne by discriminate.
  cbn [mkdict list_to_map foldr]. 
  rewrite !lookup_insert_ne by discriminate. rewrite lookup_insert_eq.
  rewrite run_ret, run_emit. cbn [value ret]. 
  vm_compute. reflexivity.
Qed.

Lemma execCmdThruIUCV_success_witness :
  value (execCmdThruIUCV (script [] (Completed (Utf8 "ok"))) sample_msgs
           "USER1" "ls -l" [1] None 0%nat) =
  Ret (iucv_ok "ok").
Proof.
  apply (execCmdThruIUCV_success (script [] (Completed (Utf8 "ok")))
           sample_msgs "USER1" "ls -l" "ok" [1] ["ls"; "<hidden>"] None
           0%nat); reflexivity.
Defined.

(** ** execCmdThruIUCV: failures of the IUCV client *)

Section IUCVFailure.

Variable env : nat -> proc_result.
Variable msgs : Catalog.

Lemma execCmdThruIUCV_on_failure (userid strCmd : string)
    (timeout : option Z) (n : nat) (returncode : Z) (raw : stdout) :
  env n = Raised (CalledProcessError returncode raw) ->
  value (execCmdThruIUCV env msgs userid strCmd [] timeout n) =
  match value (iucv_failure msgs userid strCmd returncode raw (S n)) with
  | Ret d => match d !! "rc" with
             | Some _ => Ret d
             | None => Raise (KeyError "rc")
             end
  | Raise e => Raise e
  end.
Proof.
  intros E. unfold execCmdThruIUCV. cbv zeta. rewrite run_emit. cbn [value].
  rewrite run_bind, (run_try_raised env _ _ _ _ n _ E).
  cbv zeta. cbn [value calls trace].
  destruct (value (iucv_failure msgs userid strCmd returncode raw (S n)))
    as [d|e]; [|reflexivity].
  unfold getitem, lift. destruct (d !! "rc"); [|reflexivity].
  rewrite run_ret, run_emit. reflexivity.
Qed.

Lemma iucv_failed_rc (rc rs : Z) (response : pyval) :
  iucv_failed rc rs response !! "rc" = Some (PInt rc).
Proof. vm_compute. reflexivity. Qed.

Lemma iucv_failure_codes (userid strCmd output : string)
    (returncode rc rs : Z) (n : nat) :
  recovers "Return code " "," output returncode rc ->
  recovers "Reason code " "." output 0 rs ->
  value (iucv_failure msgs userid strCmd returncode (Utf8 output) n) =
  Ret (iucv_failed rc rs
         (let args := [PStr modId; PStr userid; PStr strCmd; PInt rc;
                       PInt rs; PStr output] in
          if rc =? 32 then PList (PyStr.chars (template msgs "0318" args))
          else PStr (template msgs (iucv_message rc) args))).
Proof.
  unfold recovers, iucv_failure, decode. intros H1 H2.
  rewrite run_ret. cbn [value].
  destruct (PyStr.search_group "Return code " "," output) as [g1|];
    [rewrite H1|subst returncode]; cbn [truthy negb];
    (destruct (PyStr.search_group "Reason code " "." output) as [g2|];
     [rewrite H2|subst rs]); cbn [truthy negb value ret];
    unfold iucv_failed, iucv_message; cbv zeta;
    (destruct (Z.eqb_spec rc 32) as [->|_]; [reflexivity|]);
    repeat match goal with
           | |- context [?z =? ?k] => destruct (z =? k)
           end; reflexivity.
Qed.

End IUCVFailure.

(** X4.  When the IUCV client fails, the record has overallRC=2 and
    errno=0; rc is the integer after "Return code " in the output, or the
    exit status of the client when the output has no such text; rs is the
    integer after "Reason code ", or 0.  The response is the message of
    the category of rc, but for rc=32 it is the list of the characters of
    message 0318, because the message is added to the empty list. *)
Theorem execCmdThruIUCV_failure_record
    (env : nat -> proc_result) (msgs : Catalog)
    (userid strCmd output : string) (timeout : option Z) (n : nat)
    (returncode rc rs : Z) :
  env n = Raised (CalledProcessError returncode (Utf8 output)) ->
  recovers "Return code " "," output returncode rc ->
  recovers "Reason code " "." output 0 rs ->
  value (execCmdThruIUCV env msgs userid strCmd [] timeout n) =
  Ret (iucv_failed rc rs
         (let args := [PStr modId; PStr userid; PStr strCmd; PInt rc;
                       PInt rs; PStr output] in
          if rc =? 32 then PList (PyStr.chars (template msgs "0318" args))
          else PStr (template msgs (iucv_message rc) args))).
Proof.
  intros E H1 H2.
  rewrite (execCmdThruIUCV_on_failure env msgs _ _ _ _ _ _ E).
  rewrite (iucv_failure_codes msgs _ _ _ _ _ _ _ H1 H2).
  rewrite iucv_failed_rc. reflexivity.
Qed.

Lemma execCmdThruIUCV_failure_record_witness :
  let output := "ERROR: Return code 32, Reason code 7." in
  value (execCmdThruIUCV
           (script [] (Raised (CalledProcessError 1 (Utf8 output))))
           sample_msgs "USER1" "ls" [] None 0%nat) =
  Ret (iucv_failed 32 7
         (let args := [PStr modId; PStr "USER1"; PStr "ls"; PInt 32;
                       PInt 7; PStr output] in
          if 32 =? 32
          then PList (PyStr.chars (template sample_msgs "0318" args))
          else PStr (template sample_msgs (iucv_message 32) args))).
Proof.
  intros output.
  apply (execCmdThruIUCV_failure_record
           (script [] (Raised (CalledProcessError 1 (Utf8 output))))
           sample_msgs "USER1" "ls" output None 0%nat 1 32 7);
    reflexivity.
Defined.

(** X5.  When the text after "Return code " in the output of the failed
    IUCV client is no integer, the record keeps the exit status of the
    client as rc, the reason code is not looked for (rs=0), and the
    response is message 0311. *)
Theorem execCmdThruIUCV_malformed_return_code
    (env : nat -> proc_result) (msgs : Catalog)
    (userid strCmd output g : string) (timeout : option Z) (n : nat)
    (returncode : Z) :
  env n = Raised (CalledProcessError returncode (Utf8 output)) ->
  PyStr.search_group "Return code " "," output = Some g ->
  PyStr.int g = None ->
  template msgs "0311"
    [PStr modId; PStr userid; PStr strCmd; PInt returncode; PStr g;
     PStr output] <> "" ->
  value (execCmdThruIUCV env msgs userid strCmd [] timeout n) =
  Ret (iucv_failed returncode 0
         (PStr (template msgs "0311"
                  [PStr modId; PStr userid; PStr strCmd; PInt returncode;
                   PStr g; PStr output]))).
Proof.
  intros E Hg Hi Hm.
  rewrite (execCmdThruIUCV_on_failure env msgs _ _ _ _ _ _ E).
  unfold iucv_failure, decode. rewrite run_ret. cbn [value].
  rewrite Hg, Hi. apply String.eqb_neq in Hm.
  repeat (cbn [truthy negb value ret]; rewrite ?Hm).
  fold (iucv_failed returncode 0
          (PStr (template msgs "0311"
                   [PStr modId; PStr userid; PStr strCmd; PInt returncode;
                    PStr g; PStr output]))).
  rewrite iucv_failed_rc. reflexivity.
Qed.

Lemma execCmdThruIUCV_malformed_return_code_witness :
  let output := "ERROR: Return code eight, Reason code 7." in
  value (execCmdThruIUCV
           (script [] (Raised (CalledProcessError 1 (Utf8 output))))
           sample_msgs "USER1" "ls" [] None 0%nat) =
  Ret (iucv_failed 1 0
         (PStr (template sample_msgs "0311"
                  [PStr modId; PStr "USER1"; PStr "ls"; PInt 1;
                   PStr "eight"; PStr output]))).
Proof.
  intros output.
  apply (execCmdThruIUCV_malformed_return_code
           (script [] (Raised (CalledProcessError 1 (Utf8 output))))
           sample_msgs "USER1" "ls" output "eight" None 0%nat 1);
    [reflexivity | reflexivity | reflexivity | discriminate].
Defined.

(** X6.  Output of the IUCV client that is no UTF-8 is treated unevenly.
    When the client ran to its end, the decoding error is caught and the
    record is the one of message 0421; when the client failed, the
    decoding happens inside the handler and UnicodeDecodeError leaves
    execCmdThruIUCV. *)
Theorem execCmdThruIUCV_undecodable_output
    (env env' : nat -> proc_result) (msgs : Catalog) (userid strCmd : string)
    (timeout : option Z) (n : nat) (lossy lossy' : string) (returncode : Z)
    (v : pyval) :
  env n = Completed (NotUtf8 lossy) ->
  env' n = Raised (CalledProcessError returncode (NotUtf8 lossy')) ->
  defaults msgs "0421" !! "rc" = Some v ->
  value (execCmdThruIUCV env msgs userid strCmd [] timeout n) =
    Ret (<["response" :=
             PStr (template msgs "0421"
                     [PStr modId; PStr strCmd; PStr "UnicodeDecodeError";
                      PExcText UnicodeDecodeError])]>
           (defaults msgs "0421")) /\
  value (execCmdThruIUCV env' msgs userid strCmd [] timeout n) =
    Raise UnicodeDecodeError.
Proof.
  intros E E' Hrc. split.
  - unfold execCmdThruIUCV. cbv zeta. rewrite run_emit. cbn [value].
    rewrite run_bind, (run_try_completed env _ _ _ _ n _ E).
    unfold decode. cbv zeta. cbn [value calls trace raise bind ret exn_name].
    unfold getitem, lift. rewrite lookup_insert_ne by discriminate.
    rewrite Hrc. reflexivity.
  - rewrite (execCmdThruIUCV_on_failure env' msgs _ _ _ _ _ _ E').
    reflexivity.
Qed.

Lemma execCmdThruIUCV_undecodable_output_witness :
  let env := script [] (Completed (NotUtf8 "?")) in
  let env' := script [] (Raised (CalledProcessError 1 (NotUtf8 "?"))) in
  value (execCmdThruIUCV env sample_msgs "USER1" "ls" [] None 0%nat) =
    Ret (<["response" :=
             PStr (template sample_msgs "0421"
                     [PStr modId; PStr "ls"; PStr "UnicodeDecodeError";
                      PExcText UnicodeDecodeError])]>
           (defaults sample_msgs "0421")) /\
  value (execCmdThruIUCV env' sample_msgs "USER1" "ls" [] None 0%nat) =
    Raise UnicodeDecodeError.
Proof.
  intros env env'.
  apply (execCmdThruIUCV_undecodable_output env env' sample_msgs "USER1" "ls"
           None 0%nat "?" "?" 1 (PInt 4)).
  - reflexivity.
  - reflexivity.
  - vm_compute. reflexivity.
Defined.

(** ** disableEnableDisk: retries *)

Section DisableEnableDiskRetries.

Variable env : nat -> proc_result.
Variable msgs : Catalog.

(** After [k] calls the loop sleeps on, it goes on with the remaining
    delays and the record of the last call. *)
Lemma disableEnableDisk_loop_retried (userid vaddr option : string)
    (delays : list Q) :
  forall (k n : nat) (r0 : dict),
    (k <= length delays)%nat ->
    (forall i, (i < k)%nat ->
       exists r,
         value (execCmdThruIUCV env msgs userid (chccwdev option vaddr) []
                  None (n + i)%nat) = Ret r /\ retried option r) ->
    exists rl,
      match k with
      | O => rl = r0
      | S j =>
          value (execCmdThruIUCV env msgs userid (chccwdev option vaddr) []
                   None (n + j)%nat) = Ret rl
      end /\
      let r := disableEnableDisk_loop env msgs userid vaddr option r0 delays
                 n in
      let r' := disableEnableDisk_loop env msgs userid vaddr option rl
                  (drop k delays) (n + k)%nat in
      value r = value r' /\
      execs (trace r) =
        replicate k (iucv_cmd userid (chccwdev option vaddr)) ++
        execs (trace r') /\
      sleeps (trace r) = take k delays ++ sleeps (trace r').
Proof.
  induction delays as [|d delays IH]; intros k n r0 Hk Hretry.
  - simpl in Hk. assert (k = 0%nat) as -> by lia.
    exists r0. rewrite Nat.add_0_r. cbn. auto.
  - destruct k as [|k].
    { exists r0. rewrite Nat.add_0_r. cbn. auto. }
    destruct (Hretry 0%nat) as (r & Hr & v & Ho & Hz & Hu); [lia|].
    rewrite Nat.add_0_r in Hr.
    destruct (IH k (S n) r) as (rl & Hl & Iv & Ie & Is).
    + simpl in Hk. lia.
    + intros i Hi. destruct (Hretry (S i)) as (r' & Hr' & Hret); [lia|].
      exists r'. split; [|exact Hret].
      replace (S n + i)%nat with (n + S i)%nat by lia. exact Hr'.
    + exists rl. split.
      * destruct k as [|j].
        -- subst rl. rewrite Nat.add_0_r. exact Hr.
        -- replace (n + S j)%nat with (S n + j)%nat by lia. exact Hl.
      * pose proof (execCmdThruIUCV_shape env msgs userid
                      (chccwdev option vaddr) None n) as Hs.
        cbv zeta in Hs. destruct Hs as (Hc & He & Hsl).
        cbv zeta in *. cbn [disableEnableDisk_loop drop take replicate].
        replace (n + S k)%nat with (S n + k)%nat by lia.
        rewrite (run_bind_Ret _ _ _ r Hr), Hc.
        unfold getitem, lift. rewrite Ho, run_ret, Hz.
        rewrite (run_bind_Ret _ _ _ false)
          by (rewrite unknown_disk_run; exact Hu).
        rewrite unknown_disk_run. cbn [value calls trace].
        rewrite run_emit.
        traces_only. rewrite He, Hsl, Iv, Ie, Is. auto.
Qed.

End DisableEnableDiskRetries.

(** X7.  When the first [k] calls of execCmdThruIUCV are failures the loop
    sleeps on and the next one reports overallRC=0, disableEnableDisk
    returns the record of that call; it has spawned the command [k + 1]
    times and slept the first [k] delays of its list. *)
Theorem disableEnableDisk_succeeds_after_retries
    (env : nat -> proc_result) (msgs : Catalog)
    (userid vaddr option : string) (k n : nat) (rk : dict) (orc : pyval) :
  (k < length chccwdev_delays)%nat ->
  (forall i, (i < k)%nat ->
     exists r,
       value (execCmdThruIUCV env msgs userid (chccwdev option vaddr) []
                None (n + i)%nat) = Ret r /\ retried option r) ->
  value (execCmdThruIUCV env msgs userid (chccwdev option vaddr) [] None
           (n + k)%nat) = Ret rk ->
  rk !! "overallRC" = Some orc ->
  eq_int orc 0 = true ->
  let r := disableEnableDisk env msgs userid vaddr option n in
  value r = Ret rk /\
  execs (trace r) =
    replicate (k + 1) (iucv_cmd userid (chccwdev option vaddr)) /\
  sleeps (trace r) = take k chccwdev_delays.
Proof.
  intros Hk Hretry Hv Ho Hz.
  destruct (disableEnableDisk_loop_retried env msgs userid vaddr option
              chccwdev_delays k n success4 ltac:(lia) Hretry)
    as (rl & _ & Lv & Le & Ls).
  cbv zeta in Lv, Le, Ls.
  destruct (lookup_lt_is_Some_2 chccwdev_delays k Hk) as [d Hd].
  rewrite (drop_S _ _ _ Hd) in Lv, Le, Ls.
  pose proof (execCmdThruIUCV_shape env msgs userid (chccwdev option vaddr)
                None (n + k)%nat) as Hs.
  cbv zeta in Hs. destruct Hs as (Hc & He & Hsl).
  assert (Hl : let r := disableEnableDisk_loop env msgs userid vaddr option
                          rl (d :: drop (S k) chccwdev_delays) (n + k)%nat in
               value r = Ret rk /\
               execs (trace r) = [iucv_cmd userid (chccwdev option vaddr)] /\
               sleeps (trace r) = []).
  { cbv zeta. cbn [disableEnableDisk_loop].
    rewrite (run_bind_Ret _ _ _ rk Hv), Hc.
    unfold getitem, lift. rewrite Ho, run_ret, Hz.
    traces_only. rewrite He, Hsl. auto. }
  cbv zeta in Hl. destruct Hl as (Hlv & Hle & Hls).
  rewrite Hlv in Lv. rewrite Hle in Le. rewrite Hls, app_nil_r in Ls.
  unfold disableEnableDisk. cbv zeta. rewrite run_emit.
  rewrite (run_bind_Ret _ _ _ rk Lv).
  unfold getitem, lift. rewrite Ho, run_ret, run_emit.
  traces_only. rewrite Le, Ls.
  split; [reflexivity|]. split; [|reflexivity].
  rewrite replicate_add. reflexivity.
Qed.

Lemma disableEnableDisk_succeeds_after_retries_witness :
  let env := script [iucv_exit "4" "5"] (Completed (Utf8 "Done")) in
  let r := disableEnableDisk env sample_msgs "USER1" "0100" "-e" 0%nat in
  value r = Ret (iucv_ok "Done") /\
  execs (trace r) =
    replicate (1 + 1) (iucv_cmd "USER1" (chccwdev "-e" "0100")) /\
  sleeps (trace r) = take 1 chccwdev_delays.
Proof.
  intros env.
  apply (disableEnableDisk_succeeds_after_retries env sample_msgs "USER1"
           "0100" "-e" 1%nat 0%nat (iucv_ok "Done") (PInt 0)).
  - simpl. lia.
  - intros i Hi. destruct i as [|i]; [|lia].
    exists (iucv_record 4 5 "0315"). split; [vm_compute; reflexivity|].
    exists (PInt 2). split; [vm_compute; reflexivity|].
    split; vm_compute; reflexivity.
  - vm_compute. reflexivity.
  - vm_compute. reflexivity.
  - reflexivity.
Defined.

(** X8.  When all fifteen calls of execCmdThruIUCV are failures the loop
    sleeps on, disableEnableDisk returns the record of the fifteenth call.
    It has slept after every attempt, the last one included: fifteen
    sleeps, the whole list of delays. *)
Theorem disableEnableDisk_exhausted
    (env : nat -> proc_result) (msgs : Catalog)
    (userid vaddr option : string) (n : nat) :
  (forall i, (i < 15)%nat ->
     exists r,
       value (execCmdThruIUCV env msgs userid (chccwdev option vaddr) []
                None (n + i)%nat) = Ret r /\ retried option r) ->
  let r := disableEnableDisk env msgs userid vaddr option n in
  value r =
    value (execCmdThruIUCV env msgs userid (chccwdev option vaddr) [] None
             (n + 14)%nat) /\
  execs (trace r) = replicate 15 (iucv_cmd userid (chccwdev option vaddr)) /\
  sleeps (trace r) = chccwdev_delays.
Proof.
  intros Hretry.
  destruct (disableEnableDisk_loop_retried env msgs userid vaddr option
              chccwdev_delays 15 n success4 ltac:(simpl; lia) Hretry)
    as (rl & Hl & Lv & Le & Ls).
  cbv zeta in Lv, Le, Ls.
  change (drop 15 chccwdev_delays) with (@nil Q) in Lv, Le, Ls.
  change (take 15 chccwdev_delays) with chccwdev_delays in Ls.
  cbn [disableEnableDisk_loop] in Lv, Le, Ls.
  cbn [value trace ret] in Lv, Le, Ls.
  rewrite execs_nil, app_nil_r in Le. rewrite sleeps_nil, app_nil_r in Ls.
  destruct (Hretry 14%nat) as (r14 & H14 & v & Ho & _); [lia|].
  rewrite Hl in H14. injection H14 as <-.
  unfold disableEnableDisk. cbv zeta. rewrite run_emit.
  rewrite (run_bind_Ret _ _ _ rl Lv).
  unfold getitem, lift. rewrite Ho, run_ret, run_emit.
  traces_only. rewrite Le, Ls, Hl. auto.
Qed.

Lemma disableEnableDisk_exhausted_witness :
  let env := script [] (iucv_exit "4" "5") in
  let r := disableEnableDisk env sample_msgs "USER1" "0100" "-e" 0%nat in
  value r =
    value (execCmdThruIUCV env sample_msgs "USER1" (chccwdev "-e" "0100") []
             None (0 + 14)%nat) /\
  execs (trace r) =
    replicate 15 (iucv_cmd "USER1" (chccwdev "-e" "0100")) /\
  sleeps (trace r) = chccwdev_delays.
Proof.
  intros env.
  apply (disableEnableDisk_exhausted env sample_msgs "USER1" "0100" "-e"
           0%nat).
  intros i Hi. exists (iucv_record 4 5 "0315").
  split; [vm_compute; reflexivity|].
  exists (PInt 2). split; [vm_compute; reflexivity|].
  split; vm_compute; reflexivity.
Defined.

(** ** waitForOSState: any number of queries *)

Section WaitForOSStateQueries.

Variable env : nat -> proc_result.
Variable msgs : Catalog.

Lemma polling_trace_execs (rh_userid : string) (maxQueries : Z)
    (sleepSecs : Q) (ixs : list Z) :
  forall n : nat,
    execs (polling_trace env msgs rh_userid maxQueries sleepSecs ixs n) =
    replicate (length ixs) (iucv_cmd rh_userid ping).
Proof.
  induction ixs as [|i ixs IH]; intros n; [reflexivity|].
  pose proof (execCmdThruIUCV_shape env msgs rh_userid ping None n) as Hs.
  cbv zeta in Hs. destruct Hs as (_ & He & _).
  cbn [polling_trace length replicate]. rewrite !execs_app, He, IH.
  destruct (i <? maxQueries); reflexivity.
Qed.

(** Over the indices [a .. a + len - 1], the last of which is
    [maxQueries], there is a sleep after every probe but the last. *)
Lemma polling_trace_sleeps (rh_userid : string) (m : nat) (sleepSecs : Q) :
  forall (len a n : nat),
    (a + len = S m)%nat ->
    sleeps (polling_trace env msgs rh_userid (Z.of_nat m) sleepSecs
              (map Z.of_nat (seq a len)) n) =
    replicate (len - 1) sleepSecs.
Proof.
  induction len as [|len IH]; intros a n Ha; [reflexivity|].
  pose proof (execCmdThruIUCV_shape env msgs rh_userid ping None n) as Hs.
  cbv zeta in Hs. destruct Hs as (_ & _ & Hsl).
  cbn [seq map polling_trace]. rewrite !sleeps_app, Hsl.
  rewrite (IH (S a) (S n)) by lia. cbn [app].
  destruct (Z.ltb_spec (Z.of_nat a) (Z.of_nat m)) as [Hlt|Hge].
  - replace (S len - 1)%nat with (S (len - 1)) by lia. reflexivity.
  - assert (len = 0%nat) as -> by lia. reflexivity.
Qed.

Lemma polling_trace_sleeps_range1 (rh_userid : string) (maxQueries : Z)
    (sleepSecs : Q) (n : nat) :
  sleeps (polling_trace env msgs rh_userid maxQueries sleepSecs
            (range1 maxQueries) n) =
  replicate (Z.to_nat maxQueries - 1) sleepSecs.
Proof.
  unfold range1. destruct (Z.to_nat maxQueries) as [|m] eqn:Hm.
  - reflexivity.
  - replace maxQueries with (Z.of_nat (S m)) by lia.
    apply polling_trace_sleeps. lia.
Qed.

Lemma length_range1 (m : Z) : length (range1 m) = Z.to_nat m.
Proof. unfold range1. rewrite length_map, length_seq. reflexivity. Qed.

Lemma lookup_range1 (m : Z) (j : nat) (i : Z) :
  range1 m !! j = Some i -> i = Z.of_nat (S j) /\ (j < Z.to_nat m)%nat.
Proof.
  unfold range1. rewrite list_lookup_fmap.
  destruct (seq 1 (Z.to_nat m) !! j) as [x|] eqn:E; [|discriminate].
  apply lookup_seq in E. destruct E as [-> Hj].
  cbn. intros H. injection H as <-. split; [reflexivity|exact Hj].
Qed.

(** The loop up to the first probe that finds the awaited state. *)
Lemma waitForOSState_loop_found (rh_userid desiredState : string)
    (maxQueries : Z) (sleepSecs : Q) (ixs : list Z) :
  forall (k n : nat) (r : dict) (v : pyval),
    (k < length ixs)%nat ->
    (forall j i, (j < k)%nat -> ixs !! j = Some i -> (i < maxQueries)) ->
    (forall j, (j < k)%nat ->
       probe_misses env msgs rh_userid desiredState (n + j)) ->
    value (execCmdThruIUCV env msgs rh_userid ping [] None (n + k)%nat) =
      Ret r ->
    r !! "overallRC" = Some v ->
    state_found desiredState v = true ->
    let l := waitForOSState_loop env msgs rh_userid desiredState maxQueries
               sleepSecs ixs n in
    value l = Ret true /\
    execs (trace l) = replicate (k + 1) (iucv_cmd rh_userid ping) /\
    sleeps (trace l) = replicate k sleepSecs.
Proof.
  induction ixs as [|i ixs IH]; intros k n r v Hk Hix Hmiss Hv Ho Hf.
  - simpl in Hk. lia.
  - pose proof (execCmdThruIUCV_shape env msgs rh_userid ping None n) as Hs.
    cbv zeta in Hs. destruct Hs as (Hc & He & Hsl).
    cbn [waitForOSState_loop]. cbv zeta.
    destruct k as [|k].
    + rewrite Nat.add_0_r in Hv.
      rewrite (run_bind_Ret _ _ _ r Hv), Hc.
      unfold getitem, lift. rewrite Ho, run_ret, Hf.
      traces_only. rewrite He, Hsl. auto.
    + destruct (Hmiss 0%nat) as (r0 & v0 & Hv0 & Ho0 & Hf0); [lia|].
      rewrite Nat.add_0_r in Hv0.
      destruct (IH k (S n) r v) as (Iv & Ie & Is); try assumption.
      * simpl in Hk. lia.
      * intros j i' Hj Hl. apply (Hix (S j) i'); [lia|exact Hl].
      * intros j Hj. replace (S n + j)%nat with (n + S j)%nat by lia.
        apply Hmiss. lia.
      * replace (S n + k)%nat with (n + S k)%nat by lia. exact Hv.
      * rewrite (run_bind_Ret _ _ _ r0 Hv0), Hc.
        unfold getitem, lift. rewrite Ho0, run_ret, Hf0.
        assert (Hi : (i <? maxQueries) = true).
        { apply Z.ltb_lt. apply (Hix 0%nat i); [lia|reflexivity]. }
        rewrite Hi, run_emit.
        traces_only. rewrite He, Hsl, Iv, Ie, Is. auto.
Qed.

(** waitForOSState when its loop ends without the state found. *)
Lemma waitForOSState_not_found (rh_userid userid desiredState : string)
    (maxQueries : Z) (sleepSecs : Q) (n : nat) (orc : pyval) :
  (forall j, (j < Z.to_nat maxQueries)%nat ->
     probe_misses env msgs rh_userid desiredState (n + j)) ->
  defaults msgs "0413" !! "overallRC" = Some orc ->
  let r := waitForOSState env msgs rh_userid userid desiredState maxQueries
             sleepSecs n in
  value r = Ret (defaults msgs "0413") /\
  execs (trace r) =
    replicate (Z.to_nat maxQueries) (iucv_cmd rh_userid ping) /\
  sleeps (trace r) = replicate (Z.to_nat maxQueries - 1) sleepSecs /\
  In (PrintLn "ES"
        [PStr (template msgs "0413"
                 [PStr modId; PStr userid; PStr desiredState;
                  PNum (inject_Z maxQueries * sleepSecs)])]) (trace r).
Proof.
  intros Hmiss H413.
  destruct (waitForOSState_loop_never_found env msgs rh_userid desiredState
              maxQueries sleepSecs (range1 maxQueries) n) as (Lv & _ & Lt).
  { rewrite length_range1. exact Hmiss. }
  pose proof (polling_trace_execs rh_userid maxQueries sleepSecs
                (range1 maxQueries) n) as Pe.
  pose proof (polling_trace_sleeps_range1 rh_userid maxQueries sleepSecs n)
    as Ps.
  rewrite length_range1 in Pe. rewrite <- Lt in Pe, Ps.
  unfold waitForOSState. cbv zeta. rewrite run_emit.
  rewrite (run_bind_Ret _ _ _ false Lv).
  rewrite run_bind, run_emit. cbv zeta. cbn [value calls trace ret].
  unfold getitem, lift. rewrite H413, run_ret, run_emit.
  traces_only. rewrite Pe, Ps, ?app_nil_r.
  repeat split. right. apply in_or_app. right. left. reflexivity.
Qed.

End WaitForOSStateQueries.

(** X9.  For any number of queries: when no probe finds the awaited state,
    waitForOSState spawns [maxQueries] probes, sleeps [maxQueries - 1]
    times (never after the last probe), prints message 0413 with
    maxQueries * sleepSecs as the maximum wait and returns the defaults of
    that message.  With [maxQueries <= 0] it spawns nothing and still
    reports the timeout. *)
Theorem waitForOSState_times_out
    (env : nat -> proc_result) (msgs : Catalog)
    (rh_userid userid desiredState : string) (maxQueries : Z)
    (sleepSecs : Q) (n : nat) (orc : pyval) :
  (forall j, (j < Z.to_nat maxQueries)%nat ->
     probe_misses env msgs rh_userid desiredState (n + j)) ->
  defaults msgs "0413" !! "overallRC" = Some orc ->
  let r := waitForOSState env msgs rh_userid userid desiredState maxQueries
             sleepSecs n in
  value r = Ret (defaults msgs "0413") /\
  execs (trace r) =
    replicate (Z.to_nat maxQueries) (iucv_cmd rh_userid ping) /\
  sleeps (trace r) = replicate (Z.to_nat maxQueries - 1) sleepSecs /\
  In (PrintLn "ES"
        [PStr (template msgs "0413"
                 [PStr modId; PStr userid; PStr desiredState;
                  PNum (inject_Z maxQueries * sleepSecs)])]) (trace r).
Proof.
  intros Hmiss H413.
  exact (waitForOSState_not_found env msgs rh_userid userid desiredState
           maxQueries sleepSecs n orc Hmiss H413).
Qed.

Lemma waitForOSState_times_out_witness :
  let env := script [] (Completed (Utf8 "ping")) in
  let r := waitForOSState env sample_msgs "MAINT" "USER1" "down" 90 5 0%nat in
  value r = Ret (defaults sample_msgs "0413") /\
  execs (trace r) = replicate (Z.to_nat 90) (iucv_cmd "MAINT" ping) /\
  sleeps (trace r) = replicate (Z.to_nat 90 - 1) 5%Q /\
  In (PrintLn "ES"
        [PStr (template sample_msgs "0413"
                 [PStr modId; PStr "USER1"; PStr "down";
                  PNum (inject_Z 90 * 5)])]) (trace r).
Proof.
  intros env.
  apply (waitForOSState_times_out env sample_msgs "MAINT" "USER1" "down" 90 5
           0%nat (PInt 4)).
  - intros j Hj. exists (iucv_ok "ping"), (PInt 0).
    split; [vm_compute; reflexivity|]. split; vm_compute; reflexivity.
  - vm_compute. reflexivity.
Defined.

(** X10.  When the probes before the one of index [k] miss the awaited
    state and that one finds it, [k] below maxQueries, waitForOSState
    returns overallRC=0, rc=0, rs=0 after [k + 1] probes and [k] sleeps. *)
Theorem waitForOSState_finds_state
    (env : nat -> proc_result) (msgs : Catalog)
    (rh_userid userid desiredState : string) (maxQueries : Z)
    (sleepSecs : Q) (k n : nat) (rk : dict) (v : pyval) :
  (k < Z.to_nat maxQueries)%nat ->
  (forall j, (j < k)%nat ->
     probe_misses env msgs rh_userid desiredState (n + j)) ->
  value (execCmdThruIUCV env msgs rh_userid ping [] None (n + k)%nat) =
    Ret rk ->
  rk !! "overallRC" = Some v ->
  state_found desiredState v = true ->
  let r := waitForOSState env msgs rh_userid userid desiredState maxQueries
             sleepSecs n in
  value r = Ret success3 /\
  execs (trace r) = replicate (k + 1) (iucv_cmd rh_userid ping) /\
  sleeps (trace r) = replicate k sleepSecs.
Proof.
  intros Hk Hmiss Hv Ho Hf.
  destruct (waitForOSState_loop_found env msgs rh_userid desiredState
              maxQueries sleepSecs (range1 maxQueries) k n rk v)
    as (Lv & Le & Ls); try assumption.
  { rewrite length_range1. exact Hk. }
  { intros j i Hj Hl. apply lookup_range1 in Hl. lia. }
  unfold waitForOSState. cbv zeta. rewrite run_emit.
  rewrite (run_bind_Ret _ _ _ true Lv). cbv beta iota.
  rewrite run_ret. cbn [value calls trace ret].
  unfold getitem, lift. rewrite success3_overallRC, run_ret, run_emit.
  traces_only. rewrite Le, Ls. auto.
Qed.

Lemma waitForOSState_finds_state_witness :
  let env := script [exit1; exit1] (Completed (Utf8 "ping")) in
  let r := waitForOSState env sample_msgs "MAINT" "USER1" "up" 90 5 0%nat in
  value r = Ret success3 /\
  execs (trace r) = replicate (2 + 1) (iucv_cmd "MAINT" ping) /\
  sleeps (trace r) = replicate 2 5%Q.
Proof.
  intros env.
  apply (waitForOSState_finds_state env sample_msgs "MAINT" "USER1" "up" 90 5
           2%nat 0%nat (iucv_ok "ping") (PInt 0)).
  - vm_compute. lia.
  - intros j Hj. exists (iucv_record 1 0 "0313"), (PInt 2).
    destruct j as [|[|j]]; [| |lia];
      (split; [vm_compute; reflexivity|]; split; vm_compute; reflexivity).
  - vm_compute. reflexivity.
  - vm_compute. reflexivity.
  - reflexivity.
Defined.

(** X11.  A desired state other than 'up' and 'down' is never found:
    whatever records the probes return, waitForOSState runs all its
    queries and reports the timeout. *)
Theorem waitForOSState_unknown_state_times_out
    (env : nat -> proc_result) (msgs : Catalog)
    (rh_userid userid desiredState : string) (maxQueries : Z)
    (sleepSecs : Q) (n : nat) (orc : pyval) :
  desiredState <> "up" ->
  desiredState <> "down" ->
  (forall j, (j < Z.to_nat maxQueries)%nat ->
     exists r v,
       value (execCmdThruIUCV env msgs rh_userid ping [] None (n + j)%nat) =
         Ret r /\ r !! "overallRC" = Some v) ->
  defaults msgs "0413" !! "overallRC" = Some orc ->
  let r := waitForOSState env msgs rh_userid userid desiredState maxQueries
             sleepSecs n in
  value r = Ret (defaults msgs "0413") /\
  execs (trace r) =
    replicate (Z.to_nat maxQueries) (iucv_cmd rh_userid ping) /\
  sleeps (trace r) = replicate (Z.to_nat maxQueries - 1) sleepSecs.
Proof.
  intros Hup Hdown Hprobe H413.
  destruct (waitForOSState_not_found env msgs rh_userid userid desiredState
              maxQueries sleepSecs n orc) as (Hv & He & Hs & _);
    [|exact H413|auto].
  intros j Hj. destruct (Hprobe j Hj) as (r & v & Hr & Ho).
  exists r, v. repeat split; try assumption.
  unfold state_found. apply String.eqb_neq in Hup, Hdown.
  rewrite Hup, Hdown. destruct (eq_int v 0); reflexivity.
Qed.

Lemma waitForOSState_unknown_state_times_out_witness :
  let env := script [] (Completed (Utf8 "ping")) in
  let r := waitForOSState env sample_msgs "MAINT" "USER1" "on" 2 5 0%nat in
  value r = Ret (defaults sample_msgs "0413") /\
  execs (trace r) = replicate (Z.to_nat 2) (iucv_cmd "MAINT" ping) /\
  sleeps (trace r) = replicate (Z.to_nat 2 - 1) 5%Q.
Proof.
  intros env.
  apply (waitForOSState_unknown_state_times_out env sample_msgs "MAINT"
           "USER1" "on" 2 5 0%nat (PInt 4)).
  - discriminate.
  - discriminate.
  - intros j Hj. exists (iucv_ok "ping"), (PInt 0).
    split; vm_compute; reflexivity.
  - vm_compute. reflexivity.
Defined.

(** ** invokeSMCLI: calls that are no failure of smcli *)

Section InvokeSMCLIRuns.

Variable env : nat -> proc_result.
Variable msgs : Catalog.
Variable conf : Config.

Lemma smapi_timeout_quiet (api : string) (n : nat) :
  exists t, smapi_timeout conf api n = Run (Ret tt) n t /\ effects t = [].
Proof.
  unfold smapi_timeout. cbv zeta.
  destruct (long_call api); eexists; split; reflexivity.
Qed.

(** invokeSMCLI around the try statement. *)
Lemma invokeSMCLI_run (rh_userid api : string) (parms parms' : list string)
    (hideInLog : list Z) (n : nat) (d : dict) (t : list event) (orc : pyval) :
  mask parms hideInLog = Some parms' ->
  smcli_call env msgs api (smcli_argv conf api parms') n =
    Run (Ret d) (S n) t ->
  d !! "overallRC" = Some orc ->
  let r := invokeSMCLI env msgs conf rh_userid api parms hideInLog n in
  value r = Ret d /\ calls r = S n /\
  effects (trace r) = GetSMAPIStatus :: effects t.
Proof.
  intros Hm Hc Ho. unfold invokeSMCLI.
  rewrite (run_bind_Ret _ _ _ parms')
    by (rewrite (smcli_enter_run _ _ _ _ _ _ Hm); reflexivity).
  rewrite (smcli_enter_run _ _ _ _ _ _ Hm). cbn [value calls trace].
  destruct (smapi_timeout_quiet api n) as (tt' & Ht & Hq).
  rewrite (run_bind_Ret _ _ _ tt) by (rewrite Ht; reflexivity).
  rewrite Ht. cbn [value calls trace]. rewrite run_emit.
  rewrite run_bind, Hc. cbv zeta. cbn [value calls trace].
  unfold getitem, lift. rewrite Ho, run_ret, run_emit.
  effects_only. rewrite Hq. cbn [app]. auto.
Qed.

End InvokeSMCLIRuns.

(** X12.  When smcli runs to its end and its output has a line feed, the
    record of invokeSMCLI is overallRC=0, rc=0, rs=0, errno=0 with what
    follows the first line feed as response; the first line, the header,
    is not looked at.  Besides the log, the call reads the SMAPI status,
    spawns smcli once and records a success. *)
Theorem invokeSMCLI_success
    (env : nat -> proc_result) (msgs : Catalog) (conf : Config)
    (rh_userid api : string) (parms parms' : list string)
    (hideInLog : list Z) (n : nat) (b : stdout) (line payload : string) :
  mask parms hideInLog = Some parms' ->
  env n = Completed b ->
  PyStr.split1 PyStr.LFs (decode_replace b) = [line; payload] ->
  let r := invokeSMCLI env msgs conf rh_userid api parms hideInLog n in
  value r = Ret (smcli_ok payload) /\
  effects (trace r) =
    [GetSMAPIStatus; Exec (Argv (smcli_argv conf api parms')) None;
     RecordSuccess].
Proof.
  intros Hm E Hs.
  destruct (invokeSMCLI_run env msgs conf rh_userid api parms parms'
              hideInLog n (smcli_ok payload)
              [Exec (Argv (smcli_argv conf api parms')) None; RecordSuccess]
              (PInt 0) Hm) as (Hv & _ & He).
  - unfold smcli_call. rewrite (run_try_completed env _ _ _ _ n _ E).
    cbv zeta. rewrite Hs. unfold item, lift. cbn [lookup list_lookup].
    rewrite run_ret, run_emit. cbn [value calls trace ret].
    reflexivity.
  - vm_compute. reflexivity.
  - cbv zeta. split; [exact Hv | exact He].
Qed.

Lemma invokeSMCLI_success_witness :
  let env :=
    script [] (Completed (Utf8 ("0 0 0 (details) None" +:+ PyStr.LFs
                                +:+ "Done"))) in
  let r := invokeSMCLI env sample_msgs sample_conf "MAINT" "Image_Query_DM"
             ["-T"; "USER1"] [] 0%nat in
  value r = Ret (smcli_ok "Done") /\
  effects (trace r) =
    [GetSMAPIStatus;
     Exec (Argv (smcli_argv sample_conf "Image_Query_DM" ["-T"; "USER1"]))
       None;
     RecordSuccess].
Proof.
  intros env.
  apply (invokeSMCLI_success env sample_msgs sample_conf "MAINT"
           "Image_Query_DM" ["-T"; "USER1"] ["-T"; "USER1"] [] 0%nat
           (Utf8 ("0 0 0 (details) None" +:+ PyStr.LFs +:+ "Done"))
           "0 0 0 (details) None" "Done"); reflexivity.
Defined.

(** X13.  When smcli runs to its end but its output has no line feed, the
    IndexError of [smcliResp[1]] is caught: invokeSMCLI returns the
    defaults of message 0305 with the rendered message, and records
    neither a success nor a failure. *)
Theorem invokeSMCLI_success_without_payload
    (env : nat -> proc_result) (msgs : Catalog) (conf : Config)
    (rh_userid api : string) (parms parms' : list string)
    (hideInLog : list Z) (n : nat) (b : stdout) (orc : pyval) :
  mask parms hideInLog = Some parms' ->
  env n = Completed b ->
  PyStr.split1 PyStr.LFs (decode_replace b) = [decode_replace b] ->
  defaults msgs "0305" !! "overallRC" = Some orc ->
  let r := invokeSMCLI env msgs conf rh_userid api parms hideInLog n in
  value r = Ret (smcli_internal msgs (smcli_argv conf api parms') IndexError)
  /\
  effects (trace r) =
    [GetSMAPIStatus; Exec (Argv (smcli_argv conf api parms')) None].
Proof.
  intros Hm E Hs Ho.
  destruct (invokeSMCLI_run env msgs conf rh_userid api parms parms'
              hideInLog n
              (smcli_internal msgs (smcli_argv conf api parms') IndexError)
              [Exec (Argv (smcli_argv conf api parms')) None]
              orc Hm) as (Hv & _ & He).
  - unfold smcli_call. rewrite (run_try_completed env _ _ _ _ n _ E).
    cbv zeta. rewrite Hs. unfold item, lift. cbn [lookup list_lookup].
    reflexivity.
  - unfold smcli_internal. rewrite lookup_insert_ne by discriminate.
    exact Ho.
  - cbv zeta. split; [exact Hv | exact He].
Qed.

Lemma invokeSMCLI_success_without_payload_witness :
  let env := script [] (Completed (Utf8 "0 0 0 (details) None")) in
  let r := invokeSMCLI env sample_msgs sample_conf "MAINT" "Image_Query_DM"
             ["-T"; "USER1"] [] 0%nat in
  value r =
    Ret (smcli_internal sample_msgs
           (smcli_argv sample_conf "Image_Query_DM" ["-T"; "USER1"])
           IndexError) /\
  effects (trace r) =
    [GetSMAPIStatus;
     Exec (Argv (smcli_argv sample_conf "Image_Query_DM" ["-T"; "USER1"]))
       None].
Proof.
  intros env.
  apply (invokeSMCLI_success_without_payload env sample_msgs sample_conf
           "MAINT" "Image_Query_DM" ["-T"; "USER1"] ["-T"; "USER1"] [] 0%nat
           (Utf8 "0 0 0 (details) None") (PInt 99)); reflexivity.
Defined.

(** X14.  An exception of the spawn that is no CalledProcessError (a
    time-out, a missing permission, any other error) gives the defaults of
    message 0305 with the rendered message; no failure is recorded with the
    SMAPI status. *)
Theorem invokeSMCLI_other_exception
    (env : nat -> proc_result) (msgs : Catalog) (conf : Config)
    (rh_userid api : string) (parms parms' : list string)
    (hideInLog : list Z) (n : nat) (e : exn) (orc : pyval) :
  mask parms hideInLog = Some parms' ->
  env n = Raised e ->
  (forall rc o, e <> CalledProcessError rc o) ->
  defaults msgs "0305" !! "overallRC" = Some orc ->
  let r := invokeSMCLI env msgs conf rh_userid api parms hideInLog n in
  value r = Ret (smcli_internal msgs (smcli_argv conf api parms') e) /\
  effects (trace r) =
    [GetSMAPIStatus; Exec (Argv (smcli_argv conf api parms')) None].
Proof.
  intros Hm E Hne Ho.
  destruct (invokeSMCLI_run env msgs conf rh_userid api parms parms'
              hideInLog n
              (smcli_internal msgs (smcli_argv conf api parms') e)
              [Exec (Argv (smcli_argv conf api parms')) None]
              orc Hm) as (Hv & _ & He).
  - unfold smcli_call. rewrite (run_try_raised env _ _ _ _ n _ E).
    destruct e; try reflexivity. exfalso. eapply Hne. reflexivity.
  - unfold smcli_internal. rewrite lookup_insert_ne by discriminate.
    exact Ho.
  - cbv zeta. split; [exact Hv | exact He].
Qed.

Lemma invokeSMCLI_other_exception_witness :
  let env := script [] (Raised (OtherError "OSError" "no such file")) in
  let r := invokeSMCLI env sample_msgs sample_conf "MAINT" "Image_Query_DM"
             ["-T"; "USER1"] [] 0%nat in
  value r =
    Ret (smcli_internal sample_msgs
           (smcli_argv sample_conf "Image_Query_DM" ["-T"; "USER1"])
           (OtherError "OSError" "no such file")) /\
  effects (trace r) =
    [GetSMAPIStatus;
     Exec (Argv (smcli_argv sample_conf "Image_Query_DM" ["-T"; "USER1"]))
       None].
Proof.
  intros env.
  apply (invokeSMCLI_other_exception env sample_msgs sample_conf
           "MAINT" "Image_Query_DM" ["-T"; "USER1"] ["-T"; "USER1"] [] 0%nat
           (OtherError "OSError" "no such file") (PInt 99));
    [reflexivity | reflexivity | discriminate | reflexivity].
Defined.

(** X15.  When smcli fails and the part of its first output line before
    "(details)" has fewer than three words separated by single blanks,
    invokeSMCLI returns the defaults of message 0301 with the rendered
    message, and strError is what follows "(details)".  This covers a
    failure without any output, and needs no line feed in the output. *)
Theorem invokeSMCLI_short_header
    (env : nat -> proc_result) (msgs : Catalog) (conf : Config)
    (rh_userid api : string) (parms parms' : list string)
    (hideInLog : list Z) (n : nat) (rc : Z) (text line h0 h1 : string)
    (orc : pyval) :
  mask parms hideInLog = Some parms' ->
  env n = Raised (CalledProcessError rc (Utf8 text)) ->
  PyStr.split1 PyStr.LFs text !! 0%nat = Some line ->
  PyStr.split1 "(details)" line !! 0%nat = Some h0 ->
  h1 = default "" (PyStr.split1 "(details)" line !! 1%nat) ->
  (length (PyStr.split " " h0) < 3)%nat ->
  defaults msgs "0301" !! "overallRC" = Some orc ->
  value (invokeSMCLI env msgs conf rh_userid api parms hideInLog n) =
  Ret (<["strError" := PStr (PyStr.lstrip h1)]>
         (<["response" :=
              PStr (template msgs "0301"
                      [PStr modId; PStr api;
                       PStr (PyStr.join " " (smcli_argv conf api parms'));
                       PStr h0; PStr h1])]>
            (defaults msgs "0301"))).
Proof.
  intros Hm E Hl H0 H1 Hlen Ho.
  apply (invokeSMCLI_on_failure env msgs conf rh_userid api parms parms'
           hideInLog n rc (Utf8 text) _ orc Hm E).
  - unfold smcli_failure, decode. rewrite run_emit, run_ret. cbn [value].
    unfold item at 1. rewrite Hl. unfold lift at 1. rewrite run_ret.
    cbn [value].
    assert (Hh : match PyStr.split1 "(details)" line with
                 | [] => [""; ""]
                 | [h] => [h; ""]
                 | l => l
                 end = h0 :: h1 :: drop 2 (PyStr.split1 "(details)" line)).
    { subst h1. unfold PyStr.split1 in *.
      destruct (PyStr.cut "(details)" "" line) as [[a b]|];
        cbn in H0 |- *; injection H0 as <-; reflexivity. }
    rewrite Hh. unfold item, lift. cbn [lookup list_lookup].
    rewrite !run_ret. cbn [value].
    unfold smcli_codes. apply Nat.ltb_lt in Hlen. rewrite Hlen.
    rewrite run_ret. cbn [value ret]. reflexivity.
  - rewrite !lookup_insert_ne by discriminate. exact Ho.
Qed.

Lemma invokeSMCLI_short_header_witness :
  let env := script [] (Raised (CalledProcessError 1 (Utf8 ""))) in
  value (invokeSMCLI env sample_msgs sample_conf "MAINT" "Image_Query_DM"
           ["-T"; "USER1"] [] 0%nat) =
  Ret (<["strError" := PStr (PyStr.lstrip "")]>
         (<["response" :=
              PStr (template sample_msgs "0301"
                      [PStr modId; PStr "Image_Query_DM";
                       PStr (PyStr.join " "
                               (smcli_argv sample_conf "Image_Query_DM"
                                  ["-T"; "USER1"]));
                       PStr ""; PStr ""])]>
            (defaults sample_msgs "0301"))).
Proof.
  intros env.
  apply (invokeSMCLI_short_header env sample_msgs sample_conf "MAINT"
           "Image_Query_DM" ["-T"; "USER1"] ["-T"; "USER1"] [] 0%nat 1
           "" "" "" "" (PInt 25));
    try reflexivity.
  simpl. lia.
Defined.

(** ** invokeSMCLI: which calls get the long timeout *)

Lemma starts_with_spec (p s : string) :
  PyStr.starts_with p s = true <-> exists q, s = p +:+ q.
Proof.
  revert s. induction p as [|a p IH]; intros s; cbn.
  - split; [intros _; exists s; reflexivity | reflexivity].
  - destruct s as [|b s].
    + split; [discriminate | intros [q Hq]; discriminate].
    + rewrite andb_true_iff, IH. split.
      * intros [Hab [q ->]]. apply Ascii.eqb_eq in Hab. subst b.
        exists q. reflexivity.
      * intros [q Hq]. injection Hq as -> ->. split.
        -- apply Ascii.eqb_refl.
        -- exists q. reflexivity.
Qed.

Lemma contains_spec (x s : string) :
  PyStr.contains x s = true <-> exists p q, s = p +:+ x +:+ q.
Proof.
  split.
  - induction s as [|c s IH]; cbn; rewrite orb_true_iff.
    + intros [H|H]; [|discriminate]. apply starts_with_spec in H.
      destruct H as [q ->]. exists "", q. reflexivity.
    + intros [H|H].
      * apply starts_with_spec in H. destruct H as [q ->].
        exists "", q. reflexivity.
      * destruct (IH H) as (p & q & ->). exists (String c p), q.
        reflexivity.
  - intros (p & q & ->). induction p as [|c p IH].
    + assert (H : PyStr.starts_with x (x +:+ q) = true)
        by (apply starts_with_spec; exists q; reflexivity).
      change ("" +:+ x +:+ q) with (x +:+ q).
      destruct (x +:+ q); cbn; cbn in H; rewrite H; reflexivity.
    + cbn. apply orb_true_iff. right. exact IH.
Qed.

(** X16.  invokeSMCLI gives the timeout of long calls to the API names
    that occur inside the text "VMRELOCATE", because the tuple of long
    call APIs is written without a comma and so is a string: the command
    that is spawned carries the long-call timeout after [--timeout] for
    VMRELOCATE, and also for VM, for RELOCATE and for the empty name; for
    every other name, a longer name that contains VMRELOCATE included, it
    carries the general timeout. *)
Theorem invokeSMCLI_long_call_timeout
    (env : nat -> proc_result) (msgs : Catalog) (conf : Config)
    (rh_userid api : string) (parms parms' : list string)
    (hideInLog : list Z) (n : nat) :
  mask parms hideInLog = Some parms' ->
  let run := invokeSMCLI env msgs conf rh_userid api parms hideInLog n in
  let argv t :=
    Argv (["sudo"; "/opt/zthin/bin/smcli"; api; "--addRCheader"] ++ parms' ++
          ["--timeout"; pretty t]) in
  ((exists p s, "VMRELOCATE" = p +:+ api +:+ s) ->
   execs (trace run) = [argv (long_call_timeout conf)]) /\
  (~ (exists p s, "VMRELOCATE" = p +:+ api +:+ s) ->
   execs (trace run) = [argv (general_timeout conf)]).
Proof.
  intros Hm. cbv zeta.
  rewrite (invokeSMCLI_argv env msgs conf rh_userid api parms parms'
             hideInLog n Hm).
  unfold smcli_argv, smcli, lgr_socket_timeput, long_call_timeout,
    general_timeout.
  split; intros H.
  - apply contains_spec in H. fold (long_call api) in H. rewrite H.
    reflexivity.
  - destruct (long_call api) eqn:Hl; [|reflexivity].
    exfalso. apply H. apply contains_spec. exact Hl.
Qed.

Lemma invokeSMCLI_long_call_timeout_witness :
  let run api :=
    invokeSMCLI (script [] done) sample_msgs sample_conf "MAINT" api
      ["-T"; "USER1"] [] 0%nat in
  execs (trace (run "VM")) =
    [Argv ["sudo"; "/opt/zthin/bin/smcli"; "VM"; "--addRCheader"; "-T";
           "USER1"; "--timeout"; "900"]] /\
  execs (trace (run "SMAPI_VMRELOCATE")) =
    [Argv ["sudo"; "/opt/zthin/bin/smcli"; "SMAPI_VMRELOCATE";
           "--addRCheader"; "-T"; "USER1"; "--timeout"; "240"]].
Proof.
  intros run. split.
  - apply (invokeSMCLI_long_call_timeout (script [] done) sample_msgs
             sample_conf "MAINT" "VM" ["-T"; "USER1"] ["-T"; "USER1"] []
             0%nat eq_refl).
    exists "", "RELOCATE". reflexivity.
  - apply (invokeSMCLI_long_call_timeout (script [] done) sample_msgs
             sample_conf "MAINT" "SMAPI_VMRELOCATE" ["-T"; "USER1"]
             ["-T"; "USER1"] [] 0%nat eq_refl).
    intros H. apply contains_spec in H. discriminate.
Defined.
(** ** installFS: runs without a failure *)

Section InstallFSRuns.

Variable env : nat -> proc_result.
Variable msgs : Catalog.

Lemma gate_runs (cond : bool) (step : frame -> M frame) (f : frame)
    (dev : string) (n : nat) :
  ready f dev ->
  gate cond step f n = if cond then step f n else Run (Ret f) n [].
Proof.
  intros (Hr & _). unfold gate, getitem. rewrite Hr.
  change (installFS_results0 !! "overallRC") with (Some (PInt 0)).
  cbn [lift]. rewrite run_ret. cbn [eq_int Z.eqb andb].
  destruct cond; [apply run_eta | reflexivity].
Qed.

(** A step that spawns one command and keeps its output. *)
Lemma attempt_completed (f : frame) (c : pycmd) (text : string)
    (handler : exn -> frame -> M frame) (n : nat) :
  env n = Completed (Utf8 text) ->
  attempt f (let* b := check_output env c None in ret (Some b)) decode_out
    handler n =
  Run (Ret (with_out f (OStr text))) (S n) [Exec c None].
Proof.
  intros E. rewrite run_attempt. unfold bind, check_output, ret.
  cbn [value calls trace]. rewrite E. reflexivity.
Qed.

Lemma dasdfmt_completed (f : frame) (dev text : string) (n : nat) :
  ready f dev ->
  env n = Completed (Utf8 text) ->
  exists f',
    value (dasdfmt env msgs f n) = Ret f' /\
    calls (dasdfmt env msgs f n) = S n /\
    execs (trace (dasdfmt env msgs f n)) =
      [Argv ["sudo"; "/sbin/dasdfmt"; "-y"; "-b"; "4096"; "-d"; "cdl"; "-v";
             dev]] /\
    ready f' dev.
Proof.
  intros (Hr & Hd & s & Ho) E.
  unfold dasdfmt, get_device, invoking, lift. rewrite Hd. cbv zeta.
  rewrite run_ret, run_emit, (attempt_completed _ _ text _ _ E).
  eexists. cbn [value calls trace]. traces_only.
  repeat split; [exact Hr | exact Hd | eexists; reflexivity].
Qed.

Lemma fdasd_completed (f : frame) (dev text : string) (n : nat) :
  ready f dev ->
  env n = Completed (Utf8 text) ->
  exists f',
    value (fdasd env msgs f n) = Ret f' /\
    calls (fdasd env msgs f n) = S n /\
    execs (trace (fdasd env msgs f n)) =
      [Argv ["sudo"; "/sbin/fdasd"; "-a"; dev]] /\
    ready f' dev.
Proof.
  intros (Hr & Hd & s & Ho) E.
  unfold fdasd, get_device, invoking, lift. rewrite Hd. cbv zeta.
  rewrite run_ret, run_emit, (attempt_completed _ _ text _ _ E).
  eexists. cbn [value calls trace]. traces_only.
  repeat split; [exact Hr | exact Hd | eexists; reflexivity].
Qed.

Lemma settle_completed (f : frame) (dev : string) (b : stdout) (n : nat) :
  ready f dev ->
  env n = Completed b ->
  exists f',
    value (settle env msgs f n) = Ret f' /\
    calls (settle env msgs f n) = S n /\
    execs (trace (settle env msgs f n)) = [Shell settle_cmd] /\
    ready f' dev.
Proof.
  intros (Hr & Hd & s & Ho) E.
  unfold settle, invoking. cbv zeta. rewrite run_emit, run_attempt.
  unfold bind, check_output, ret. cbn [value calls trace]. rewrite E.
  cbn [value calls trace]. unfold try_except, decode_out.
  cbn [out with_strCmd]. rewrite Ho. cbn [value calls trace ret].
  eexists. traces_only.
  repeat split; [exact Hr | exact Hd | eexists; exact Ho].
Qed.

Lemma fdisk_delete_completed (f : frame) (dev text : string) (n : nat) :
  ready f dev ->
  env n = Completed (Utf8 text) ->
  exists f',
    value (fdisk_delete env msgs f n) = Ret f' /\
    calls (fdisk_delete env msgs f n) = S n /\
    execs (trace (fdisk_delete env msgs f n)) =
      [Shell ("sudo /sbin/fdisk " +:+ dev +:+ " << EOF" +:+ PyStr.LFs +:+ "g"
              +:+ PyStr.LFs +:+ "w" +:+ PyStr.LFs +:+ "EOF")] /\
    ready f' dev.
Proof.
  intros (Hr & Hd & s & Ho) E.
  unfold fdisk_delete, get_device, lift. rewrite Hd. cbv zeta.
  rewrite run_ret, run_emit, run_attempt.
  unfold bind, check_output, ret, emit. cbn [value calls trace]. rewrite E.
  cbn [value calls trace]. eexists. traces_only.
  repeat split; [exact Hr | exact Hd | eexists; reflexivity].
Qed.

Lemma fdisk_create_completed (f : frame) (dev text : string) (n : nat) :
  ready f dev ->
  env n = Completed (Utf8 text) ->
  exists f',
    value (fdisk_create env msgs f n) = Ret f' /\
    calls (fdisk_create env msgs f n) = S n /\
    execs (trace (fdisk_create env msgs f n)) =
      [Shell ("sudo /sbin/fdisk " +:+ dev +:+ " << EOF" +:+ PyStr.LFs +:+ "n"
              +:+ PyStr.LFs +:+ "p" +:+ PyStr.LFs +:+ "1" +:+ PyStr.LFs
              +:+ PyStr.LFs +:+ PyStr.LFs +:+ "w" +:+ PyStr.LFs +:+ "EOF")] /\
    ready f' dev.
Proof.
  intros (Hr & Hd & s & Ho) E.
  unfold fdisk_create, get_device, lift. rewrite Hd. cbv zeta.
  rewrite run_ret, run_emit, run_attempt.
  assert (E0 : env (n + 0)%nat = Completed (Utf8 text))
    by (rewrite Nat.add_0_r; exact E).
  assert (Hf : fails_from env n 0) by (intros i Hi; lia).
  match goal with
  | |- context [retry_loop env ?c ?l ?s ?t ?d n] =>
      pose proof (retry_loop_succeeds env c l s d 0%nat n t (Utf8 text)
                    ltac:(simpl; lia)
                    (retry_delays_sleeps_on 0 ltac:(simpl; lia)) Hf E0) as H;
      cbv zeta in H;
      set (R := retry_loop env c l s t d n) in *; clearbody R
  end.
  destruct R as [v cl t]. cbn [value calls trace] in *.
  destruct H as (-> & -> & He & Hs).
  cbn -[execs sleeps]. traces. rewrite He.
  eexists. repeat split; [lia | exact Hr | exact Hd | eexists; reflexivity].
Qed.

Lemma mkfs_completed (fileSystem : string) (f : frame) (dev text : string)
    (n : nat) :
  ready f dev ->
  env n = Completed (Utf8 text) ->
  exists f',
    value (mkfs env msgs fileSystem f n) = Ret f' /\
    calls (mkfs env msgs fileSystem f n) = S n /\
    execs (trace (mkfs env msgs fileSystem f n)) =
      [mkfs_cmd fileSystem (dev +:+ "1")] /\
    ready f' (dev +:+ "1").
Proof.
  intros (Hr & Hd & s & Ho) E.
  unfold mkfs, get_device, invoking, lift. rewrite Hd. cbv zeta.
  rewrite run_ret, run_emit, run_attempt.
  assert (E0 : env (n + 0)%nat = Completed (Utf8 text))
    by (rewrite Nat.add_0_r; exact E).
  assert (Hf : fails_from env n 0) by (intros i Hi; lia).
  match goal with
  | |- context [retry_loop env ?c ?l ?s ?t ?d n] =>
      pose proof (retry_loop_succeeds env c l s d 0%nat n t (Utf8 text)
                    ltac:(simpl; lia)
                    (retry_delays_sleeps_on 0 ltac:(simpl; lia)) Hf E0) as H;
      cbv zeta in H;
      set (R := retry_loop env c l s t d n) in *; clearbody R
  end.
  destruct R as [v cl t]. cbn [value calls trace] in *.
  destruct H as (-> & -> & He & Hs).
  cbn -[execs sleeps]. traces. rewrite He.
  eexists. repeat split; [lia | exact Hr | eexists; reflexivity].
Qed.

Lemma locate_found (f : frame) (text g name : string) (n : nat) :
  out f = OStr text ->
  PyStr.search_group "Success:" PyStr.LF text = Some g ->
  PyStr.split_ws g !! 9%nat = Some name ->
  locate msgs f n = Run (Ret (with_device f ("/dev/" +:+ name))) n [].
Proof.
  intros Ho Hg Hn. unfold locate. rewrite Ho, Hg.
  assert (Hl : (9 <? length (PyStr.split_ws g))%nat = true).
  { apply Nat.ltb_lt. eapply lookup_lt_Some. exact Hn. }
  rewrite Hl. unfold item, lift. rewrite Hn. reflexivity.
Qed.

(** Without a line that names the device, [results] becomes the defaults
    of message 0416 or 0417 and [device] stays unassigned. *)
Lemma locate_missing (f : frame) (text : string) (n : nat) :
  out f = OStr text ->
  (forall g, PyStr.search_group "Success:" PyStr.LF text = Some g ->
             (length (PyStr.split_ws g) <= 9)%nat) ->
  exists f' id,
    In id ["0416"; "0417"] /\
    value (locate msgs f n) = Ret f' /\ calls (locate msgs f n) = n /\
    execs (trace (locate msgs f n)) = [] /\
    results f' = defaults msgs id /\ device f' = device f.
Proof.
  intros Ho Hg. unfold locate. rewrite Ho.
  destruct (PyStr.search_group "Success:" PyStr.LF text) as [g|].
  - assert (Hl : (9 <? length (PyStr.split_ws g))%nat = false).
    { apply Nat.ltb_ge. apply Hg. reflexivity. }
    rewrite Hl. cbv zeta. rewrite !run_emit. cbn [value calls trace ret].
    do 2 eexists. split; [left; reflexivity|]. repeat split.
  - cbv zeta. rewrite !run_emit. cbn [value calls trace ret].
    do 2 eexists. split; [right; left; reflexivity|]. repeat split.
Qed.

Lemma completes_bind (m : M frame) (k : frame -> M frame) (n : nat)
    (c1 c2 : list pycmd) (dev dev' : string) :
  completes m n c1 dev ->
  (forall f', ready f' dev ->
              completes (k f') (n + length c1) c2 dev') ->
  completes (bind m k) n (c1 ++ c2) dev'.
Proof.
  intros (f1 & Hv & Hc & He & Hr) Hk.
  destruct (Hk f1 Hr) as (f2 & Hv2 & Hc2 & He2 & Hr2).
  exists f2. rewrite (run_bind_Ret _ _ _ f1 Hv), Hc.
  cbn [value calls trace]. rewrite execs_app, He, He2, Hc2, length_app.
  split; [exact Hv2|]. split; [lia|]. split; [reflexivity | exact Hr2].
Qed.

Lemma completes_gate (cond : bool) (step : frame -> M frame) (f : frame)
    (c : pycmd) (dev : string) (n : nat) :
  ready f dev ->
  (cond = true -> completes (step f) n [c] dev) ->
  completes (gate cond step f) n (if cond then [c] else []) dev.
Proof.
  intros Hr Hs. unfold completes. rewrite (gate_runs cond step f dev n Hr).
  destruct cond.
  - apply Hs. reflexivity.
  - exists f. cbn. split; [reflexivity|]. split; [lia|].
    split; [reflexivity | exact Hr].
Qed.

(** The link of the disk at the first attempt and the search for the
    device name in its output. *)
Lemma acquire_locate_completed (rh_userid vaddr mode text g name : string) :
  env 0%nat = Completed (Utf8 text) ->
  PyStr.search_group "Success:" PyStr.LF text = Some g ->
  PyStr.split_ws g !! 9%nat = Some name ->
  completes
    (let* f := acquire env msgs rh_userid vaddr mode installFS_frame0 in
     gate true (locate msgs) f) 0
    [link_cmd rh_userid vaddr mode] ("/dev/" +:+ name).
Proof.
  intros E0 Hg Hn.
  pose proof (acquire_after_failures env msgs rh_userid vaddr mode text
                installFS_frame0 0%nat 0%nat ltac:(simpl; lia)
                ltac:(intros i Hi; lia) E0) as Ha.
  cbv zeta in Ha. destruct Ha as (He & _ & Hc & f1 & Hv & Hr & Ho & Hd).
  unfold completes.
  rewrite (run_bind_Ret _ _ _ f1 Hv), Hc.
  unfold gate, getitem. rewrite Hr.
  change (results installFS_frame0 !! "overallRC") with (Some (PInt 0)).
  cbn [lift]. rewrite run_ret. cbn [eq_int Z.eqb andb].
  rewrite (locate_found f1 text g name _ Ho Hg Hn).
  cbn [value calls trace]. rewrite app_nil_r, He.
  eexists. split; [reflexivity|]. split; [reflexivity|].
  split; [reflexivity|]. split; [exact Hr|].
  split; [reflexivity | eexists; exact Ho].
Qed.

Lemma bind_assoc {A B C} (m : M A) (k : A -> M B) (h : B -> M C) (n : nat) :
  bind m (fun a => bind (k a) h) n = bind (bind m k) h n.
Proof.
  unfold bind. destruct (m n) as [[a|e] c t]; cbn [value calls trace];
    [|reflexivity].
  destruct (k a c) as [[b|e] c' t']; cbn [value calls trace]; [|reflexivity].
  destruct (h b c') as [[d|e] c'' t'']; cbn [value calls trace];
    rewrite app_assoc; reflexivity.
Qed.

Section AllCompleted.

Hypothesis Hall : forall i, exists t, env i = Completed (Utf8 t).

(** Everything up to the creation of the file system, when every command
    runs to its end and the link names the device. *)
Lemma installFS_prepare_completed
    (rh_userid vaddr mode diskType text g name : string) :
  env 0%nat = Completed (Utf8 text) ->
  PyStr.search_group "Success:" PyStr.LF text = Some g ->
  PyStr.split_ws g !! 9%nat = Some name ->
  completes (installFS_prepare env msgs rh_userid vaddr mode diskType) 0
    (link_cmd rh_userid vaddr mode ::
     format_cmds diskType ("/dev/" +:+ name) ++ [Shell settle_cmd])
    ("/dev/" +:+ name).
Proof.
  intros E0 Hg Hn.
  pose proof (acquire_locate_completed rh_userid vaddr mode text g name
                E0 Hg Hn) as Hacq.
  set (dev := "/dev/" +:+ name) in *.
  assert (Hcmds :
    link_cmd rh_userid vaddr mode ::
      format_cmds diskType dev ++ [Shell settle_cmd] =
    [link_cmd rh_userid vaddr mode] ++
    (if String.eqb diskType "3390"
     then [Argv ["sudo"; "/sbin/dasdfmt"; "-y"; "-b"; "4096"; "-d"; "cdl";
                 "-v"; dev]] else []) ++
    (if String.eqb diskType "3390" then [Shell settle_cmd] else []) ++
    (if String.eqb diskType "3390"
     then [Argv ["sudo"; "/sbin/fdasd"; "-a"; dev]] else []) ++
    (if String.eqb diskType "9336"
     then [Shell ("sudo /sbin/fdisk " +:+ dev +:+ " << EOF" +:+ PyStr.LFs
                  +:+ "g" +:+ PyStr.LFs +:+ "w" +:+ PyStr.LFs +:+ "EOF")]
     else []) ++
    (if String.eqb diskType "9336"
     then [Shell ("sudo /sbin/fdisk " +:+ dev +:+ " << EOF" +:+ PyStr.LFs
                  +:+ "n" +:+ PyStr.LFs +:+ "p" +:+ PyStr.LFs +:+ "1"
                  +:+ PyStr.LFs +:+ PyStr.LFs +:+ PyStr.LFs +:+ "w"
                  +:+ PyStr.LFs +:+ "EOF")]
     else []) ++
    (if true then [Shell settle_cmd] else [])).
  { unfold format_cmds.
    destruct (String.eqb_spec diskType "3390") as [->|_]; [reflexivity|].
    destruct (String.eqb diskType "9336"); reflexivity. }
  rewrite Hcmds. clear Hcmds.
  unfold completes, installFS_prepare. rewrite bind_assoc.
  match goal with
  | |- exists f', value (?m 0%nat) = _ /\ _ /\ execs _ = ?c /\ _ =>
      change (completes m 0 c dev)
  end.
  apply completes_bind with (dev := dev); [exact Hacq|].
  intros f1 R1.
  match goal with
  | |- completes _ ?k _ _ => destruct (Hall k) as [t1 E1]
  end.
  apply completes_bind with (dev := dev).
  { apply completes_gate; [exact R1|]. intros _.
    destruct (dasdfmt_completed f1 dev t1 _ R1 E1) as (f2 & H1 & H2 & H3 & H4).
    exists f2. split; [exact H1|]. split; [rewrite H2; simpl; lia|].
    split; [exact H3 | exact H4]. }
  clear f1 R1 t1 E1. intros f1 R1.
  match goal with
  | |- completes _ ?k _ _ => destruct (Hall k) as [t1 E1]
  end.
  apply completes_bind with (dev := dev).
  { apply completes_gate; [exact R1|]. intros _.
    destruct (settle_completed f1 dev _ _ R1 E1) as (f2 & H1 & H2 & H3 & H4).
    exists f2. split; [exact H1|]. split; [rewrite H2; simpl; lia|].
    split; [exact H3 | exact H4]. }
  clear f1 R1 t1 E1. intros f1 R1.
  match goal with
  | |- completes _ ?k _ _ => destruct (Hall k) as [t1 E1]
  end.
  apply completes_bind with (dev := dev).
  { apply completes_gate; [exact R1|]. intros _.
    destruct (fdasd_completed f1 dev t1 _ R1 E1) as (f2 & H1 & H2 & H3 & H4).
    exists f2. split; [exact H1|]. split; [rewrite H2; simpl; lia|].
    split; [exact H3 | exact H4]. }
  clear f1 R1 t1 E1. intros f1 R1.
  match goal with
  | |- completes _ ?k _ _ => destruct (Hall k) as [t1 E1]
  end.
  apply completes_bind with (dev := dev).
  { apply completes_gate; [exact R1|]. intros _.
    destruct (fdisk_delete_completed f1 dev t1 _ R1 E1)
      as (f2 & H1 & H2 & H3 & H4).
    exists f2. split; [exact H1|]. split; [rewrite H2; simpl; lia|].
    split; [exact H3 | exact H4]. }
  clear f1 R1 t1 E1. intros f1 R1.
  match goal with
  | |- completes _ ?k _ _ => destruct (Hall k) as [t1 E1]
  end.
  apply completes_bind with (dev := dev).
  { apply completes_gate; [exact R1|]. intros _.
    destruct (fdisk_create_completed f1 dev t1 _ R1 E1)
      as (f2 & H1 & H2 & H3 & H4).
    exists f2. split; [exact H1|]. split; [rewrite H2; simpl; lia|].
    split; [exact H3 | exact H4]. }
  clear f1 R1 t1 E1. intros f1 R1.
  match goal with
  | |- completes _ ?k _ _ => destruct (Hall k) as [t1 E1]
  end.
  apply (completes_gate true (settle env msgs) f1 (Shell settle_cmd) dev);
    [exact R1|]. intros _.
  destruct (settle_completed f1 dev _ _ R1 E1) as (f2 & H1 & H2 & H3 & H4).
  exists f2. split; [exact H1|]. split; [rewrite H2; simpl; lia|].
  split; [exact H3 | exact H4].
Qed.

End AllCompleted.

End InstallFSRuns.

Section InstallFSRelease.

Variable env : nat -> proc_result.
Variable msgs : Catalog.

(** The release step when the detach command fails, whatever the flush
    did. *)
Lemma release_detach_fails (rh_userid vaddr dev : string) (f : frame)
    (n : nat) (rc : Z) (o : stdout) :
  device f = Some dev ->
  env (n + 1)%nat = Raised (CalledProcessError rc o) ->
  let r := release env msgs rh_userid vaddr f n in
  calls r = (n + 2)%nat /\
  execs (trace r) = [flush_cmd dev; detach_cmd rh_userid vaddr] /\
  exists f', value r = Ret f' /\
             results f' = <["rs" := PInt rc]> (defaults msgs "0415").
Proof.
  intros Hd E1. rewrite Nat.add_comm in E1. simpl in E1.
  unfold release, get_device, invoking. cbv zeta. rewrite Hd.
  unfold lift. rewrite run_ret, run_emit.
  cbv zeta. cbn [value calls trace].
  set (fl := attempt _ _ _ _).
  assert (Hfl : calls (fl n) = S n /\ execs (trace (fl n)) = [flush_cmd dev] /\
                exists f1, value (fl n) = Ret f1).
  { subst fl. rewrite run_attempt. unfold bind, check_output, ret.
    cbn [value calls trace].
    destruct (env n) as [[s|s]|e]; cbn -[execs]; traces;
      (repeat split; eexists; repeat split). }
  destruct Hfl as (Hc & He & f1 & Hv). clearbody fl.
  rewrite (run_bind_Ret _ _ _ f1 Hv). rewrite Hc.
  rewrite run_emit, run_attempt.
  unfold bind, check_output, ret. cbn [value calls trace]. rewrite E1.
  cbn -[execs]. traces. rewrite He.
  repeat split; [lia|]. eexists. split; reflexivity.
Qed.

(** The creation of the file system at the first attempt, the release of
    the disk and the return. *)
Lemma installFS_finish_run (rh_userid vaddr fileSystem dev text : string)
    (f : frame) (n : nat) (d : dict) (v : pyval) :
  ready f dev ->
  env n = Completed (Utf8 text) ->
  (forall f1, results f1 = installFS_results0 ->
              device f1 = Some (dev +:+ "1") ->
     exists f2,
       value (release env msgs rh_userid vaddr f1 (S n)) = Ret f2 /\
       execs (trace (release env msgs rh_userid vaddr f1 (S n))) =
         [flush_cmd (dev +:+ "1"); detach_cmd rh_userid vaddr] /\
       results f2 = d) ->
  d !! "rc" = Some v ->
  let r := installFS_finish env msgs rh_userid vaddr fileSystem f n in
  value r = Ret d /\
  execs (trace r) =
    [mkfs_cmd fileSystem (dev +:+ "1"); flush_cmd (dev +:+ "1");
     detach_cmd rh_userid vaddr].
Proof.
  intros Hr E Hrel Hrc.
  destruct (mkfs_completed env msgs fileSystem f dev text n Hr E)
    as (f1 & Hv1 & Hc1 & He1 & Hr1 & Hd1 & _).
  destruct (Hrel f1 Hr1 Hd1) as (f2 & Hv2 & He2 & Hr2).
  unfold installFS_finish. cbv zeta.
  rewrite (run_bind_Ret _ _ _ f1)
    by (rewrite (gate_runs true _ f dev n Hr); exact Hv1).
  rewrite (gate_runs true _ f dev n Hr), Hc1.
  rewrite (run_bind_Ret _ _ _ f2 Hv2).
  unfold getitem, lift. rewrite Hr2, Hrc.
  rewrite run_ret, run_emit. traces_only. rewrite He1, He2.
  split; reflexivity.
Qed.

End InstallFSRelease.

(** X17.  When every command runs to its end and the output of
    linkdiskandbringonline has a line "Success: ..." whose tenth word
    names the device, installFS returns overallRC=0, rc=0, rs=0, errno=0.
    It has spawned, once each and in this order: the link of the disk, the
    format commands of the disk type (dasdfmt, settle and fdasd for 3390;
    two runs of fdisk for 9336; none for another type), the settling of
    the devices, mkfs on the first partition, the flush of the buffers and
    the detach. *)
Theorem installFS_success
    (env : nat -> proc_result) (msgs : Catalog)
    (rh_userid vaddr mode fileSystem diskType text g name : string) :
  (forall i, exists t, env i = Completed (Utf8 t)) ->
  env 0%nat = Completed (Utf8 text) ->
  PyStr.search_group "Success:" PyStr.LF text = Some g ->
  PyStr.split_ws g !! 9%nat = Some name ->
  let dev := "/dev/" +:+ name in
  let r :=
    installFS env msgs rh_userid vaddr mode fileSystem diskType 0%nat in
  value r = Ret installFS_results0 /\
  execs (trace r) =
    link_cmd rh_userid vaddr mode ::
    format_cmds diskType dev ++
    [Shell settle_cmd; mkfs_cmd fileSystem (dev +:+ "1");
     flush_cmd (dev +:+ "1"); detach_cmd rh_userid vaddr].
Proof.
  intros Hall E0 Hg Hn dev.
  destruct (installFS_prepare_completed env msgs Hall rh_userid vaddr mode
              diskType text g name E0 Hg Hn) as (f & Hv & Hc & He & Hr).
  fold dev in Hc, He, Hr.
  set (n := calls (installFS_prepare env msgs rh_userid vaddr mode diskType
                     0%nat)) in *.
  destruct (Hall n) as [tm Em]. destruct (Hall (S n + 1)%nat) as [td Ed].
  destruct (installFS_finish_run env msgs rh_userid vaddr fileSystem dev tm
              f n installFS_results0 (PInt 0) Hr Em) as (Fv & Fe).
  { intros f1 Hr1 Hd1.
    pose proof (release_keeps_results env msgs rh_userid vaddr
                  (dev +:+ "1") td f1 (S n) Hd1 Ed) as H.
    cbv zeta in H. destruct H as (_ & Hre & f2 & Hv2 & Hr2).
    exists f2. split; [exact Hv2|]. split; [exact Hre|].
    rewrite Hr2. exact Hr1. }
  { reflexivity. }
  cbv zeta. unfold installFS. cbv zeta. rewrite run_emit.
  rewrite (run_bind_Ret _ _ _ f Hv). fold n.
  cbn [value calls trace]. split; [exact Fv|].
  rewrite execs_cons, execs_app, He, Fe.
  cbn [app]. rewrite <- app_assoc. reflexivity.
Qed.

Lemma installFS_success_witness :
  let env := script [linked] done in
  let dev := "/dev/" +:+ "dasdh" in
  let r := installFS env sample_msgs "MAINT" "193" "W" "ext4" "9336" 0%nat in
  value r = Ret installFS_results0 /\
  execs (trace r) =
    link_cmd "MAINT" "193" "W" ::
    format_cmds "9336" dev ++
    [Shell settle_cmd; mkfs_cmd "ext4" (dev +:+ "1");
     flush_cmd (dev +:+ "1"); detach_cmd "MAINT" "193"].
Proof.
  intros env.
  apply (installFS_success env sample_msgs "MAINT" "193" "W" "ext4" "9336"
           ("Success: Userid maint vdev 193 linked at ad35 device name dasdh"
            +:+ PyStr.LFs)
           " Userid maint vdev 193 linked at ad35 device name dasdh" "dasdh").
  - intros i. destruct i as [|i]; eexists; reflexivity.
  - reflexivity.
  - reflexivity.
  - reflexivity.
Defined.

(** X18.  A failure of the detach command is what installFS reports, also
    when everything before it went well: with the steps before mkfs ended
    on a ready frame, mkfs done at its first attempt and any outcome of
    the flush command, a detach that exits with status [rc] makes the
    record the defaults of message 0415 with rs = [rc]. *)
Theorem installFS_reports_detach_failure
    (env : nat -> proc_result) (msgs : Catalog)
    (rh_userid vaddr mode fileSystem diskType dev text : string)
    (f : frame) (n : nat) (t : list event) (rc : Z) (o : stdout)
    (v : pyval) :
  installFS_prepare env msgs rh_userid vaddr mode diskType 0%nat =
    Run (Ret f) n t ->
  ready f dev ->
  env n = Completed (Utf8 text) ->
  env (n + 2)%nat = Raised (CalledProcessError rc o) ->
  defaults msgs "0415" !! "rc" = Some v ->
  let r :=
    installFS env msgs rh_userid vaddr mode fileSystem diskType 0%nat in
  value r = Ret (<["rs" := PInt rc]> (defaults msgs "0415")) /\
  execs (trace r) =
    execs t ++
    [mkfs_cmd fileSystem (dev +:+ "1"); flush_cmd (dev +:+ "1");
     detach_cmd rh_userid vaddr].
Proof.
  intros Hp Hr Em Ed Hrc.
  assert (Ed' : env (S n + 1)%nat = Raised (CalledProcessError rc o)).
  { rewrite <- Ed. f_equal. lia. }
  destruct (installFS_finish_run env msgs rh_userid vaddr fileSystem dev text
              f n (<["rs" := PInt rc]> (defaults msgs "0415")) v Hr Em)
    as (Fv & Fe).
  { intros f1 Hr1 Hd1.
    pose proof (release_detach_fails env msgs rh_userid vaddr
                  (dev +:+ "1") f1 (S n) rc o Hd1 Ed') as H.
    cbv zeta in H. destruct H as (_ & Hre & f2 & Hv2 & Hr2).
    exists f2. split; [exact Hv2|]. split; [exact Hre | exact Hr2]. }
  { rewrite lookup_insert_ne by discriminate. exact Hrc. }
  cbv zeta. unfold installFS. cbv zeta. rewrite run_emit.
  rewrite (run_bind_Ret _ _ _ f) by (rewrite Hp; reflexivity).
  rewrite Hp. cbn [value calls trace]. split; [exact Fv|].
  rewrite execs_cons, execs_app, Fe. reflexivity.
Qed.

Lemma installFS_reports_detach_failure_witness :
  let env := script [linked; done; done; done; done; done; done] exit1 in
  let p := installFS_prepare env sample_msgs "MAINT" "193" "W" "3390" 0%nat in
  let r := installFS env sample_msgs "MAINT" "193" "W" "ext4" "3390" 0%nat in
  value r = Ret (<["rs" := PInt 1]> (defaults sample_msgs "0415")) /\
  execs (trace r) =
    execs (trace p) ++
    [mkfs_cmd "ext4" ("/dev/dasdh" +:+ "1"); flush_cmd ("/dev/dasdh" +:+ "1");
     detach_cmd "MAINT" "193"].
Proof.
  intros env p.
  apply (installFS_reports_detach_failure env sample_msgs "MAINT" "193" "W"
           "ext4" "3390" "/dev/dasdh" ""
           (match value p with Ret f => f | Raise _ => installFS_frame0 end)
           5%nat (trace p) 1 (Utf8 "busy") (PInt 415)).
  - vm_compute. reflexivity.
  - split; [vm_compute; reflexivity|].
    split; [vm_compute; reflexivity|]. eexists. vm_compute. reflexivity.
  - reflexivity.
  - reflexivity.
  - vm_compute. reflexivity.
Defined.

(** X19.  When the link of the disk succeeds but its output has no line
    "Success: ..." with at least ten words, no device is assigned; with
    non-zero overallRC in the defaults of messages 0416 and 0417 every
    later step is skipped, and the release step raises UnboundLocalError:
    installFS returns no record and the disk stays linked, neither flushed
    nor detached. *)
Theorem installFS_raises_when_device_not_found
    (env : nat -> proc_result) (msgs : Catalog)
    (rh_userid vaddr mode fileSystem diskType text : string) :
  env 0%nat = Completed (Utf8 text) ->
  (forall g, PyStr.search_group "Success:" PyStr.LF text = Some g ->
             (length (PyStr.split_ws g) <= 9)%nat) ->
  (forall id, In id ["0416"; "0417"] ->
     exists orc, defaults msgs id !! "overallRC" = Some orc /\
                 eq_int orc 0 = false) ->
  let r :=
    installFS env msgs rh_userid vaddr mode fileSystem diskType 0%nat in
  value r = Raise (UnboundLocalError "device") /\
  execs (trace r) = [link_cmd rh_userid vaddr mode].
Proof.
  intros E0 Hmiss Hcat.
  pose proof (acquire_after_failures env msgs rh_userid vaddr mode text
                installFS_frame0 0%nat 0%nat ltac:(simpl; lia)
                ltac:(intros i Hi; lia) E0) as Ha.
  cbv zeta in Ha. destruct Ha as (He & _ & Hc & f1 & Hv & Hr & Ho & Hd).
  destruct (locate_missing msgs f1 text 1%nat Ho Hmiss)
    as (f & id & Hid & Lv & Lc & Le & Lr & Ld).
  destruct (Hcat id Hid) as (orc & Horc & Hz).
  assert (Ho' : results f !! "overallRC" = Some orc)
    by (rewrite Lr; exact Horc).
  assert (Hdev : device f = None) by (rewrite Ld, Hd; reflexivity).
  assert (Hg1 : gate true (locate msgs) f1 1%nat = locate msgs f1 1%nat).
  { unfold gate, getitem. rewrite Hr.
    change (results installFS_frame0 !! "overallRC") with (Some (PInt 0)).
    cbn [lift]. rewrite run_ret. cbn [eq_int Z.eqb andb]. apply run_eta. }
  assert (Hp : let p := installFS_prepare env msgs rh_userid vaddr mode
                          diskType 0%nat in
               value p = Ret f /\ calls p = 1%nat /\
               execs (trace p) = [link_cmd rh_userid vaddr mode]).
  { cbv zeta. unfold installFS_prepare.
    rewrite (run_bind_Ret _ _ _ f1 Hv), Hc. cbn [Nat.add].
    rewrite (run_bind_Ret _ _ _ f) by (rewrite Hg1; exact Lv).
    rewrite Hg1, Lc.
    repeat (rewrite (run_bind_Ret _ _ _ f)
              by (rewrite (gate_skips _ _ f orc _ Ho' Hz);
                  reflexivity);
            rewrite (gate_skips _ _ f orc _ Ho' Hz);
            cbn [value calls trace]).
    rewrite (gate_skips _ _ f orc _ Ho' Hz). cbn [value calls trace].
    rewrite !app_nil_r, execs_app, He, Le. repeat split. }
  cbv zeta in Hp. destruct Hp as (Pv & Pc & Pe).
  cbv zeta. unfold installFS. cbv zeta. rewrite run_emit.
  rewrite (run_bind_Ret _ _ _ f Pv), Pc. cbn [value calls trace].
  unfold installFS_finish.
  rewrite (run_bind_Ret _ _ _ f)
    by (rewrite (gate_skips _ _ f orc _ Ho' Hz); reflexivity).
  rewrite (gate_skips _ _ f orc _ Ho' Hz). cbn [value calls trace].
  assert (Hrel : release env msgs rh_userid vaddr f 1%nat =
                 Run (Raise (UnboundLocalError "device")) 1%nat []).
  { unfold release, get_device. rewrite Hdev. reflexivity. }
  rewrite (run_bind_Raise _ _ _ _ ltac:(rewrite Hrel; reflexivity)).
  rewrite Hrel. cbn [value calls trace]. traces_only. rewrite Pe.
  split; reflexivity.
Qed.

Lemma installFS_raises_when_device_not_found_witness :
  let env := script [] (Completed (Utf8 "Failed")) in
  let r := installFS env sample_msgs "MAINT" "193" "W" "ext4" "3390" 0%nat in
  value r = Raise (UnboundLocalError "device") /\
  execs (trace r) = [link_cmd "MAINT" "193" "W"].
Proof.
  intros env.
  apply (installFS_raises_when_device_not_found env sample_msgs "MAINT"
           "193" "W" "ext4" "3390" "Failed").
  - reflexivity.
  - intros g Hg. vm_compute in Hg. discriminate.
  - intros id [<- | [<- | []]]; eexists; split; reflexivity.
Defined.

(** ** isLoggedOn *)

Section IsLoggedOn.

Variable env : nat -> proc_result.
Variable msgs : Catalog.

(** isLoggedOn around the try statement. *)
Lemma isLoggedOn_run (userid : string) (n : nat) (d : dict)
    (t : list event) (orc rc rs : pyval) :
  logon_query env msgs userid n = Run (Ret d) (S n) t ->
  d !! "overallRC" = Some orc ->
  d !! "rc" = Some rc ->
  d !! "rs" = Some rs ->
  let r := isLoggedOn env msgs userid n in
  value r = Ret d /\ effects (trace r) = effects t.
Proof.
  intros H Ho Hrc Hrs. unfold isLoggedOn.
  rewrite !run_emit. rewrite run_bind, H. cbv zeta.
  cbn [value calls trace]. unfold getitem, lift. rewrite Ho, Hrc, Hrs.
  rewrite !run_ret, run_emit. effects_only. auto.
Qed.

End IsLoggedOn.

(** X21.  isLoggedOn reports rs=0 (logged on) when the query runs to its
    end, whatever it prints, and rs=1 (logged off) when it fails with an
    output that starts with the message HCPxxx045E or HCPxxx361E; in both
    cases overallRC=0 and rc=0, and the one command spawned is
    [vmcp query user] for the userid. *)
Theorem isLoggedOn_status
    (env env' : nat -> proc_result) (msgs : Catalog) (userid : string)
    (n : nat) (b o : stdout) (rc : Z) :
  env n = Completed b ->
  env' n = Raised (CalledProcessError rc o) ->
  PyRe.logged_off (decode_replace o) = true ->
  let r := isLoggedOn env msgs userid n in
  let r' := isLoggedOn env' msgs userid n in
  value r = Ret (logon_status 0) /\
  value r' = Ret (logon_status 1) /\
  effects (trace r) = [Exec (vmcp_query_user userid) None] /\
  effects (trace r') = [Exec (vmcp_query_user userid) None].
Proof.
  intros E E' Hm.
  destruct (isLoggedOn_run env msgs userid n (logon_status 0)
              [Exec (vmcp_query_user userid) None] (PInt 0) (PInt 0)
              (PInt 0)) as (Hv & He); try reflexivity.
  { unfold logon_query. cbv zeta.
    rewrite (run_try_completed env _ _ _ _ n _ E). reflexivity. }
  destruct (isLoggedOn_run env' msgs userid n (logon_status 1)
              [Exec (vmcp_query_user userid) None] (PInt 0) (PInt 0)
              (PInt 1)) as (Hv' & He'); try reflexivity.
  { unfold logon_query. cbv zeta.
    rewrite (run_try_raised env' _ _ _ _ n _ E'). rewrite Hm. reflexivity. }
  cbv zeta. auto.
Qed.

Lemma isLoggedOn_status_witness :
  let env := script [] (Completed (Utf8 "USER1 - DSC")) in
  let env' :=
    script []
      (Raised (CalledProcessError 45
                 (Utf8 "HCPCQU045E USER1 not logged on"))) in
  let r := isLoggedOn env sample_msgs "USER1" 0%nat in
  let r' := isLoggedOn env' sample_msgs "USER1" 0%nat in
  value r = Ret (logon_status 0) /\
  value r' = Ret (logon_status 1) /\
  effects (trace r) = [Exec (vmcp_query_user "USER1") None] /\
  effects (trace r') = [Exec (vmcp_query_user "USER1") None].
Proof.
  intros env env'.
  apply (isLoggedOn_status env env' sample_msgs "USER1" 0%nat
           (Utf8 "USER1 - DSC") (Utf8 "HCPCQU045E USER1 not logged on") 45);
    reflexivity.
Defined.

(** X22.  When the query fails with an output that does not start with
    one of the two messages, isLoggedOn prints message 0415 and returns
    its defaults with rs set to the exit status of the command. *)
Theorem isLoggedOn_abnormal_failure
    (env : nat -> proc_result) (msgs : Catalog) (userid : string)
    (n : nat) (o : stdout) (returncode : Z) (orc rc : pyval) :
  env n = Raised (CalledProcessError returncode o) ->
  PyRe.logged_off (decode_replace o) = false ->
  defaults msgs "0415" !! "overallRC" = Some orc ->
  defaults msgs "0415" !! "rc" = Some rc ->
  let r := isLoggedOn env msgs userid n in
  value r = Ret (<["rs" := PInt returncode]> (defaults msgs "0415")) /\
  In (PrintLn "ES"
        [PStr (template msgs "0415"
                 [PStr modId; PStr (join_cmd (vmcp_query_user userid));
                  PInt returncode; PBytes o])]) (trace r).
Proof.
  intros E Hm Ho Hrc. cbv zeta.
  unfold isLoggedOn. rewrite !run_emit.
  rewrite run_bind. unfold logon_query. cbv zeta.
  rewrite (run_try_raised env _ _ _ _ n _ E), Hm.
  cbv zeta. rewrite run_emit. cbn [value calls trace ret].
  unfold getitem, lift.
  rewrite !lookup_insert_ne by discriminate. rewrite Ho, Hrc.
  rewrite lookup_insert_eq. rewrite !run_ret, run_emit.
  cbn [value calls trace ret app]. split; [reflexivity|].
  cbn. auto 10.
Qed.

Lemma isLoggedOn_abnormal_failure_witness :
  let o := Utf8 "vmcp: not authorized" in
  let env := script [] (Raised (CalledProcessError 1 o)) in
  let r := isLoggedOn env sample_msgs "USER1" 0%nat in
  value r = Ret (<["rs" := PInt 1]> (defaults sample_msgs "0415")) /\
  In (PrintLn "ES"
        [PStr (template sample_msgs "0415"
                 [PStr modId; PStr (join_cmd (vmcp_query_user "USER1"));
                  PInt 1; PBytes o])]) (trace r).
Proof.
  intros o env.
  apply (isLoggedOn_abnormal_failure env sample_msgs "USER1" 0%nat o 1
           (PInt 3) (PInt 415)); reflexivity.
Defined.

(** X23.  isLoggedOn lets no exception escape: with a catalogue whose
    defaults of messages 0415 and 0421 carry overallRC, rc and rs, every
    outcome of the spawn, an exception or output that is no UTF-8
    included, gives a record, after exactly one spawn. *)
Theorem isLoggedOn_returns_a_record
    (env : nat -> proc_result) (msgs : Catalog) (userid : string) (n : nat) :
  (forall id k, In id ["0415"; "0421"] -> In k ["overallRC"; "rc"; "rs"] ->
                is_Some (defaults msgs id !! k)) ->
  let r := isLoggedOn env msgs userid n in
  (exists d, value r = Ret d) /\
  effects (trace r) = [Exec (vmcp_query_user userid) None].
Proof.
  intros Hcat.
  destruct (Hcat "0415" "overallRC") as [o5 Ho5]; [cbn; auto..|].
  destruct (Hcat "0415" "rc") as [c5 Hc5]; [cbn; auto..|].
  destruct (Hcat "0421" "overallRC") as [o1 Ho1]; [cbn; auto..|].
  destruct (Hcat "0421" "rc") as [c1 Hc1]; [cbn; auto..|].
  destruct (Hcat "0421" "rs") as [s1 Hs1]; [cbn; auto..|].
  assert (H : exists d t orc rc rs,
    logon_query env msgs userid n = Run (Ret d) (S n) t /\
    effects t = [Exec (vmcp_query_user userid) None] /\
    d !! "overallRC" = Some orc /\ d !! "rc" = Some rc /\
    d !! "rs" = Some rs).
  { unfold logon_query. cbv zeta. destruct (env n) as [b|e] eqn:E.
    - rewrite (run_try_completed env _ _ _ _ n _ E).
      do 5 eexists. split; [reflexivity|]. repeat split.
    - rewrite (run_try_raised env _ _ _ _ n _ E).
      destruct e;
        try (cbv zeta; rewrite run_emit; cbn [value calls trace ret];
             do 5 eexists; split; [reflexivity|];
             split; [reflexivity|]; split; [exact Ho1|];
             split; [exact Hc1 | exact Hs1]).
      destruct (PyRe.logged_off (decode_replace output)).
      + do 5 eexists. split; [reflexivity|]. repeat split.
      + cbv zeta. rewrite run_emit. cbn [value calls trace ret].
        do 5 eexists. split; [reflexivity|]. split; [reflexivity|].
        rewrite !lookup_insert_ne by discriminate.
        rewrite lookup_insert_eq. repeat split; eassumption. }
  destruct H as (d & t & orc & rc & rs & Hr & Ht & Ho & Hc & Hs).
  destruct (isLoggedOn_run env msgs userid n d t orc rc rs Hr Ho Hc Hs)
    as (Hv & He).
  cbv zeta. split; [exists d; exact Hv|]. rewrite He. exact Ht.
Qed.

Lemma isLoggedOn_returns_a_record_witness :
  let env := script [] (Raised (OtherError "OSError" "no such file")) in
  let r := isLoggedOn env sample_msgs "USER1" 0%nat in
  (exists d, value r = Ret d) /\
  effects (trace r) = [Exec (vmcp_query_user "USER1") None].
Proof.
  intros env.
  apply (isLoggedOn_returns_a_record env sample_msgs "USER1" 0%nat).
  intros id k [<- | [<- | []]] [<- | [<- | [<- | []]]];
    eexists; vm_compute; reflexivity.
Defined.

(** ** waitForVMState *)

Section WaitForVMState.

Variable env : nat -> proc_result.
Variable msgs : Catalog.
Variable alnum : N -> bool.

Lemma query_user_waits (userid desiredState : string) (n : nat) :
  keeps_waiting alnum desiredState (env n) ->
  exists t,
    query_user env msgs alnum userid desiredState n = Run (Ret None) (S n) t /\
    execs t = [vmcp_query_user userid] /\ sleeps t = [].
Proof.
  unfold keeps_waiting, query_user. cbv zeta. rewrite run_emit.
  destruct (env n) as [[text|lossy]|e] eqn:E.
  - intros Hd. apply String.eqb_neq in Hd.
    rewrite (run_try_completed env _ _ _ _ n _ E).
    unfold decode. rewrite run_ret, run_emit. cbv zeta.
    cbn [value calls trace ret]. rewrite Hd.
    eexists. split; [reflexivity|]. split; reflexivity.
  - intros _. rewrite (run_try_completed env _ _ _ _ n _ E).
    unfold decode. cbv zeta. cbn [value calls trace raise bind].
    rewrite run_emit. cbn [value calls trace ret].
    eexists. split; [reflexivity|]. split; reflexivity.
  - rewrite (run_try_raised env _ _ _ _ n _ E).
    destruct e as [rc [text|lossy]| | | | | | | |];
      try (intros _; cbv zeta; rewrite run_emit; cbn [value calls trace ret];
           eexists; split; [reflexivity|]; split; reflexivity).
    + intros [Hm Hd]. apply String.eqb_neq in Hd.
      unfold decode. rewrite run_ret, run_emit. cbv zeta.
      cbn [value calls trace ret]. rewrite Hm, Hd.
      eexists. split; [reflexivity|]. split; reflexivity.
    + intros [].
Qed.

Lemma query_user_awaited (userid desiredState : string) (n : nat) :
  awaited alnum desiredState (env n) ->
  exists t,
    query_user env msgs alnum userid desiredState n =
      Run (Ret (Some true)) (S n) t /\
    execs t = [vmcp_query_user userid] /\ sleeps t = [].
Proof.
  unfold awaited, query_user. cbv zeta. rewrite run_emit.
  destruct (env n) as [[text|lossy]|e] eqn:E;
    try (intros H; solve [destruct H]).
  - intros ->. rewrite (run_try_completed env _ _ _ _ n _ E).
    unfold decode. rewrite run_ret, run_emit. cbv zeta.
    cbn [value calls trace ret].
    eexists. split; [reflexivity|]. split; reflexivity.
  - destruct e as [rc [text|lossy]| | | | | | | |];
      try (intros H; solve [destruct H]).
    intros [Hm ->]. rewrite (run_try_raised env _ _ _ _ n _ E).
    unfold decode. rewrite run_ret, run_emit. cbv zeta.
    cbn [value calls trace ret]. rewrite Hm.
    eexists. split; [reflexivity|]. split; reflexivity.
Qed.

Lemma query_user_abnormal (userid desiredState text : string) (rc : Z)
    (n : nat) :
  env n = Raised (CalledProcessError rc (Utf8 text)) ->
  PyRe.logged_off_str alnum text = false ->
  exists t,
    query_user env msgs alnum userid desiredState n =
      Run (Ret (Some false)) (S n) t /\
    execs t = [vmcp_query_user userid] /\ sleeps t = [] /\
    In (PrintLn "ES"
          [PStr (template msgs "0415"
                   [PStr modId; PStr (join_cmd (vmcp_query_user userid));
                    PInt rc; PStr text])]) t.
Proof.
  intros E Hm. unfold query_user. cbv zeta. rewrite run_emit.
  rewrite (run_try_raised env _ _ _ _ n _ E).
  unfold decode. rewrite run_ret, run_emit. cbv zeta.
  cbn [value calls trace ret]. rewrite Hm. rewrite run_emit.
  cbn [value calls trace ret].
  eexists. split; [reflexivity|]. split; [reflexivity|].
  split; [reflexivity|]. cbn. auto 10.
Qed.

(** The sleeps of the loop over the indices [ixs] when every query goes
    on. *)
Lemma waitForVMState_loop_waits (userid desiredState : string)
    (maxQueries : Z) (sleepSecs : Q) (ixs : list Z) :
  forall (k n : nat),
    (k <= length ixs)%nat ->
    (forall j, (j < k)%nat ->
       keeps_waiting alnum desiredState (env (n + j)%nat)) ->
    let l := waitForVMState_loop env msgs alnum userid desiredState maxQueries
               sleepSecs ixs n in
    let l' := waitForVMState_loop env msgs alnum userid desiredState maxQueries
                sleepSecs (drop k ixs) (n + k)%nat in
    value l = value l' /\
    execs (trace l) =
      replicate k (vmcp_query_user userid) ++ execs (trace l') /\
    sleeps (trace l) =
      flat_map (fun i => if i <? maxQueries then [sleepSecs] else [])
        (take k ixs) ++ sleeps (trace l') /\
    exists t, trace l = t ++ trace l'.
Proof.
  induction ixs as [|i ixs IH]; intros k n Hk Hw.
  - simpl in Hk. assert (k = 0%nat) as -> by lia.
    rewrite Nat.add_0_r. cbn. repeat split. exists []. reflexivity.
  - destruct k as [|k].
    { rewrite Nat.add_0_r. cbn [drop take replicate flat_map app].
      repeat split. exists []. reflexivity. }
    pose proof (Hw 0%nat ltac:(lia)) as H0. rewrite Nat.add_0_r in H0.
    destruct (query_user_waits userid desiredState n H0)
      as (t0 & Hq & He & Hs).
    destruct (IH k (S n)) as (Iv & Ie & Is & t1 & It).
    + simpl in Hk. lia.
    + intros j Hj. replace (S n + j)%nat with (n + S j)%nat by lia.
      apply Hw. lia.
    + cbv zeta in *. cbn [waitForVMState_loop drop take replicate flat_map].
      replace (n + S k)%nat with (S n + k)%nat by lia.
      rewrite run_bind, Hq. cbv zeta. cbn [value calls trace].
      destruct (i <? maxQueries).
      * rewrite run_emit. traces_only. rewrite He, Hs, Iv, Ie, Is.
        repeat split. rewrite It. exists (t0 ++ Sleep sleepSecs :: t1).
        rewrite <- !app_assoc. reflexivity.
      * rewrite run_ret. traces_only. rewrite He, Hs, Iv, Ie, Is.
        repeat split. rewrite It. exists (t0 ++ t1).
        rewrite <- !app_assoc. reflexivity.
Qed.

Lemma sleeps_below (maxQueries : Z) (sleepSecs : Q) (l : list Z) :
  (forall j i, l !! j = Some i -> (i < maxQueries)) ->
  flat_map (fun i => if i <? maxQueries then [sleepSecs] else []) l =
  replicate (length l) sleepSecs.
Proof.
  induction l as [|i l IH]; intros H; [reflexivity|].
  cbn [flat_map length replicate].
  assert (Hi : (i <? maxQueries) = true)
    by (apply Z.ltb_lt; apply (H 0%nat); reflexivity).
  rewrite Hi, IH; [reflexivity|].
  intros j i' Hj. apply (H (S j)). exact Hj.
Qed.

Lemma sleeps_until_last (m : nat) (sleepSecs : Q) :
  forall len a : nat,
    (a + len = S m)%nat ->
    flat_map (fun i => if i <? Z.of_nat m then [sleepSecs] else [])
      (map Z.of_nat (seq a len)) =
    replicate (len - 1) sleepSecs.
Proof.
  induction len as [|len IH]; intros a Ha; [reflexivity|].
  cbn [seq map flat_map]. rewrite (IH (S a)) by lia.
  destruct (Z.ltb_spec (Z.of_nat a) (Z.of_nat m)) as [Hlt|Hge].
  - replace (S len - 1)%nat with (S (len - 1)) by lia. reflexivity.
  - assert (len = 0%nat) as -> by lia. reflexivity.
Qed.

Lemma sleeps_range1 (maxQueries : Z) (sleepSecs : Q) :
  flat_map (fun i => if i <? maxQueries then [sleepSecs] else [])
    (range1 maxQueries) =
  replicate (Z.to_nat maxQueries - 1) sleepSecs.
Proof.
  unfold range1. destruct (Z.to_nat maxQueries) as [|m] eqn:Hm.
  - reflexivity.
  - replace maxQueries with (Z.of_nat (S m)) by lia.
    apply sleeps_until_last. lia.
Qed.

(** waitForVMState after its loop. *)
Lemma waitForVMState_run (userid desiredState : string) (maxQueries : Z)
    (sleepSecs : Q) (n : nat) (found : bool) (orc : pyval) :
  let l := waitForVMState_loop env msgs alnum userid desiredState maxQueries
             sleepSecs (range1 maxQueries) n in
  let r := waitForVMState env msgs alnum userid desiredState maxQueries
             sleepSecs n in
  value l = Ret found ->
  (found = false -> defaults msgs "0414" !! "overallRC" = Some orc) ->
  value r = Ret (if found then success3 else defaults msgs "0414") /\
  execs (trace r) = execs (trace l) /\
  sleeps (trace r) = sleeps (trace l) /\
  (forall e, In e (trace l) -> In e (trace r)) /\
  (found = false ->
   In (PrintLn "ES"
         [PStr (template msgs "0414"
                  [PStr modId; PStr userid; PStr desiredState;
                   PNum (inject_Z maxQueries * sleepSecs)])]) (trace r)).
Proof.
  cbv zeta. intros Hv H414. unfold waitForVMState. cbv zeta.
  rewrite run_emit. rewrite (run_bind_Ret _ _ _ found Hv). cbv beta iota.
  destruct found.
  - rewrite run_ret. cbn [value calls trace ret].
    unfold getitem, lift. rewrite success3_overallRC, run_ret, run_emit.
    traces_only. repeat split; try discriminate.
    intros e He. right. apply in_or_app. left. exact He.
  - rewrite run_bind, run_emit. cbv zeta. cbn [value calls trace ret].
    unfold getitem, lift. rewrite (H414 eq_refl), run_ret, run_emit.
    traces_only. repeat split.
    + intros e He. right. apply in_or_app. left. exact He.
    + intros _. right. apply in_or_app. right. left. reflexivity.
Qed.

End WaitForVMState.

Section WaitForVMStateEnds.

Variable env : nat -> proc_result.
Variable msgs : Catalog.
Variable alnum : N -> bool.

(** The loop of waitForVMState when the query of index [k] ends it. *)
Lemma waitForVMState_loop_ends (userid desiredState : string)
    (maxQueries : Z) (sleepSecs : Q) (k n : nat) (found : bool)
    (t : list event) :
  (k < Z.to_nat maxQueries)%nat ->
  (forall j, (j < k)%nat ->
     keeps_waiting alnum desiredState (env (n + j)%nat)) ->
  query_user env msgs alnum userid desiredState (n + k)%nat =
    Run (Ret (Some found)) (S (n + k)) t ->
  execs t = [vmcp_query_user userid] ->
  sleeps t = [] ->
  let l := waitForVMState_loop env msgs alnum userid desiredState maxQueries
             sleepSecs (range1 maxQueries) n in
  value l = Ret found /\
  execs (trace l) = replicate (k + 1) (vmcp_query_user userid) /\
  sleeps (trace l) = replicate k sleepSecs /\
  (forall e, In e t -> In e (trace l)).
Proof.
  intros Hk Hw Hq He Hs.
  destruct (waitForVMState_loop_waits env msgs alnum userid desiredState
              maxQueries sleepSecs (range1 maxQueries) k n)
    as (Lv & Le & Ls & t0 & Lt).
  { rewrite length_range1. lia. }
  { exact Hw. }
  cbv zeta in *.
  assert (Hlen : (k < length (range1 maxQueries))%nat)
    by (rewrite length_range1; exact Hk).
  destruct (lookup_lt_is_Some_2 _ _ Hlen) as [i Hi].
  rewrite (drop_S _ _ _ Hi) in Lv, Le, Ls, Lt.
  cbn [waitForVMState_loop] in Lv, Le, Ls, Lt.
  rewrite run_bind, Hq in Lv, Le, Ls, Lt. cbv zeta in Lv, Le, Ls, Lt.
  cbn [value calls trace ret] in Lv, Le, Ls, Lt.
  rewrite app_nil_r in Le, Ls, Lt. rewrite He in Le. rewrite Hs in Ls.
  rewrite app_nil_r in Ls.
  rewrite sleeps_below in Ls.
  2:{ intros j i' Hj. apply lookup_take_Some in Hj. destruct Hj as [Hj Hjk].
      apply lookup_range1 in Hj. lia. }
  rewrite length_take, Nat.min_l in Ls by lia.
  split; [exact Lv|]. split; [rewrite Le, replicate_add; reflexivity|].
  split; [exact Ls|].
  intros e Hin. rewrite Lt. apply in_or_app. right. exact Hin.
Qed.

End WaitForVMStateEnds.

(** X24.  When every query goes on (the answer is not the awaited one,
    the spawn raises an exception that is no failure of vmcp, or the
    output of a query that ran to its end is no UTF-8), waitForVMState
    spawns maxQueries queries, sleeps maxQueries - 1 times, prints
    message 0414 with maxQueries * sleepSecs as the maximum wait and
    returns the defaults of that message. *)
Theorem waitForVMState_times_out
    (env : nat -> proc_result) (msgs : Catalog) (alnum : N -> bool)
    (userid desiredState : string) (maxQueries : Z) (sleepSecs : Q)
    (n : nat) (orc : pyval) :
  (forall j, (j < Z.to_nat maxQueries)%nat ->
     keeps_waiting alnum desiredState (env (n + j)%nat)) ->
  defaults msgs "0414" !! "overallRC" = Some orc ->
  let r := waitForVMState env msgs alnum userid desiredState maxQueries
             sleepSecs n in
  value r = Ret (defaults msgs "0414") /\
  execs (trace r) =
    replicate (Z.to_nat maxQueries) (vmcp_query_user userid) /\
  sleeps (trace r) = replicate (Z.to_nat maxQueries - 1) sleepSecs /\
  In (PrintLn "ES"
        [PStr (template msgs "0414"
                 [PStr modId; PStr userid; PStr desiredState;
                  PNum (inject_Z maxQueries * sleepSecs)])]) (trace r).
Proof.
  intros Hw H414.
  destruct (waitForVMState_loop_waits env msgs alnum userid desiredState
              maxQueries sleepSecs (range1 maxQueries) (Z.to_nat maxQueries) n)
    as (Lv & Le & Ls & _).
  { rewrite length_range1. lia. }
  { exact Hw. }
  cbv zeta in Lv, Le, Ls.
  rewrite drop_ge in Lv, Le, Ls by (rewrite length_range1; lia).
  rewrite take_ge in Ls by (rewrite length_range1; lia).
  cbn [waitForVMState_loop value trace ret] in Lv, Le, Ls.
  rewrite execs_nil, app_nil_r in Le. rewrite sleeps_nil, app_nil_r in Ls.
  rewrite sleeps_range1 in Ls.
  pose proof (waitForVMState_run env msgs alnum userid desiredState maxQueries
                sleepSecs n false orc) as Hr.
  cbv zeta in Hr. destruct (Hr Lv (fun _ => H414)) as (Rv & Re & Rs & _ & Rp).
  cbv zeta. rewrite Re, Rs, Le, Ls. auto.
Qed.

Lemma waitForVMState_times_out_witness :
  let env := script [] (Completed (Utf8 "USER1 - DSC")) in
  let r :=
    waitForVMState env sample_msgs sample_alnum "USER1" "off" 90 5 0%nat in
  value r = Ret (defaults sample_msgs "0414") /\
  execs (trace r) = replicate (Z.to_nat 90) (vmcp_query_user "USER1") /\
  sleeps (trace r) = replicate (Z.to_nat 90 - 1) 5%Q /\
  In (PrintLn "ES"
        [PStr (template sample_msgs "0414"
                 [PStr modId; PStr "USER1"; PStr "off";
                  PNum (inject_Z 90 * 5)])]) (trace r).
Proof.
  intros env.
  apply (waitForVMState_times_out env sample_msgs sample_alnum "USER1" "off"
           90 5 0%nat
           (PInt 4)).
  - intros j Hj. simpl. discriminate.
  - vm_compute. reflexivity.
Defined.

(** X25.  When the queries before the one of index [k] go on and that one
    gives the awaited state (it runs to its end and 'on' is awaited, or it
    fails with one of the two logged-off messages and 'off' is awaited),
    waitForVMState returns overallRC=0, rc=0, rs=0 after [k + 1] queries
    and [k] sleeps. *)
Theorem waitForVMState_finds_state
    (env : nat -> proc_result) (msgs : Catalog) (alnum : N -> bool)
    (userid desiredState : string) (maxQueries : Z) (sleepSecs : Q)
    (k n : nat) :
  (k < Z.to_nat maxQueries)%nat ->
  (forall j, (j < k)%nat ->
     keeps_waiting alnum desiredState (env (n + j)%nat)) ->
  awaited alnum desiredState (env (n + k)%nat) ->
  let r := waitForVMState env msgs alnum userid desiredState maxQueries
             sleepSecs n in
  value r = Ret success3 /\
  execs (trace r) = replicate (k + 1) (vmcp_query_user userid) /\
  sleeps (trace r) = replicate k sleepSecs.
Proof.
  intros Hk Hw Ha.
  destruct (query_user_awaited env msgs alnum userid desiredState (n + k)%nat
              Ha)
    as (t & Hq & He & Hs).
  pose proof (waitForVMState_loop_ends env msgs alnum userid desiredState
                maxQueries sleepSecs k n true t Hk Hw Hq He Hs) as Hl.
  cbv zeta in Hl. destruct Hl as (Lv & Le & Ls & _).
  pose proof (waitForVMState_run env msgs alnum userid desiredState maxQueries
                sleepSecs n true PNone) as Hr.
  cbv zeta in Hr.
  destruct (Hr Lv ltac:(discriminate)) as (Rv & Re & Rs & _).
  cbv zeta. rewrite Re, Rs, Le, Ls. auto.
Qed.

Lemma waitForVMState_finds_state_witness :
  let env :=
    script [Completed (Utf8 "USER1 - DSC")]
      (Raised (CalledProcessError 45
                 (Utf8 "HCPCQU045E USER1 not logged on"))) in
  let r :=
    waitForVMState env sample_msgs sample_alnum "USER1" "off" 90 5 0%nat in
  value r = Ret success3 /\
  execs (trace r) = replicate (1 + 1) (vmcp_query_user "USER1") /\
  sleeps (trace r) = replicate 1 5%Q.
Proof.
  intros env.
  apply (waitForVMState_finds_state env sample_msgs sample_alnum "USER1"
           "off" 90 5 1%nat
           0%nat).
  - vm_compute. lia.
  - intros j Hj. destruct j as [|j]; [|lia]. simpl. discriminate.
  - simpl. split; reflexivity.
Defined.

(** X26.  When a query fails with an output that starts with neither of
    the two logged-off messages, waitForVMState prints message 0415 and
    leaves its loop at once, but the record it then returns is the one of
    the timeout, the defaults of message 0414, which it prints too: the
    failure is reported as a timeout. *)
Theorem waitForVMState_abnormal_failure_is_a_timeout
    (env : nat -> proc_result) (msgs : Catalog) (alnum : N -> bool)
    (userid desiredState text : string) (maxQueries : Z) (sleepSecs : Q)
    (k n : nat) (rc : Z) (orc : pyval) :
  (k < Z.to_nat maxQueries)%nat ->
  (forall j, (j < k)%nat ->
     keeps_waiting alnum desiredState (env (n + j)%nat)) ->
  env (n + k)%nat = Raised (CalledProcessError rc (Utf8 text)) ->
  PyRe.logged_off_str alnum text = false ->
  defaults msgs "0414" !! "overallRC" = Some orc ->
  let r := waitForVMState env msgs alnum userid desiredState maxQueries
             sleepSecs n in
  value r = Ret (defaults msgs "0414") /\
  execs (trace r) = replicate (k + 1) (vmcp_query_user userid) /\
  sleeps (trace r) = replicate k sleepSecs /\
  In (PrintLn "ES"
        [PStr (template msgs "0415"
                 [PStr modId; PStr (join_cmd (vmcp_query_user userid));
                  PInt rc; PStr text])]) (trace r) /\
  In (PrintLn "ES"
        [PStr (template msgs "0414"
                 [PStr modId; PStr userid; PStr desiredState;
                  PNum (inject_Z maxQueries * sleepSecs)])]) (trace r).
Proof.
  intros Hk Hw E Hm H414.
  destruct (query_user_abnormal env msgs alnum userid desiredState text rc
              (n + k)%nat E Hm) as (t & Hq & He & Hs & Hp).
  pose proof (waitForVMState_loop_ends env msgs alnum userid desiredState
                maxQueries sleepSecs k n false t Hk Hw Hq He Hs) as Hl.
  cbv zeta in Hl. destruct Hl as (Lv & Le & Ls & Lin).
  pose proof (waitForVMState_run env msgs alnum userid desiredState maxQueries
                sleepSecs n false orc) as Hr.
  cbv zeta in Hr.
  destruct (Hr Lv (fun _ => H414)) as (Rv & Re & Rs & Rin & Rp).
  cbv zeta. rewrite Re, Rs, Le, Ls. auto 10.
Qed.

Lemma waitForVMState_abnormal_failure_is_a_timeout_witness :
  let env :=
    script [] (Raised (CalledProcessError 1 (Utf8 "vmcp: not authorized"))) in
  let r :=
    waitForVMState env sample_msgs sample_alnum "USER1" "off" 90 5 0%nat in
  value r = Ret (defaults sample_msgs "0414") /\
  execs (trace r) = replicate (0 + 1) (vmcp_query_user "USER1") /\
  sleeps (trace r) = replicate 0 5%Q /\
  In (PrintLn "ES"
        [PStr (template sample_msgs "0415"
                 [PStr modId; PStr (join_cmd (vmcp_query_user "USER1"));
                  PInt 1; PStr "vmcp: not authorized"])]) (trace r) /\
  In (PrintLn "ES"
        [PStr (template sample_msgs "0414"
                 [PStr modId; PStr "USER1"; PStr "off";
                  PNum (inject_Z 90 * 5)])]) (trace r).
Proof.
  intros env.
  apply (waitForVMState_abnormal_failure_is_a_timeout env sample_msgs
           sample_alnum "USER1"
           "off" "vmcp: not authorized" 90 5 0%nat 0%nat 1 (PInt 4)).
  - vm_compute. lia.
  - intros j Hj. lia.
  - reflexivity.
  - reflexivity.
  - vm_compute. reflexivity.
Defined.

(** X27.  When a query fails and its output is no UTF-8, the decoding in
    the handler raises UnicodeDecodeError, which leaves waitForVMState: no
    record is returned. *)
Theorem waitForVMState_undecodable_failure
    (env : nat -> proc_result) (msgs : Catalog) (alnum : N -> bool)
    (userid desiredState lossy : string) (maxQueries : Z) (sleepSecs : Q)
    (k n : nat) (rc : Z) :
  (k < Z.to_nat maxQueries)%nat ->
  (forall j, (j < k)%nat ->
     keeps_waiting alnum desiredState (env (n + j)%nat)) ->
  env (n + k)%nat = Raised (CalledProcessError rc (NotUtf8 lossy)) ->
  value (waitForVMState env msgs alnum userid desiredState maxQueries
           sleepSecs n)
  = Raise UnicodeDecodeError.
Proof.
  intros Hk Hw E.
  destruct (waitForVMState_loop_waits env msgs alnum userid desiredState
              maxQueries sleepSecs (range1 maxQueries) k n) as (Lv & _).
  { rewrite length_range1. lia. }
  { exact Hw. }
  cbv zeta in Lv.
  assert (Hlen : (k < length (range1 maxQueries))%nat)
    by (rewrite length_range1; exact Hk).
  destruct (lookup_lt_is_Some_2 _ _ Hlen) as [i Hi].
  rewrite (drop_S _ _ _ Hi) in Lv. cbn [waitForVMState_loop] in Lv.
  assert (Hq : value (query_user env msgs alnum userid desiredState
                        (n + k)%nat) =
               Raise UnicodeDecodeError).
  { unfold query_user. cbv zeta. rewrite run_emit.
    rewrite (run_try_raised env _ _ _ _ (n + k)%nat _ E). reflexivity. }
  rewrite (run_bind_Raise _ _ _ _ Hq) in Lv. cbn [value] in Lv.
  unfold waitForVMState. cbv zeta. rewrite run_emit.
  rewrite (run_bind_Raise _ _ _ _ Lv). reflexivity.
Qed.

Lemma waitForVMState_undecodable_failure_witness :
  value (waitForVMState
           (script [] (Raised (CalledProcessError 1 (NotUtf8 "?"))))
           sample_msgs sample_alnum "USER1" "off" 90 5 0%nat)
  = Raise UnicodeDecodeError.
Proof.
  apply (waitForVMState_undecodable_failure
           (script [] (Raised (CalledProcessError 1 (NotUtf8 "?"))))
           sample_msgs sample_alnum "USER1" "off" "?" 90 5 0%nat 0%nat 1).
  - vm_compute. lia.
  - intros j Hj. lia.
  - reflexivity.
Defined.

(** ** isLoggedOn and waitForVMState on a machine that is logged off *)

Section Patterns.

Variable alnum : N -> bool.

Lemma word_of_ascii_word (a : ascii) (s : string) :
  PyRe.is_word a = true -> PyRe.word alnum (String a s) = Some s.
Proof.
  destruct a as [[] [] [] [] [] [] [] []]; intros H; try discriminate H;
    reflexivity.
Qed.

(** What the bytes pattern matches, the str pattern matches. *)
Lemma logged_off_str_of_logged_off (s : string) :
  PyRe.logged_off s = true -> PyRe.logged_off_str alnum s = true.
Proof.
  unfold PyRe.logged_off, PyRe.logged_off_str.
  destruct s as [|h s]; [discriminate|].
  destruct (Ascii.eqb_spec h "H") as [->|Hh].
  2:{ destruct h as [[] [] [] [] [] [] [] []]; try discriminate.
      contradiction. }
  destruct s as [|h s]; [discriminate|].
  destruct (Ascii.eqb_spec h "C") as [->|Hh].
  2:{ destruct h as [[] [] [] [] [] [] [] []]; try discriminate.
      contradiction. }
  destruct s as [|h s]; [discriminate|].
  destruct (Ascii.eqb_spec h "P") as [->|Hh].
  2:{ destruct h as [[] [] [] [] [] [] [] []]; try discriminate.
      contradiction. }
  destruct s as [|a [|b [|c rest]]]; try discriminate.
  rewrite !andb_true_iff. intros [[[Ha Hb] Hc] Hm].
  rewrite (word_of_ascii_word a _ Ha), (word_of_ascii_word b _ Hb),
    (word_of_ascii_word c _ Hc).
  exact Hm.
Qed.

End Patterns.

(** X30.  isLoggedOn and waitForVMState agree on a machine that is logged
    off, in one direction: when the query fails with UTF-8 output on which
    isLoggedOn reports rs=1 (its bytes pattern matches), waitForVMState
    awaiting 'off' finds the state with that one query and without a
    sleep.  The str pattern of waitForVMState matches more: after HCP it
    takes letters and digits of any script, where the bytes pattern of
    isLoggedOn takes those of ASCII (see the example that follows). *)
Theorem logged_off_for_isLoggedOn_is_off_for_waitForVMState
    (env : nat -> proc_result) (msgs : Catalog) (alnum : N -> bool)
    (userid text : string) (maxQueries : Z) (sleepSecs : Q) (n : nat)
    (rc : Z) :
  env n = Raised (CalledProcessError rc (Utf8 text)) ->
  PyRe.logged_off text = true ->
  0 < maxQueries ->
  let r := isLoggedOn env msgs userid n in
  let w := waitForVMState env msgs alnum userid "off" maxQueries sleepSecs
             n in
  value r = Ret (logon_status 1) /\
  value w = Ret success3 /\
  execs (trace w) = [vmcp_query_user userid] /\
  sleeps (trace w) = [].
Proof.
  intros E Hm Hq.
  destruct (isLoggedOn_run env msgs userid n (logon_status 1)
              [Exec (vmcp_query_user userid) None] (PInt 0) (PInt 0)
              (PInt 1)) as (Hv & _); try reflexivity.
  { unfold logon_query. cbv zeta.
    rewrite (run_try_raised env _ _ _ _ n _ E). cbn [decode_replace].
    rewrite Hm. reflexivity. }
  assert (Ha : awaited alnum "off" (env (n + 0)%nat)).
  { rewrite Nat.add_0_r, E. split; [|reflexivity].
    apply logged_off_str_of_logged_off. exact Hm. }
  destruct (query_user_awaited env msgs alnum userid "off" (n + 0)%nat Ha)
    as (t & Hqu & He & Hs).
  pose proof (waitForVMState_loop_ends env msgs alnum userid "off"
                maxQueries sleepSecs 0 n true t) as Hl.
  cbv zeta in Hl.
  destruct Hl as (Lv & Le & Ls & _); try assumption.
  { lia. }
  { intros j Hj. lia. }
  pose proof (waitForVMState_run env msgs alnum userid "off" maxQueries
                sleepSecs n true PNone) as Hr.
  cbv zeta in Hr.
  destruct (Hr Lv ltac:(discriminate)) as (Rv & Re & Rs & _).
  cbv zeta. rewrite Re, Rs, Le, Ls. auto.
Qed.

Lemma logged_off_for_isLoggedOn_is_off_for_waitForVMState_witness :
  let env :=
    script []
      (Raised (CalledProcessError 45
                 (Utf8 "HCPCQU045E USER1 not logged on"))) in
  let r := isLoggedOn env sample_msgs "USER1" 0%nat in
  let w :=
    waitForVMState env sample_msgs sample_alnum "USER1" "off" 90 5 0%nat in
  value r = Ret (logon_status 1) /\
  value w = Ret success3 /\
  execs (trace w) = [vmcp_query_user "USER1"] /\
  sleeps (trace w) = [].
Proof.
  intros env.
  apply (logged_off_for_isLoggedOn_is_off_for_waitForVMState env sample_msgs
           sample_alnum "USER1" "HCPCQU045E USER1 not logged on" 90 5 0%nat
           45); reflexivity.
Defined.

(** The other direction fails: on a message whose number follows a letter
    outside ASCII, waitForVMState finds the machine logged off, and
    isLoggedOn reports an abnormal failure of the query. *)
Example logged_off_for_waitForVMState_only :
  let text := "HCP" +:+ utf8 233 +:+ "ab045E USER1 not logged on" in
  let env := script [] (Raised (CalledProcessError 45 (Utf8 text))) in
  value (isLoggedOn env sample_msgs "USER1" 0%nat) =
    Ret (<["rs" := PInt 45]> (defaults sample_msgs "0415")) /\
  value (waitForVMState env sample_msgs sample_alnum "USER1" "off" 90 5
           0%nat) = Ret success3.
Proof. split; vm_compute; reflexivity. Qed.

(** ** purgeReader *)


